(** * sunmoontide: time-series synthesis for a Sun * Moon * Tide calendar

    A shallow embedding of [tides.py] and [astro.py] and the properties of
    their densification, year-bound and lunar-phase routines.

    Numbers.  The floats of [tides.py] are kept abstract: every operation
    the module applies to them is a field of [Tides.Floats], of which
    nothing is assumed, so that its checks on rounded floats can fail.  The
    [ephem.Date] day counts of [astro.py] are idealised by rationals:
    their rounding error is outside the model; the one NaN the code itself
    writes ([float('NaN')] as a plot break) is modelled explicitly.

    Exceptions.  A Python call either returns or raises; [result] records
    which, and which exception class. *)

From Stdlib Require Import ZArith QArith Qround Psatz Lia List Bool.
From Stdlib Require Import Ascii String Sorting.Permutation Sorting.Sorted.
From stdpp Require Import base option list gmap.

Set Default Goal Selector "!".

(** ** Python preliminaries *)

Module Py.

Inductive exn : Type :=
| AssertionError
| ValueError
| IndexError
| AttributeError
| ZeroDivisionError
| UnknownTimeZoneError.

Inductive result (A : Type) : Type :=
| Ok (a : A)
| Raise (e : exn).

Arguments Ok {A} a.
Arguments Raise {A} e.

Definition bind {A B : Type} (m : result A) (k : A -> result B) : result B :=
  match m with
  | Ok a => k a
  | Raise e => Raise e
  end.

(** [assert c] *)
Definition assert (c : bool) : result unit :=
  if c then Ok tt else Raise AssertionError.

Definition returns {A : Type} (m : result A) : Prop := exists a, m = Ok a.

(** Python's [round] sends a tie to the even neighbour.  [fl2] is the floor
    of [2 * x]: when it is even the fraction of [x] is below one half, when
    it is odd the fraction is at least one half, and exactly one half when
    [2 * x] is itself an integer ([exact_half]). *)
Definition round_half_even (fl2 : Z) (exact_half : bool) : Z :=
  let f := (fl2 / 2)%Z in
  if Z.even fl2 then f
  else if exact_half then (if Z.even f then f else f + 1)%Z
  else (f + 1)%Z.

(** A [for] loop that collects one value per element and stops at the first
    exception. *)
Fixpoint for_each {A B : Type} (f : A -> result B) (l : list A)
    : result (list B) :=
  match l with
  | [] => Ok []
  | a :: l' => bind (f a) (fun b => bind (for_each f l') (fun bs => Ok (b :: bs)))
  end.

(** [s[-1]] *)
Definition item_last {A : Type} (s : list A) : result A :=
  match List.rev s with
  | [] => Raise IndexError
  | a :: _ => Ok a
  end.

(** [s[i]] for [i >= 0] *)
Definition getitem {A : Type} (s : list A) (i : nat) : result A :=
  match List.nth_error s i with
  | Some a => Ok a
  | None => Raise IndexError
  end.

End Py.

Import Py.

Declare Scope py_scope.
Delimit Scope py_scope with py.
Notation "x <- m ;; k" := (Py.bind m (fun x => k))
  (at level 100, m at next level, right associativity) : py_scope.
Notation "m ;;; k" := (Py.bind m (fun _ => k))
  (at level 100, right associativity) : py_scope.

(** ** tides.py *)

Module Tides.

(** The floats of [tides.py] are IEEE doubles, held by Python [float]s and
    by NumPy [float64]s.  Their arithmetic is not computed here: every
    operation that the module applies to a float is a field of [Floats], and
    no law is assumed of any of them.  What is proved below therefore holds
    of the doubles as of any other implementation, and an [assert] that
    compares floats can fail. *)
Class Floats : Type := {
  double : Type;
  fadd : double -> double -> double;      (* x + y *)
  fsub : double -> double -> double;      (* x - y *)
  fmul : double -> double -> double;      (* x * y *)
  fdiv : double -> double -> double;      (* x / y *)
  fneg : double -> double;                (* -x *)
  flt : double -> double -> bool;         (* x < y *)
  feq : double -> double -> bool;         (* x == y *)
  f2 : double;                            (* 2. *)
  f3 : double;                            (* 3. *)
  math_pi : double;                       (* math.pi *)
  (* np.linspace(start, stop, num)[i] *)
  np_linspace_item : double -> double -> nat -> nat -> double;
  (* np.sin(x)[i]; NumPy computes the entries of an array in blocks, so the
     entry is not taken to depend on x[i] alone *)
  np_sin_item : list double -> nat -> double;
  float_round8 : double -> double;        (* round(x, 8), x a float *)
  float64_round8 : double -> double       (* round(x, 8), x a np.float64 *)
}.

Section Floating.
Context {FL : Floats}.

(** A float as Python holds it.  [round] dispatches on the class of its
    argument, and line 90 of [sine_interp] rounds the height as the caller
    passed it. *)
Inductive number : Type :=
| py_float (x : double)
| np_float64 (x : double).

(** [float(n)] *)
Definition float_ (n : number) : double :=
  match n with
  | py_float x => x
  | np_float64 x => x
  end.

(** [round(n, 8)] *)
Definition round8 (n : number) : double :=
  match n with
  | py_float x => float_round8 x
  | np_float64 x => float64_round8 x
  end.

(** [max(a, b)] and [min(a, b)]: the second argument is taken when it
    compares greater (smaller) than the first. *)
Definition py_max (a b : double) : double := if flt a b then b else a.
Definition py_min (a b : double) : double := if flt b a then b else a.

(** [np.linspace(start, stop, num)]: an array of [num] samples. *)
Definition np_linspace (start stop : double) (num : nat) : list double :=
  List.map (np_linspace_item start stop num) (List.seq 0 num).

(** [np.sin(x)]: an array of the shape of [x]. *)
Definition np_sin (x : list double) : list double :=
  List.map (np_sin_item x) (List.seq 0 (List.length x)).

(** The array [y = amp * np.sin(xtmp) + bump] of [sine_interp], lines 74 to
    84. *)
Definition samples (h1 h2 : double) (num : nat) : list double :=
  let amp := fdiv (fsub (py_max h1 h2) (py_min h1 h2)) f2 in
  let bump := fsub (py_max h1 h2) amp in
  let xtmp :=
    if flt h1 h2
    then np_linspace (fdiv (fneg math_pi) f2) (fdiv math_pi f2) num
    else np_linspace (fdiv math_pi f2) (fmul (fdiv f3 f2) math_pi) num in
  List.map (fun s => fadd (fmul amp s) bump) (np_sin xtmp).

Local Open Scope py_scope.

(** [sine_interp(height1, height2, resolution, remove_end=False)] *)
Definition sine_interp (height1 height2 : number) (resolution : Z)
    (remove_end : bool) : result (list double) :=
  let h1 := float_ height1 in
  let h2 := float_ height2 in
  assert (2 <? resolution)%Z ;;;
  let y := samples h1 h2 (Z.to_nat resolution) in
  y_first <- getitem y 0 ;;
  assert (feq (round8 (np_float64 y_first)) (round8 (py_float h1))) ;;;
  assert (Z.of_nat (List.length y) =? resolution)%Z ;;;
  y_last <- getitem y (Z.to_nat (resolution - 1)) ;;
  assert (feq (round8 (np_float64 y_last)) (round8 height2)) ;;;
  if remove_end
  then Ok (List.firstn (Z.to_nat (resolution - 1)) y)
  else Ok y.

(** [pairwise]: [tee], advance the second copy once, [zip]. *)
Definition pairwise {A : Type} (s : list A) : list (A * A) :=
  List.combine s (List.tl s).

(** The frame handed to [build_all_tides]: the time-zone name of its
    datetime index, and one row per extremum, holding the index instant (an
    integer count of the clock ticks of [np.datetime64]) and the magnitude
    in the column [use_column], as the scalar that iterating the column
    yields. *)
Record DataFrame : Type := {
  index_zone : string;
  rows : list (Z * number)
}.

Definition index (df : DataFrame) : list Z := List.map fst (rows df).
Definition values (df : DataFrame) : list number := List.map snd (rows df).

(** [np.arange(a, b, step)] on [datetime64] bounds with a [timedelta64]
    step: the length is the rounded-up quotient when [step] points from [a]
    towards [b], zero when it points away, and a zero step is refused. *)
Definition np_arange (a b step : Z) : result (list Z) :=
  let length :=
    if (0 <? step)%Z && (a <? b)%Z then Ok ((b - a + (step - 1)) / step)%Z
    else if (step <? 0)%Z && (b <? a)%Z
         then Ok (Z.quot (b - a + (step + 1)) step)
    else if negb (step =? 0)%Z then Ok 0%Z
    else Raise ValueError in
  n <- length ;;
  Ok (List.map (fun i => (a + Z.of_nat i * step)%Z)
               (List.seq 0 (Z.to_nat n))).

(** The body of the magnitude loop, lines 246 to 248. *)
Definition interpolate_pair (resolution : Z) (pair : number * number)
    : result (list double) :=
  let '(value_a, value_b) := pair in
  interps <- sine_interp value_a value_b resolution true ;;
  assert (Z.of_nat (List.length interps) =? resolution - 1)%Z ;;;
  Ok interps.

(** The body of the time loop, lines 259 to 266.  A [timedelta64] divided
    by an integer is truncated to whole ticks. *)
Definition interval_times (resolution : Z) (pair : Z * Z)
    : result (list Z) :=
  let '(a, b) := pair in
  let step := Z.quot (b - a) (resolution - 1) in
  interv <- np_arange a b step ;;
  let interv := List.firstn (Z.to_nat (resolution - 1)) interv in
  assert (Z.of_nat (List.length interv) =? resolution - 1)%Z ;;;
  Ok interv.

(** [build_all_tides(raw_tides, resolution, use_column)]; the series is the
    list of its (instant, magnitude) entries. *)
Definition build_all_tides (raw_tides : DataFrame) (resolution : Z)
    : result (list (Z * double)) :=
  assert (String.eqb (index_zone raw_tides) "UTC") ;;;
  assert (2 <? resolution)%Z ;;;
  let raw_values := values raw_tides in
  alltides <- for_each (interpolate_pair resolution) (pairwise raw_values) ;;
  let alltides := List.concat alltides in
  last_value <- item_last raw_values ;;
  let alltides := alltides ++ [float_ last_value] in
  tidetimes <-
    for_each (interval_times resolution) (pairwise (index raw_tides)) ;;
  let tidetimes := List.concat tidetimes in
  last_one <- getitem (index raw_tides)
                      (Z.to_nat (Z.of_nat (List.length (index raw_tides)) - 1)) ;;
  (* [np.dtype(tidetimes[1]) == np.dtype(last_one)]: both are [datetime64]
     instants of the same unit, so only the indexing can fail *)
  _ <- getitem tidetimes 1 ;;
  let tidetimes := tidetimes ++ [last_one] in
  assert (List.length tidetimes =? List.length alltides)%nat ;;;
  Ok (List.combine tidetimes alltides).

(** Consecutive instants at least [resolution - 1] ticks apart: the index
    is strictly increasing and no segment gets a zero time step. *)
Definition spaced (resolution : Z) (idx : list Z) : Prop :=
  List.Forall (fun '(a, b) => (resolution - 1 <= b - a)%Z) (pairwise idx).

(** Every segment of the column is interpolated without a failed check. *)
Definition interpolable (resolution : Z) (vals : list number) : Prop :=
  List.Forall (fun '(value_a, value_b) =>
                 returns (sine_interp value_a value_b resolution true))
              (pairwise vals).

(** A block of the magnitude loop has [resolution - 1] samples, and its
    first sample agrees with the segment's first magnitude once both are
    rounded to 8 decimals. *)
Definition opens_with (resolution : Z) (pair : number * number)
    (blk : list double) : Prop :=
  List.length blk = Z.to_nat (resolution - 1)
  /\ exists m : double,
       List.nth_error blk 0 = Some m
       /\ feq (round8 (np_float64 m)) (round8 (py_float (float_ (fst pair))))
          = true.

(** The shape of a returned series: the blocks of the two loops, each
    followed by the entry of the last row. *)
Record assembled (raw_tides : DataFrame) (resolution : Z)
    (series : list (Z * double)) (blocks : list (list double))
    (tblocks : list (list Z)) (last_value : number) (last_one : Z)
    : Prop := {
  asm_zone : index_zone raw_tides = "UTC"%string;
  asm_resolution : (2 < resolution)%Z;
  asm_blocks :
    List.Forall2 (opens_with resolution) (pairwise (values raw_tides)) blocks;
  asm_tblocks :
    List.Forall2 (fun pair blk =>
                    List.length blk = Z.to_nat (resolution - 1)
                    /\ List.nth_error blk 0 = Some (fst pair))
                 (pairwise (index raw_tides)) tblocks;
  asm_last_value :
    List.nth_error (values raw_tides) (List.length (rows raw_tides) - 1)
    = Some last_value;
  asm_last_one :
    List.nth_error (index raw_tides) (List.length (rows raw_tides) - 1)
    = Some last_one;
  asm_rows : (2 <= List.length (rows raw_tides))%nat;
  asm_interpolable : interpolable resolution (values raw_tides);
  asm_series :
    series = List.combine (List.concat tblocks ++ [last_one])
                          (List.concat blocks ++ [float_ last_value])
}.

End Floating.

(** An implementation of [Floats] on which the definitions can be run:
    exact arithmetic on the rationals.  Angles are counted in right angles,
    so that [math_pi] is 2, and the sine is the broken line through its
    values at the whole right angles. *)
Module Exact.

Definition round8 (x : Q) : Q :=
  let s := (x * inject_Z (10 ^ 8))%Q in
  let fl2 := Qfloor (2 * s) in
  (inject_Z (round_half_even fl2 (Qeq_bool (2 * s) (inject_Z fl2)))
   / inject_Z (10 ^ 8))%Q.

Definition broken_sine (x : Q) : Q :=
  if Qle_bool x 1 then x else (2 - x)%Q.

Definition linspace_item (start stop : Q) (num i : nat) : Q :=
  (start + inject_Z (Z.of_nat i)
           * ((stop - start) / inject_Z (Z.of_nat (num - 1))))%Q.

Definition floats : Floats := {|
  double := Q;
  fadd := Qplus;
  fsub := Qminus;
  fmul := Qmult;
  fdiv := Qdiv;
  fneg := Qopp;
  flt := fun x y => negb (Qle_bool y x);
  feq := Qeq_bool;
  f2 := 2%Q;
  f3 := 3%Q;
  math_pi := 2%Q;
  np_linspace_item := linspace_item;
  np_sin_item := fun x i => broken_sine (List.nth i x 0%Q);
  float_round8 := round8;
  float64_round8 := round8
|}.

End Exact.

End Tides.

(** ** Python strings and calendar dates *)

Module PyStr.

Local Open Scope char_scope.

(** ASCII characters that [str.strip], [str.isspace] and [str.split]
    treat as blanks. *)
Definition is_space (c : ascii) : bool :=
  let n := nat_of_ascii c in
  ((9 <=? n) && (n <=? 13) || (28 <=? n) && (n <=? 32))%nat.

(** The blanks that [int] skips around a numeral: those of C's [isspace],
    which leaves out the separators 28 to 31. *)
Definition is_c_space (c : ascii) : bool :=
  let n := nat_of_ascii c in
  ((9 <=? n) && (n <=? 13) || (n =? 32))%nat.

Definition is_digit (c : ascii) : bool :=
  let n := nat_of_ascii c in ((48 <=? n) && (n <=? 57))%nat.

Definition digit_value (c : ascii) : Z := Z.of_nat (nat_of_ascii c - 48).

Fixpoint lstrip (s : list ascii) : list ascii :=
  match s with
  | c :: s' => if is_space c then lstrip s' else s
  | [] => []
  end.

Definition strip (s : list ascii) : list ascii :=
  List.rev (lstrip (List.rev (lstrip s))).

Fixpoint skip_c_spaces (s : list ascii) : list ascii :=
  match s with
  | c :: s' => if is_c_space c then skip_c_spaces s' else s
  | [] => []
  end.

(** Decimal digits, single underscores allowed between two digits. *)
Fixpoint parse_digits (s : list ascii) (acc : Z) (after_digit : bool)
    : option Z :=
  match s with
  | [] => if after_digit then Some acc else None
  | c :: s' =>
      if is_digit c then parse_digits s' (10 * acc + digit_value c)%Z true
      else if Ascii.eqb c "_" && after_digit then parse_digits s' acc false
      else None
  end.

(** [int(s)] for an ASCII string: blanks around, an optional sign, digits. *)
Definition py_int (s : string) : result Z :=
  let body :=
    List.rev (skip_c_spaces
                (List.rev (skip_c_spaces (list_ascii_of_string s)))) in
  let parsed :=
    match body with
    | c :: rest =>
        if Ascii.eqb c "+" then parse_digits rest 0 false
        else if Ascii.eqb c "-"
             then option_map Z.opp (parse_digits rest 0 false)
        else parse_digits body 0 false
    | [] => None
    end in
  match parsed with
  | Some z => Ok z
  | None => Raise ValueError
  end.

(** [s[i:j]] for [0 <= i <= j] *)
Definition slice (s : string) (i j : nat) : string :=
  String.substring i (j - i) s.

(** [s[i:]] *)
Definition slice_from (s : string) (i : nat) : string :=
  String.substring i (String.length s - i) s.

End PyStr.

Module Calendar.

Local Open Scope Z_scope.

(** [datetime.datetime]: naive civil time, proleptic Gregorian calendar. *)
Record datetime : Type := {
  year : Z; month : Z; day : Z;
  hour : Z; minute : Z; second : Z
}.

Definition MINYEAR : Z := 1.
Definition MAXYEAR : Z := 9999.

Definition is_leap (y : Z) : bool :=
  (y mod 4 =? 0) && (negb (y mod 100 =? 0) || (y mod 400 =? 0)).

Definition days_in_month (y m : Z) : Z :=
  if m =? 2 then (if is_leap y then 29 else 28)
  else if (m =? 4) || (m =? 6) || (m =? 9) || (m =? 11) then 30
  else 31.

(** The constructor [datetime.datetime(y, m, d, hh, mm, ss)] checks every
    field.  *)
Definition datetime_new (y m d hh mm ss : Z) : result datetime :=
  if (MINYEAR <=? y) && (y <=? MAXYEAR)
     && (1 <=? m) && (m <=? 12)
     && (1 <=? d) && (d <=? days_in_month y m)
     && (0 <=? hh) && (hh <=? 23)
     && (0 <=? mm) && (mm <=? 59)
     && (0 <=? ss) && (ss <=? 59)
  then Ok {| year := y; month := m; day := d;
             hour := hh; minute := mm; second := ss |}
  else Raise ValueError.

Definition jan1 (year : Z) : datetime :=
  {| year := year; month := 1; day := 1;
     hour := 0; minute := 0; second := 0 |}.

Definition dec31 (year : Z) : datetime :=
  {| year := year; month := 12; day := 31;
     hour := 23; minute := 59; second := 59 |}.

Definition days_before_year (y : Z) : Z :=
  let y := y - 1 in y * 365 + y / 4 - y / 100 + y / 400.

Definition days_before_month (y m : Z) : Z :=
  List.nth (Z.to_nat m)
           [0; 0; 31; 59; 90; 120; 151; 181; 212; 243; 273; 304; 334] 0
  + (if (2 <? m) && is_leap y then 1 else 0).

(** [date.toordinal]: 1 for 1 January of year 1. *)
Definition toordinal (dt : datetime) : Z :=
  days_before_year (year dt) + days_before_month (year dt) (month dt)
  + day dt.

Definition seconds_of_day (dt : datetime) : Z :=
  hour dt * 3600 + minute dt * 60 + second dt.

(** libastro's [cal_mjd(mn, dy, yr)], the day count behind [ephem.Date]:
    days since noon of 31 December 1899, on the Julian calendar before
    15 October 1582 and on the Gregorian one from then on.  The integer
    parts of [365.25*y] and [30.6001*(m+1)] are taken on exact fractions;
    [Z.quot] is C's division and conversion, which drop the fraction. *)
Definition cal_mjd (mn dy yr : Z) : Q :=
  let y := if yr <? 0 then yr + 1 else yr in
  let m := if mn <? 3 then mn + 12 else mn in
  let y := if mn <? 3 then y - 1 else y in
  let b :=
    if (yr <? 1582)
       || ((yr =? 1582) && ((mn <? 10) || ((mn =? 10) && (dy <? 15))))
    then 0
    else let a := Z.quot y 100 in 2 - a + Z.quot a 4 in
  let c :=
    (if y <? 0 then Z.quot (1461 * y - 3) 4 else Z.quot (1461 * y) 4)
    - 694025 in
  let d := Z.quot (306001 * (m + 1)) 10000 in
  (inject_Z (b + c + d + dy) - (1 # 2))%Q.

(** [ephem.Date(dt)] for a [datetime]: the day count of the date, then the
    time of day as a fraction. *)
Definition ephem_Date (dt : datetime) : Q :=
  (cal_mjd (month dt) (day dt) (year dt)
   + inject_Z (hour dt) / 24 + inject_Z (minute dt) / 1440
   + inject_Z (second dt) / 86400)%Q.

(** Days in the civil year [y]. *)
Definition year_length (y : Z) : Q := (if is_leap y then 366 else 365)%Q.

(** Days from 1 January to 31 December of [y], both included, on
    [ephem.Date]'s calendar: Julian leap years before 1582, the ten days
    dropped in October 1582, Gregorian years after. *)
Definition ephem_year_length (y : Z) : Q :=
  (if y <? 1582 then (if y mod 4 =? 0 then 366 else 365)
   else if y =? 1582 then 355
   else year_length y)%Q.

End Calendar.

(** ** astro.py *)

Module Astro.

Import PyStr Calendar.
Local Open Scope Q_scope.
Local Open Scope py_scope.

Section Resolver.

(** [pytz.timezone(name)]: [None] stands for [UnknownTimeZoneError]; a known
    zone maps a naive local time [dt] to [zone.localize(dt).utcoffset()] in
    minutes (the offsets of pytz are whole minutes). *)
Variable pytz_timezone : string -> option (datetime -> Z).

(** A field of [%z]: two decimal digits. *)
Definition two_digits (n : Z) : string :=
  String (ascii_of_nat (48 + Z.to_nat (n / 10)))
    (String (ascii_of_nat (48 + Z.to_nat (n mod 10))) EmptyString).

(** [aware.strftime('%z')] for an offset of whole minutes: the sign, the
    hours and the minutes.  [datetime] refuses an offset that is not
    strictly within a day. *)
Definition strftime_z (utcoffset : Z) : result string :=
  if ((-1440 <? utcoffset) && (utcoffset <? 1440))%Z
  then Ok (String (if (utcoffset <? 0)%Z then "-"%char else "+"%char)
             (two_digits (Z.abs utcoffset / 60)
              ++ two_digits (Z.abs utcoffset mod 60)))
  else Raise ValueError.

(** [pytz.timezone(time_zone).localize(dt).strftime('%z')] *)
Definition localize_strftime_z (time_zone : string) (dt : datetime)
    : result string :=
  match pytz_timezone time_zone with
  | Some zone => strftime_z (zone dt)
  | None => Raise UnknownTimeZoneError
  end.

(** [_parse_UTC_offset(raw_offset)]: the offset in days and whether it is
    behind UTC. *)
Definition _parse_UTC_offset (raw_offset : string) : result (Q * bool) :=
  assert (String.length raw_offset =? 5)%nat ;;;
  behind <- match String.get 0 raw_offset with
            | Some "+"%char => Ok false
            | Some "-"%char => Ok true
            | _ => Raise ValueError
            end ;;
  hour <- py_int (slice raw_offset 1 3) ;;
  minute <- py_int (slice_from raw_offset 3) ;;
  let days := (inject_Z hour + inject_Z minute / 60) / 24 in
  Ok (days, behind).

Definition _make_offset_ephemDates (date_time : datetime) (days : Q)
    (behind : bool) : Q :=
  if behind then ephem_Date date_time + days
  else ephem_Date date_time - days.

(** [utc_year_bounds(time_zone, year)], the year already an integer. *)
Definition utc_year_bounds (time_zone : string) (year : Z)
    : result (Q * Q) :=
  begin <- datetime_new year 1 1 0 0 0 ;;
  end_ <- datetime_new year 12 31 23 59 59 ;;
  begin_raw_offset <- localize_strftime_z time_zone begin ;;
  end_raw_offset <- localize_strftime_z time_zone end_ ;;
  begin_parsed <- _parse_UTC_offset begin_raw_offset ;;
  let '(begin_days, begin_behind) := begin_parsed in
  let begin_result := _make_offset_ephemDates begin begin_days begin_behind in
  end_parsed <- _parse_UTC_offset end_raw_offset ;;
  let '(end_days, end_behind) := end_parsed in
  let end_result := _make_offset_ephemDates end_ end_days end_behind in
  Ok (begin_result, end_result).

End Resolver.

(** The shape [+HHMM] or [-HHMM]: a sign and four decimal digits. *)
Definition well_formed_offset (raw_offset : string) : bool :=
  match list_ascii_of_string raw_offset with
  | [sg; h1; h2; m1; m2] =>
      (Ascii.eqb sg "+" || Ascii.eqb sg "-")
      && is_digit h1 && is_digit h2 && is_digit m1 && is_digit m2
  | _ => false
  end.

(** An offset that [datetime] accepts, and the days it stands for. *)
Definition within_a_day (utcoffset : Z) : Prop :=
  (-1440 < utcoffset < 1440)%Z.

Definition offset_days (utcoffset : Z) : Q := inject_Z utcoffset / 1440.

(** *** Float helpers on day counts *)

(** [round(x)] of a float, as an integer. *)
Definition py_round (x : Q) : Z :=
  round_half_even (Qfloor (2 * x))
                  (Qeq_bool (2 * x) (inject_Z (Qfloor (2 * x)))).

(** [a / b] on floats *)
Definition py_div (a b : Q) : result Q :=
  if Qeq_bool b 0 then Raise ZeroDivisionError else Ok (a / b).

Definition Qlt_bool (x y : Q) : bool := negb (Qle_bool y x).

Section Lunation.

(** [ephem.next_first_quarter_moon], [ephem.next_full_moon] and
    [ephem.next_last_quarter_moon]: the oracle's quarter instants. *)
Variable next_first_quarter_moon : Q -> Q.
Variable next_full_moon : Q -> Q.
Variable next_last_quarter_moon : Q -> Q.

(** [get_lunation_day(today, last_new, next_new, number_of_phase_ids=28)] *)
Definition get_lunation_day (today last_new next_new : Q)
    (number_of_phase_ids : Z) : result Z :=
  let num := inject_Z (number_of_phase_ids - 1) in
  elapsed <- py_div (today - last_new) (next_new - last_new) ;;
  let first_approx := py_round (elapsed * num) in
  let from_last_quarter :=
    if (first_approx <? Qceiling (num * 3 / 4))%Z
    then
      let next_lq := next_last_quarter_moon last_new in
      if Qlt_bool today next_lq
      then (part <- py_div (today - last_new) (next_lq - last_new) ;;
            Ok (py_round (part * (num * 3 / 4))))
      else Ok first_approx
    else Ok first_approx in
  let from_full :=
    if (first_approx <? Qceiling (num / 2))%Z
    then
      let next_full := next_full_moon last_new in
      if Qlt_bool today next_full
      then (part <- py_div (today - last_new) (next_full - last_new) ;;
            Ok (py_round (part * (num / 2))))
      else from_last_quarter
    else from_last_quarter in
  if (first_approx <? Qceiling (num / 4))%Z
  then
    let next_fq := next_first_quarter_moon last_new in
    if Qlt_bool today next_fq
    then (part <- py_div (today - last_new) (next_fq - last_new) ;;
          Ok (py_round (part * (num / 4))))
    else from_full
  else from_full.

End Lunation.

(** *** The daily rise, transit and set events *)

Definition transit_label (name : string) : string :=
  if String.eqb name "Sun" then "noon" else "max height".

(** Tuples [(time, label)] with a time that may be [None]: [==] and [<]
    as Python compares tuples, first on the time, then on the label.
    Python refuses to order [None] against a float; no [None] is left when
    the list is sorted, and the model puts [None] first. *)
Definition key_compare (a b : option Q) : comparison :=
  match a, b with
  | None, None => Eq
  | None, Some _ => Lt
  | Some _, None => Gt
  | Some x, Some y => (x ?= y)%Q
  end.

Definition event_eqb (a b : option Q * string) : bool :=
  match key_compare (fst a) (fst b) with
  | Eq => String.eqb (snd a) (snd b)
  | _ => false
  end.

Definition event_ltb (a b : option Q * string) : bool :=
  match key_compare (fst a) (fst b) with
  | Lt => true
  | Eq => String.ltb (snd a) (snd b)
  | Gt => false
  end.

(** [l.remove(t)]: drop the first element equal to [t]. *)
Fixpoint list_remove (t : option Q * string) (l : list (option Q * string))
    : result (list (option Q * string)) :=
  match l with
  | [] => Raise ValueError
  | x :: l' =>
      if event_eqb x t then Ok l'
      else (rest <- list_remove t l' ;; Ok (x :: rest))
  end.

(** [l.sort()]: a stable sort, each element placed after those not above
    it. *)
Fixpoint insert_sorted (x : option Q * string)
    (l : list (option Q * string)) : list (option Q * string) :=
  match l with
  | [] => [x]
  | y :: l' => if event_ltb x y then x :: y :: l'
               else y :: insert_sorted x l'
  end.

Definition list_sort (l : list (option Q * string))
    : list (option Q * string) :=
  List.fold_left (fun sorted x => insert_sorted x sorted) l [].

(** The events of one day: drop the undefined ones, sort, and read each
    instant with [t[0].datetime()]. *)
Definition day_events (rise transit set_ : option Q) (transit_label : string)
    : result (list (Q * string)) :=
  let rns := [(rise, "rise"%string); (transit, transit_label);
              (set_, "set"%string)] in
  rns <- List.fold_left
           (fun acc t =>
              rns <- acc ;;
              match fst t with
              | None => list_remove t rns
              | Some _ => Ok rns
              end)
           (List.rev rns) (Ok rns) ;;
  let rns := list_sort rns in
  for_each (fun t => match fst t with
                     | Some d => Ok (d, snd t)
                     | None => Raise AttributeError
                     end) rns.

(** *** Observers and the store

    An [ephem.Observer] is a mutable object: the code holds references to
    observers, and the store maps each reference to the observer's current
    attributes. *)

Record Observer : Type := {
  date : Q; epoch : Q; long : Q; lat : Q;
  elev : Q; temp : Q; pressure : Q; horizon : Q
}.

Definition set_date (o : Observer) (d : Q) : Observer :=
  {| date := d; epoch := epoch o; long := long o; lat := lat o;
     elev := elev o; temp := temp o; pressure := pressure o;
     horizon := horizon o |}.

(** [ephem.Observer()]: the attributes of a new observer (its date is the
    time of creation, which every caller here overwrites). *)
Definition new_Observer : Observer :=
  {| date := 0; epoch := 36525; long := 0; lat := 0;
     elev := 0; temp := 15; pressure := 1010; horizon := 0 |}.

Abbreviation ref := positive (only parsing).
Abbreviation heap := (gmap positive Observer) (only parsing).

Definition deref (h : heap) (r : ref) : Observer :=
  default new_Observer (h !! r).

(** A call returns a value and leaves a store, raises, or never returns. *)
Inductive outcome (A : Type) : Type :=
| Done (a : A) (h : heap)
| Fail (e : exn)
| Loops.

Arguments Done {A} a h.
Arguments Fail {A} e.
Arguments Loops {A}.

Definition st_bind {A B : Type} (m : heap -> outcome A)
    (k : A -> heap -> outcome B) : heap -> outcome B :=
  fun h => match m h with
           | Done a h' => k a h'
           | Fail e => Fail e
           | Loops => Loops
           end.

Definition st_ret {A : Type} (a : A) : heap -> outcome A :=
  fun h => Done a h.

Definition st_lift {A : Type} (r : result A) : heap -> outcome A :=
  fun h => match r with
           | Ok a => Done a h
           | Raise e => Fail e
           end.

Notation "x <~ m ;; k" := (st_bind m (fun x => k))
  (at level 100, m at next level, right associativity) : py_scope.

(** A [for] loop threading an accumulator and the store. *)
Fixpoint st_fold {A S : Type} (f : A -> S -> heap -> outcome S)
    (l : list A) (s : S) : heap -> outcome S :=
  match l with
  | [] => st_ret s
  | a :: l' => s' <~ f a s ;; st_fold f l' s'
  end.

(** [copy_ephem_observer(original_observer)]: a new observer holding the
    same eight attributes. *)
Definition copy_ephem_observer (original_observer : ref)
    : heap -> outcome ref :=
  fun h =>
    let new_observer := fresh (dom h) in
    let h := <[new_observer := new_Observer]> h in
    let original := deref h original_observer in
    let h := <[new_observer :=
                 {| date := date original; epoch := epoch original;
                    long := long original; lat := lat original;
                    elev := elev original; temp := temp original;
                    pressure := pressure original;
                    horizon := horizon original |}]> h in
    Done new_observer h.

(** A sampled height: a float, or the NaN the code writes as a plot break. *)
Inductive height : Type :=
| NaN
| Val (q : Q).

(** [round(x, 6)] *)
Definition round6 (x : Q) : Q := inject_Z (py_round (x * 1000000)) / 1000000.

(** Iterations after which a loop advancing by [step] from [start] has
    passed [stop]; none are granted to a step that does not advance. *)
Definition loop_fuel (start stop step : Q) : nat :=
  if Qlt_bool 0 step then Z.to_nat (Qceiling ((stop - start) / step))
  else 0%nat.

Section Ephemeris.

(** The oracle, for a body name and the observer the body was last computed
    for: [np.sin(body.alt)] and [body.rise_time], [body.transit_time],
    [body.set_time] ([None] when the event does not happen). *)
Variable sin_alt : string -> Observer -> Q.
Variable rise_time transit_time set_time : string -> Observer -> option Q.

(** The [while] loop of [fill_in_heights]; [None] when the iterations
    granted run out with the condition still true. *)
Fixpoint fill_loop (fuel : nat) (obs : ref) (stop step : Q)
    (body_name : string) (h : heap) (times : list Q) (heights : list height)
    : option (heap * list Q * list height) :=
  if Qlt_bool (round6 (date (deref h obs))) (round6 stop)
  then
    match fuel with
    | O => None
    | S fuel' =>
        let times := times ++ [date (deref h obs)] in
        let height_now := Val (sin_alt body_name (deref h obs)) in
        let heights := heights ++ [height_now] in
        let h := <[obs := set_date (deref h obs)
                                   (date (deref h obs) + step)]> h in
        fill_loop fuel' obs stop step body_name h times heights
    end
  else Some (h, times, heights).

(** [fill_in_heights(start, stop, step, observe, body_name, append_NaN)] *)
Definition fill_in_heights (start stop step : Q) (observe : ref)
    (body_name : string) (append_NaN : bool)
    : heap -> outcome (list Q * list height) :=
  obs <~ copy_ephem_observer observe ;;
  fun h =>
    let h := <[obs := set_date (deref h obs) start]> h in
    match fill_loop (loop_fuel start stop step) obs stop step body_name
                    h [] [] with
    | None => Loops
    | Some (h, times, heights) =>
        let h := <[obs := set_date (deref h obs) stop]> h in
        let times := times ++ [date (deref h obs)] in
        let height_now := Val (sin_alt body_name (deref h obs)) in
        let heights := heights ++ [height_now] in
        let '(times, heights) :=
          if append_NaN
          then (times ++ [date (deref h obs) + step / 100], heights ++ [NaN])
          else (times, heights) in
        (_ <~ st_lift (assert (List.length times =? List.length heights)%nat) ;;
         st_ret (times, heights)) h
    end.

(** The samples of one call of [fill_in_heights], as a function of the
    attributes [o] of the observer it is given: the loop's samples from
    [d], then the sample at [stop], then the NaN break. *)
Fixpoint samples_from (fuel : nat) (o : Observer) (d stop step : Q)
    (body_name : string) : option (list (Q * height)) :=
  if Qlt_bool (round6 d) (round6 stop)
  then
    match fuel with
    | O => None
    | S fuel' =>
        option_map (cons (d, Val (sin_alt body_name (set_date o d))))
                   (samples_from fuel' o (d + step) stop step body_name)
    end
  else Some [].

Definition segment (o : Observer) (start stop step : Q) (body_name : string)
    (append_NaN : bool) : option (list (Q * height)) :=
  option_map
    (fun l => l ++ [(stop, Val (sin_alt body_name (set_date o stop)))]
                ++ (if append_NaN then [(stop + step / 100, NaN)] else []))
    (samples_from (loop_fuel start stop step) o start stop step body_name).

(** What the properties say about a day's list: the defined tuples of the
    three, an event read back as a tuple, and "not after" on tuples. *)
Definition defined (rns : list (option Q * string))
    : list (option Q * string) :=
  List.filter (fun t => match fst t with Some _ => true | None => false end)
              rns.

Definition as_tuple (e : Q * string) : option Q * string :=
  (Some (fst e), snd e).

Definition not_after (a b : option Q * string) : Prop :=
  event_ltb b a = false.

(** The [while observer.date <= end] loop of [Astro.__init__]: one pass
    per day, the body's attributes read for the observer's current date. *)
Fixpoint events_loop (fuel : nat) (observer : ref) (end_ : Q) (name : string)
    (r_n_s_times : list Q) (r_n_s_labels : list string)
    : heap -> outcome (list Q * list string) :=
  fun h =>
    if Qle_bool (date (deref h observer)) end_
    then
      match fuel with
      | O => Loops
      | S fuel' =>
          (rns <~ st_lift (day_events (rise_time name (deref h observer))
                                      (transit_time name (deref h observer))
                                      (set_time name (deref h observer))
                                      (transit_label name)) ;;
           let r_n_s_times := r_n_s_times ++ List.map fst rns in
           let r_n_s_labels := r_n_s_labels ++ List.map snd rns in
           fun h =>
             let h := <[observer := set_date (deref h observer)
                                     (date (deref h observer) + 1)]> h in
             events_loop fuel' observer end_ name r_n_s_times r_n_s_labels h)
            h
      end
    else Done (r_n_s_times, r_n_s_labels) h.

(** Lines 255 to 288 of [Astro.__init__]: the observer is set to [begin]
    and the year's events are assembled, as the pairs that line 289 puts
    in a [pd.Series]; the time zone of its index (lines 290 and 291) is
    not part of this. *)
Definition rise_noon_set (begin end_ : Q) (observer : ref) (name : string)
    : heap -> outcome (list (Q * string)) :=
  fun h =>
    let h := <[observer := set_date (deref h observer) begin]> h in
    (series <~ events_loop (Z.to_nat (Qfloor (end_ - begin) + 1))
                           observer end_ name [] [] ;;
     _ <~ st_lift (assert (List.length (snd series)
                           =? List.length (fst series))%nat) ;;
     st_ret (List.combine (fst series) (snd series))) h.

(** *** The altitude series *)

(** [RNS[RNS == label].index] *)
Definition index_where (label : string) (r_n_s : list (Q * string))
    : list Q :=
  List.map fst (List.filter (fun e => String.eqb (snd e) label) r_n_s).

(** [alltimes.extend(times); allheights.extend(heights)] *)
Definition extend (acc th : list Q * list height) : list Q * list height :=
  (fst acc ++ fst th, snd acc ++ snd th).

(** [hei[hei < 0] = float('NaN')], entry by entry: NaN is not below 0. *)
Definition drop_negative (e : Q * height) : Q * height :=
  match snd e with
  | Val q => if Qlt_bool q 0 then (fst e, NaN) else e
  | NaN => e
  end.

(** [pd.Timestamp(x)] for a float [x], such as an [ephem.Date]: pandas
    reads the number as nanoseconds since 1970-01-01 00:00 UTC and drops
    its fraction.  The instant is given as a day count of [ephem.Date], on
    which 1970-01-01 00:00 is day 25567.5. *)
Definition pd_Timestamp (x : Q) : Q :=
  (51135 # 2)
  + inject_Z (Z.quot (Qnum x) (Zpos (Qden x))) / 86400000000000.

(** Lines 295 to 344 of [Astro.__init__]: the year's [heights] series from
    the [rise_noon_set] series. *)
Definition heights_series (begin end_ step : Q) (observer : ref)
    (name : string) (r_n_s : list (Q * string))
    : heap -> outcome (list (Q * height)) :=
  let allrises := index_where "rise" r_n_s in
  let allsets := index_where "set" r_n_s in
  first_set_time <~ st_lift (getitem allsets 0) ;;
  first_rise_time <~ st_lift (getitem allrises 0) ;;
  started <~ (if Qlt_bool first_set_time first_rise_time
              then (let first_set := first_set_time in
                    th <~ fill_in_heights begin first_set step observer
                                          name true ;;
                    st_ret (extend ([], []) th, List.tl allsets))
              else st_ret (([], []), allsets)) ;;
  let allsets := snd started in
  paired <~ st_fold
              (fun pair acc =>
                 let rise_t := fst pair in
                 let set_t := snd pair in
                 _ <~ st_lift (assert (Qlt_bool rise_t set_t)) ;;
                 th <~ fill_in_heights rise_t set_t step observer name true ;;
                 st_ret (extend acc th))
              (List.combine allrises allsets) (fst started) ;;
  have_trailing_rise_time <~
    st_lift (if (List.length allsets <? List.length allrises)%nat
             then (last <- item_last allrises ;;
                   Ok (Qlt_bool last (pd_Timestamp end_)))
             else Ok false) ;;
  finished <~ (if have_trailing_rise_time
               then (last_rise <~ st_lift (item_last allrises) ;;
                     th <~ fill_in_heights last_rise end_ step observer
                                           name true ;;
                     st_ret (extend paired th))
               else st_ret paired) ;;
  _ <~ st_lift (assert (List.length (snd finished)
                        =? List.length (fst finished))%nat) ;;
  let hei := List.combine (fst finished) (snd finished) in
  st_ret (List.map drop_negative hei).

(** [seg] is what [fill_in_heights] samples over the interval [iv] for an
    observer of attributes [o]. *)
Definition densified (o : Observer) (step : Q) (name : string)
    (iv : Q * Q) (seg : list (Q * height)) : Prop :=
  segment o (fst iv) (snd iv) step name true = Some seg.

(** The dates the loop visits, and the events of the day at date [d] for
    an observer of attributes [o]. *)
Fixpoint days_from (fuel : nat) (d end_ : Q) : option (list Q) :=
  if Qle_bool d end_
  then
    match fuel with
    | O => None
    | S fuel' => option_map (cons d) (days_from fuel' (d + 1) end_)
    end
  else Some [].

Definition events_at (name : string) (o : Observer) (d : Q)
    : result (list (Q * string)) :=
  day_events (rise_time name (set_date o d))
             (transit_time name (set_date o d))
             (set_time name (set_date o d))
             (transit_label name).

End Ephemeris.

(** The intervals that [heights_series] densifies, in order: year start
    to the first set when that set comes before the first rise, each rise
    with the set of the same rank among those left, and the last rise to
    year end when it has no set and comes before [pd.Timestamp(end)]. *)
Definition rise_set_pairs (allrises allsets : list Q) : list (Q * Q) :=
  match allsets, allrises with
  | first_set :: later_sets, first_rise :: _ =>
      List.combine allrises
        (if Qlt_bool first_set first_rise then later_sets else allsets)
  | _, _ => []
  end.

Definition intervals (begin end_ : Q) (allrises allsets : list Q)
    : list (Q * Q) :=
  match allsets, allrises with
  | first_set :: later_sets, first_rise :: _ =>
      let early := Qlt_bool first_set first_rise in
      let sets := if early then later_sets else allsets in
      (if early then [(begin, first_set)] else [])
      ++ rise_set_pairs allrises allsets
      ++ match item_last allrises with
         | Ok last_rise =>
             if (List.length sets <? List.length allrises)%nat
                && Qlt_bool last_rise (pd_Timestamp end_)
             then [(last_rise, end_)]
             else []
         | Raise _ => []
         end
  | _, _ => []
  end.

Definition ordered (pair : Q * Q) : bool := Qlt_bool (fst pair) (snd pair).

(** *** The Moon's daily series *)

(** [ephem.hour] *)
Definition ephem_hour : Q := 1 / 24.

(** [len(pd.date_range(year + '-01-01', year + '-12-31', tz = timezone))]:
    one timestamp per calendar day, both ends included. *)
Definition daily_times_length (year : Z) : nat :=
  Z.to_nat (toordinal (dec31 year) - toordinal (jan1 year) + 1).

Section Moon.

(** The oracle: [body.moon_phase] for the observer the Moon was last
    computed for, [ephem.previous_new_moon], [ephem.next_new_moon] and the
    quarter instants. *)
Variable moon_phase : Observer -> Q.
Variable previous_new_moon next_new_moon : Q -> Q.
Variable next_first_quarter_moon : Q -> Q.
Variable next_full_moon : Q -> Q.
Variable next_last_quarter_moon : Q -> Q.

(** The [while observer.date < end] loop of the illumination series. *)
Fixpoint illumination_loop (fuel : nat) (observer : ref) (end_ : Q)
    (illuminated : list Q) : heap -> outcome (list Q) :=
  fun h =>
    if Qlt_bool (date (deref h observer)) end_
    then
      match fuel with
      | O => Loops
      | S fuel' =>
          let illuminated :=
            illuminated ++ [moon_phase (deref h observer)] in
          let h := <[observer := set_date (deref h observer)
                                  (date (deref h observer) + 1)]> h in
          illumination_loop fuel' observer end_ illuminated h
      end
    else Done illuminated h.

(** Lines 364 to 374 of [Astro.__init__]: the daily illuminated fraction,
    from 22:00 local time of 1 January. *)
Definition percent_illuminated (year : Z) (begin end_ : Q) (observer : ref)
    : heap -> outcome (list Q) :=
  fun h =>
    let h := <[observer := set_date (deref h observer)
                            (begin + 22 * ephem_hour)]> h in
    (illuminated <~
       illumination_loop (loop_fuel (begin + 22 * ephem_hour) end_ 1)
                         observer end_ [] ;;
     _ <~ st_lift (assert (List.length illuminated
                           =? daily_times_length year)%nat) ;;
     st_ret illuminated) h.

(** The two loops that step [moon_day] through one lunation:
    [while moon_day < next_nm] for the first ([bound] is [None]) and
    [while (moon_day < next_nm) and (moon_day < end)] for the later
    ones. *)
Fixpoint lunation_loop (fuel : nat) (bound : option Q)
    (moon_day last_nm next_nm : Q) (cycle_days : list Z)
    : heap -> outcome (Q * list Z) :=
  if Qlt_bool moon_day next_nm
     && match bound with
        | Some end_ => Qlt_bool moon_day end_
        | None => true
        end
  then
    match fuel with
    | O => fun _ => Loops
    | S fuel' =>
        d <~ st_lift (get_lunation_day next_first_quarter_moon next_full_moon
                        next_last_quarter_moon moon_day last_nm next_nm 28) ;;
        lunation_loop fuel' bound (moon_day + 1) last_nm next_nm
                      (cycle_days ++ [d])
    end
  else st_ret (moon_day, cycle_days).

(** [while moon_day < end]: one complete lunation per pass. *)
Fixpoint cycles_loop (fuel : nat) (moon_day next_nm end_ : Q)
    (cycle_days : list Z) : heap -> outcome (list Z) :=
  if Qlt_bool moon_day end_
  then
    match fuel with
    | O => fun _ => Loops
    | S fuel' =>
        let last_nm := next_nm in
        let next_nm := next_new_moon moon_day in
        st <~ lunation_loop (loop_fuel moon_day end_ 1) (Some end_)
                            moon_day last_nm next_nm cycle_days ;;
        cycles_loop fuel' (fst st) next_nm end_ (snd st)
    end
  else st_ret cycle_days.

(** Lines 376 to 396 of [Astro.__init__]: the daily phase icon number. *)
Definition phase_day_num (year : Z) (begin end_ : Q)
    : heap -> outcome (list Z) :=
  let cycle_days := [] in
  let moon_day := begin + 22 * ephem_hour in
  let last_nm := previous_new_moon moon_day in
  let next_nm := next_new_moon moon_day in
  d <~ st_lift (get_lunation_day next_first_quarter_moon next_full_moon
                  next_last_quarter_moon moon_day last_nm next_nm 28) ;;
  let cycle_days := cycle_days ++ [d] in
  let moon_day := moon_day + 1 in
  st <~ lunation_loop (loop_fuel moon_day next_nm 1) None
                      moon_day last_nm next_nm cycle_days ;;
  cycle_days <~ cycles_loop (loop_fuel (fst st) end_ 1)
                            (fst st) next_nm end_ (snd st) ;;
  _ <~ st_lift (assert (List.length cycle_days
                        =? daily_times_length year)%nat) ;;
  st_ret cycle_days.

End Moon.


End Astro.

(** ** tides.py: the header of a NOAA file *)

Module Header.

Import PyStr.
Local Open Scope string_scope.

(** What [read_noaa_header] raises once the file is open: an exception of
    the classes above, or the [KeyError] of a dict lookup, which carries
    the missing key. *)
Inductive raised : Type :=
| Exn (e : exn)
| KeyError (key : string).

Inductive reply (A : Type) : Type :=
| Returns (a : A)
| Raises (r : raised).

Arguments Returns {A} a.
Arguments Raises {A} r.

Definition and_then {A B : Type} (m : reply A) (k : A -> reply B) : reply B :=
  match m with
  | Returns a => k a
  | Raises r => Raises r
  end.

(** The line feed that ends a line read from a text file. *)
Definition LF : string := String "010" "".

(** [s.isspace()]: at least one character, and only blanks. *)
Fixpoint only_blanks (s : string) : bool :=
  match s with
  | EmptyString => true
  | String c s' => is_space c && only_blanks s'
  end.

Definition isspace (s : string) : bool :=
  match s with
  | EmptyString => false
  | String _ _ => only_blanks s
  end.

(** [s.find(sub)]: the first index at which [sub] occurs, or -1. *)
Fixpoint find_from (s sub : string) (i : Z) : Z :=
  if String.prefix sub s then i
  else match s with
       | EmptyString => (-1)%Z
       | String _ s' => find_from s' sub (i + 1)
       end.

Definition find (s sub : string) : Z := find_from s sub 0.

(** [s.split(sep)] for a non-empty [sep]: [piece] is the part read since
    the last separator, [skip] the characters of a separator still to
    pass. *)
Fixpoint split_from (s sep : string) (skip : nat) (piece : string)
    : list string :=
  match s with
  | EmptyString => [piece]
  | String c s' =>
      match skip with
      | S skip' => split_from s' sep skip' piece
      | O =>
          if String.prefix sep s
          then piece :: split_from s' sep (String.length sep - 1) ""
          else split_from s' sep 0 (piece ++ String c "")
      end
  end.

Definition split (s sep : string) : list string := split_from s sep 0 "".

(** [s.split()]: the maximal runs of characters that are not blanks. *)
Fixpoint words_from (s word : string) : list string :=
  match s with
  | EmptyString => match word with EmptyString => [] | _ => [word] end
  | String c s' =>
      if is_space c
      then match word with
           | EmptyString => words_from s' ""
           | _ => word :: words_from s' ""
           end
      else words_from s' (word ++ String c "")
  end.

Definition split_blanks (s : string) : list string := words_from s "".

(** [s.strip()] *)
Definition strip (s : string) : string :=
  string_of_list_ascii (PyStr.strip (list_ascii_of_string s)).

Fixpoint strings_eqb (a b : list string) : bool :=
  match a, b with
  | [], [] => true
  | x :: a', y :: b' => String.eqb x y && strings_eqb a' b'
  | _, _ => false
  end.

(** A [dict] of strings: its items in insertion order, one per key. *)
Definition dict : Type := list (string * string).

(** [d[k] = v]: a key already there keeps its place. *)
Fixpoint setitem (d : dict) (k v : string) : dict :=
  match d with
  | [] => [(k, v)]
  | (k', v') :: d' =>
      if String.eqb k' k then (k', v) :: d' else (k', v') :: setitem d' k v
  end.

Fixpoint get (d : dict) (k : string) : option string :=
  match d with
  | [] => None
  | (k', v') :: d' => if String.eqb k' k then Some v' else get d' k
  end.

(** [d[k]] *)
Definition getitem (d : dict) (k : string) : reply string :=
  match get d k with
  | Some v => Returns v
  | None => Raises (KeyError k)
  end.

(** [k, v = parts] *)
Definition unpack (parts : list string) : reply (string * string) :=
  match parts with
  | [k; v] => Returns (k, v)
  | _ => Raises (Exn ValueError)
  end.

(** The key and the value that one header line is stored under. *)
Definition entry (line : string) : reply (string * string) :=
  if (0 <=? find line ": ")%Z
  then unpack (split line ": ")
  else Returns (line, "").

(** [for line in file]: the lines left unread are returned with the
    dict. *)
Fixpoint header_loop (file : list string) (metadata : dict)
    : reply (dict * list string) :=
  match file with
  | [] => Returns (metadata, [])
  | line :: file' =>
      if isspace line then Returns (metadata, file')
      else and_then (entry line)
             (fun kv => header_loop file'
                          (setitem metadata (fst kv) (snd kv)))
  end.

(** [file.readline()]: the next line, or the empty string at the end of
    the file. *)
Definition readline (file : list string) : string :=
  match file with
  | [] => ""
  | line :: _ => line
  end.

Definition _check_that (Boolean_valued_statement : bool) : reply unit :=
  if Boolean_valued_statement then Returns tt else Raises (Exn ValueError).

Definition expected_column_names : list string :=
  ["Date"; "Day"; "Time"; "Pred(Ft)"; "Pred(cm)"; "High/Low"].

(** [read_noaa_header(filename)], from the lines of the file that [open]
    returned. *)
Definition read_noaa_header (file : list string) : reply (dict * string) :=
  and_then (header_loop file []) (fun st =>
  let metadata := fst st in
  let column_names := readline (snd st) in
  and_then (getitem metadata ("NOAA/NOS/CO-OPS" ++ LF)) (fun v =>
  and_then (_check_that (String.eqb v "")) (fun _ =>
  and_then (getitem metadata "Product Type") (fun v =>
  and_then (_check_that (String.eqb (strip v) "Annual Tide Prediction"))
           (fun _ =>
  and_then (getitem metadata "Interval Type") (fun v =>
  and_then (_check_that (String.eqb (strip v) "High/Low Tide Predictions"))
           (fun _ =>
  and_then (getitem metadata "Time Zone") (fun v =>
  and_then (_check_that (0 <=? find v "LST")%Z) (fun _ =>
  and_then (getitem metadata "Stationid") (fun v =>
  and_then (_check_that (negb (String.eqb v ""))) (fun _ =>
  let col_names := split_blanks column_names in
  and_then (_check_that (strings_eqb col_names expected_column_names))
           (fun _ =>
  Returns (metadata, column_names))))))))))))).

(** The key a header line is stored under when it has at most one
    separator. *)
Definition key_of (line : string) : string :=
  match entry line with
  | Returns kv => fst kv
  | Raises _ => line
  end.

End Header.

(** ** astro.py: rounding a time of day *)

Module Timeline.

Local Open Scope Z_scope.

(** A [datetime.datetime], microseconds included, is read as its count of
    microseconds since 0001-01-01 00:00:00: the calendar has no gap, so
    the valid values are the counts of [[0, MAX)] and adding a
    [timedelta] adds counts. *)
Definition MAX : Z :=
  Calendar.days_before_year (Calendar.MAXYEAR + 1) * 86400 * 1000000.

(** [dt.second] and [dt.microsecond] *)
Definition second (dt : Z) : Z := (dt / 1000000) mod 60.

Definition microsecond (dt : Z) : Z := dt mod 1000000.

(** [dt + datetime.timedelta(days, seconds, microseconds)]; [None] stands
    for the [OverflowError] of a date out of range. *)
Definition add_timedelta (dt days seconds microseconds : Z) : option Z :=
  let sum := dt + (days * 86400 + seconds) * 1000000 + microseconds in
  if (0 <=? sum) && (sum <? MAX) then Some sum else None.

(** [round_datetime(dt)] *)
Definition round_datetime (dt : Z) : option Z :=
  let s := second dt in
  let m := microsecond dt in
  if s <? 30
  then add_timedelta dt 0 (- s) (- m)
  else add_timedelta dt 0 (60 - s) (- m).

End Timeline.

(** * Properties *)

Module TidesFacts.
Import Tides.

(** *** Loops and lists *)

Lemma for_each_forall {A B : Type} (f : A -> result B) (P : A -> B -> Prop)
    (l : list A) :
  List.Forall (fun a => exists b, f a = Ok b /\ P a b) l ->
  exists bs, for_each f l = Ok bs /\ List.Forall2 P l bs.
Proof.
  induction 1 as [|a l (b & Hb & HP) _ (bs & Hbs & HPs)].
  - exists []. split; [reflexivity | constructor].
  - exists (b :: bs). cbn [for_each]. rewrite Hb. cbn [bind]. rewrite Hbs.
    split; [reflexivity | now constructor].
Qed.

Lemma for_each_inv {A B : Type} (f : A -> result B) (l : list A)
    (bs : list B) :
  for_each f l = Ok bs -> List.Forall2 (fun a b => f a = Ok b) l bs.
Proof.
  revert bs. induction l as [|a l IH]; intros bs H; cbn [for_each] in H.
  - injection H as <-. constructor.
  - destruct (f a) as [b|e] eqn:Eb; cbn [bind] in H; [|discriminate].
    destruct (for_each f l) as [bs'|e]; cbn [bind] in H; [|discriminate].
    injection H as <-. constructor; [assumption | now apply IH].
Qed.

Lemma for_each_raises {A B : Type} (f : A -> result B) (l : list A)
    (e : exn) :
  for_each f l = Raise e -> exists a, List.In a l /\ f a = Raise e.
Proof.
  induction l as [|a l IH]; cbn [for_each]; [discriminate|].
  destruct (f a) as [b|e'] eqn:Eb; cbn [bind].
  - destruct (for_each f l) as [bs|e'']; cbn [bind]; [discriminate|].
    intros [= ->]. destruct (IH eq_refl) as (a' & Hin & Ha').
    exists a'. split; [now right | assumption].
  - intros [= ->]. exists a. split; [now left | assumption].
Qed.

Lemma Forall2_impl {A B : Type} (P Q : A -> B -> Prop) (l1 : list A)
    (l2 : list B) :
  (forall a b, P a b -> Q a b) ->
  List.Forall2 P l1 l2 -> List.Forall2 Q l1 l2.
Proof. intros HPQ. induction 1; constructor; auto. Qed.

Lemma Forall2_nth_error_l {A B : Type} (P : A -> B -> Prop)
    (l1 : list A) (l2 : list B) :
  List.Forall2 P l1 l2 ->
  forall (k : nat) (a : A),
    List.nth_error l1 k = Some a ->
    exists b, List.nth_error l2 k = Some b /\ P a b.
Proof.
  induction 1 as [|a0 b0 l1 l2 HP _ IH]; intros k a Hk.
  - now destruct k.
  - destruct k as [|k]; cbn [List.nth_error] in *.
    + injection Hk as <-. now exists b0.
    + now apply IH.
Qed.

Lemma Forall2_lengths {A B : Type} (m : nat) (Q : A -> list B -> Prop)
    (l1 : list A) (l2 : list (list B)) :
  List.Forall2 (fun a l => List.length l = m /\ Q a l) l1 l2 ->
  List.Forall (fun l => List.length l = m) l2
  /\ List.length l2 = List.length l1.
Proof.
  induction 1 as [|a l l1 l2 [Hl _] _ [IH1 IH2]].
  - split; [constructor | reflexivity].
  - split; [now constructor | cbn; now f_equal].
Qed.

Lemma pairwise_length {A : Type} (s : list A) :
  List.length (pairwise s) = (List.length s - 1)%nat.
Proof.
  unfold pairwise. rewrite List.length_combine.
  destruct s as [|a t]; [reflexivity|]. cbn [List.tl List.length]. lia.
Qed.

Lemma pairwise_nth_error {A : Type} (s : list A) (i : nat) :
  List.nth_error (pairwise s) i
  = match List.nth_error s i, List.nth_error s (S i) with
    | Some a, Some b => Some (a, b)
    | _, _ => None
    end.
Proof.
  unfold pairwise. revert i.
  induction s as [|a [|b t] IH]; intros i.
  - now destruct i.
  - destruct i as [|i]; cbn; [reflexivity | now destruct i].
  - destruct i as [|i]; [reflexivity|].
    cbn [List.tl List.combine List.nth_error]. apply (IH i).
Qed.

Lemma concat_length_uniform {A : Type} (k : nat) (ls : list (list A)) :
  List.Forall (fun l => List.length l = k) ls ->
  List.length (List.concat ls) = (List.length ls * k)%nat.
Proof.
  induction 1 as [|l ls Hl _ IH]; [reflexivity|].
  cbn [List.concat List.length]. rewrite List.length_app, Hl, IH. lia.
Qed.

Lemma nth_error_concat_uniform {A : Type} (m : nat) (ls : list (list A)) :
  List.Forall (fun l => List.length l = m) ls ->
  forall (k j : nat) (l : list A),
    List.nth_error ls k = Some l -> (j < m)%nat ->
    List.nth_error (List.concat ls) (k * m + j) = List.nth_error l j.
Proof.
  induction 1 as [|l0 ls Hl0 _ IH]; intros k j l Hk Hj.
  - now destruct k.
  - destruct k as [|k]; cbn [List.nth_error List.concat] in *.
    + injection Hk as ->. cbn [Nat.mul Nat.add].
      apply List.nth_error_app1. lia.
    + rewrite List.nth_error_app2 by lia.
      replace (S k * m + j - List.length l0)%nat with (k * m + j)%nat
        by (rewrite Hl0; lia).
      now apply IH.
Qed.

Lemma nth_error_combine {A B : Type} (l1 : list A) (l2 : list B) (i : nat) :
  List.nth_error (List.combine l1 l2) i
  = match List.nth_error l1 i, List.nth_error l2 i with
    | Some a, Some b => Some (a, b)
    | _, _ => None
    end.
Proof.
  revert l2 i. induction l1 as [|a l1 IH]; intros [|b l2] [|i];
    cbn [List.combine List.nth_error]; try reflexivity.
  - now destruct (List.nth_error l1 i).
  - apply IH.
Qed.

Lemma item_last_cons {A : Type} (s : list A) :
  s <> [] -> exists a, item_last s = Ok a.
Proof.
  intros Hs. unfold item_last.
  destruct (List.rev s) as [|a r] eqn:E; [|now exists a].
  apply (f_equal (@List.rev A)) in E. rewrite List.rev_involutive in E.
  now subst.
Qed.

Lemma item_last_nth_error {A : Type} (s : list A) (a : A) :
  item_last s = Ok a ->
  List.nth_error s (List.length s - 1) = Some a.
Proof.
  unfold item_last. intros H.
  destruct (List.rev s) as [|x r] eqn:E; [discriminate|].
  injection H as ->.
  apply (f_equal (@List.rev A)) in E. rewrite List.rev_involutive in E.
  subst s. cbn [List.rev]. rewrite List.length_app. cbn [List.length].
  rewrite List.nth_error_app2 by lia.
  replace (List.length (List.rev r) + 1 - 1 - List.length (List.rev r))%nat
    with 0%nat by lia.
  reflexivity.
Qed.

Lemma getitem_lt {A : Type} (s : list A) (i : nat) :
  (i < List.length s)%nat -> exists a, getitem s i = Ok a.
Proof.
  intros Hi. unfold getitem.
  destruct (List.nth_error s i) as [a|] eqn:E; [now exists a|].
  apply List.nth_error_None in E. lia.
Qed.

Lemma getitem_nth_error {A : Type} (s : list A) (i : nat) (a : A) :
  getitem s i = Ok a -> List.nth_error s i = Some a.
Proof.
  unfold getitem. destruct (List.nth_error s i); congruence.
Qed.

Lemma getitem_raises {A : Type} (s : list A) (i : nat) (e : exn) :
  getitem s i = Raise e -> e = IndexError.
Proof.
  unfold getitem. destruct (List.nth_error s i); congruence.
Qed.

(** *** The time steps *)

Lemma np_arange_enough (a b resolution : Z) :
  (2 < resolution)%Z -> (resolution - 1 <= b - a)%Z ->
  exists interv,
    np_arange a b (Z.quot (b - a) (resolution - 1)) = Ok interv
    /\ (Z.to_nat (resolution - 1) <= List.length interv)%nat.
Proof.
  intros Hres Hgap. unfold np_arange.
  rewrite Z.quot_div_nonneg by lia.
  set (step := ((b - a) / (resolution - 1))%Z).
  assert (Hstep : (1 <= step)%Z)
    by (apply Z.div_le_lower_bound; lia).
  assert (Hmul : ((resolution - 1) * step <= b - a)%Z)
    by (apply Z.mul_div_le; lia).
  replace (0 <? step)%Z with true by (symmetry; apply Z.ltb_lt; lia).
  replace (a <? b)%Z with true by (symmetry; apply Z.ltb_lt; lia).
  cbn [andb bind]. eexists. split; [reflexivity|].
  rewrite List.length_map, List.length_seq.
  apply Z2Nat.inj_le; [lia| |].
  - apply Z.div_pos; lia.
  - apply Z.div_le_lower_bound; lia.
Qed.

Lemma np_arange_head (a b step : Z) (interv : list Z) :
  np_arange a b step = Ok interv ->
  (0 < List.length interv)%nat ->
  List.nth_error interv 0 = Some a.
Proof.
  unfold np_arange. intros H.
  match type of H with
  | bind ?m _ = _ => destruct m as [n|e]
  end; cbn [bind] in H; [injection H as <- | discriminate].
  destruct (Z.to_nat n) as [|n']; cbn [List.seq List.map List.length];
    intros Hpos; [lia|].
  cbn [List.nth_error]. f_equal. lia.
Qed.

Lemma np_arange_raises (a b step : Z) (e : exn) :
  np_arange a b step = Raise e -> e = ValueError.
Proof.
  unfold np_arange.
  destruct ((0 <? step)%Z && (a <? b)%Z); cbn [bind]; [discriminate|].
  destruct ((step <? 0)%Z && (b <? a)%Z); cbn [bind]; [discriminate|].
  destruct (negb (step =? 0)%Z); cbn [bind]; congruence.
Qed.

Lemma interval_times_inv (resolution a b : Z) (blk : list Z) :
  (2 < resolution)%Z ->
  interval_times resolution (a, b) = Ok blk ->
  List.length blk = Z.to_nat (resolution - 1)
  /\ List.nth_error blk 0 = Some a.
Proof.
  intros Hres. unfold interval_times. cbv zeta.
  destruct (np_arange a b (Z.quot (b - a) (resolution - 1)))
    as [interv|e] eqn:Erun; cbn [bind]; [|discriminate].
  destruct (Z.of_nat (List.length
              (List.firstn (Z.to_nat (resolution - 1)) interv))
            =? resolution - 1)%Z eqn:Elen; cbn [assert bind]; [|discriminate].
  intros [= <-]. apply Z.eqb_eq in Elen.
  split; [lia|].
  rewrite List.length_firstn in Elen.
  rewrite List.nth_error_firstn.
  replace (0 <? Z.to_nat (resolution - 1))%nat with true
    by (symmetry; apply Nat.ltb_lt; lia).
  apply (np_arange_head a b _ interv Erun). lia.
Qed.

Lemma interval_times_spaced (resolution a b : Z) :
  (2 < resolution)%Z -> (resolution - 1 <= b - a)%Z ->
  returns (interval_times resolution (a, b)).
Proof.
  intros Hres Hgap. unfold interval_times. cbv zeta.
  destruct (np_arange_enough a b resolution Hres Hgap) as (interv & -> & Hlen).
  cbn [bind].
  assert (Hlen' : List.length (List.firstn (Z.to_nat (resolution - 1)) interv)
                  = Z.to_nat (resolution - 1))
    by (rewrite List.length_firstn; lia).
  rewrite Hlen', Z2Nat.id, Z.eqb_refl by lia. cbn [assert bind].
  eexists. reflexivity.
Qed.

Lemma interval_times_raises (resolution : Z) (pair : Z * Z) (e : exn) :
  interval_times resolution pair = Raise e ->
  e = ValueError \/ e = AssertionError.
Proof.
  destruct pair as [a b]. unfold interval_times. cbv zeta.
  destruct (np_arange a b (Z.quot (b - a) (resolution - 1)))
    as [interv|e'] eqn:Erun; cbn [bind].
  - destruct (Z.of_nat (List.length
                (List.firstn (Z.to_nat (resolution - 1)) interv))
              =? resolution - 1)%Z; cbn [assert bind]; [discriminate|].
    intros [= <-]. now right.
  - intros [= <-]. left. exact (np_arange_raises _ _ _ _ Erun).
Qed.

Lemma interval_times_zero_step (resolution a b : Z) :
  (2 < resolution)%Z -> (0 <= b - a < resolution - 1)%Z ->
  interval_times resolution (a, b) = Raise ValueError.
Proof.
  intros Hres Hgap. unfold interval_times. cbv zeta.
  rewrite Z.quot_small by lia. unfold np_arange.
  cbn [Z.ltb Z.compare andb Z.eqb negb bind]. reflexivity.
Qed.

(** *** The interpolator *)

Section Interpolator.
Context {FL : Floats}.

Lemma np_linspace_length (start stop : double) (num : nat) :
  List.length (np_linspace start stop num) = num.
Proof. unfold np_linspace. now rewrite List.length_map, List.length_seq. Qed.

Lemma np_sin_length (x : list double) :
  List.length (np_sin x) = List.length x.
Proof. unfold np_sin. now rewrite List.length_map, List.length_seq. Qed.

Lemma samples_length (h1 h2 : double) (num : nat) :
  List.length (samples h1 h2 num) = num.
Proof.
  unfold samples. cbv zeta. rewrite List.length_map, np_sin_length.
  destruct (flt h1 h2); apply np_linspace_length.
Qed.

Lemma sine_interp_low (h1 h2 : number) (resolution : Z) (remove_end : bool) :
  (resolution <= 2)%Z ->
  sine_interp h1 h2 resolution remove_end = Raise AssertionError.
Proof.
  intros Hle. unfold sine_interp.
  replace (2 <? resolution)%Z with false by (symmetry; apply Z.ltb_ge; lia).
  reflexivity.
Qed.

(** What a returning call has checked on its way. *)
Lemma sine_interp_inv (h1 h2 : number) (resolution : Z) (remove_end : bool)
    (l : list double) :
  sine_interp h1 h2 resolution remove_end = Ok l ->
  let y := samples (float_ h1) (float_ h2) (Z.to_nat resolution) in
  (2 < resolution)%Z
  /\ l = (if remove_end
          then List.firstn (Z.to_nat (resolution - 1)) y else y)
  /\ exists y_first y_last : double,
       List.nth_error y 0 = Some y_first
       /\ List.nth_error y (Z.to_nat (resolution - 1)) = Some y_last
       /\ feq (round8 (np_float64 y_first)) (round8 (py_float (float_ h1)))
          = true
       /\ feq (round8 (np_float64 y_last)) (round8 h2) = true.
Proof.
  unfold sine_interp. cbv zeta.
  set (y := samples (float_ h1) (float_ h2) (Z.to_nat resolution)).
  destruct (2 <? resolution)%Z eqn:Eres; cbn [assert bind]; [|discriminate].
  unfold getitem.
  destruct (List.nth_error y 0) as [y_first|]; cbn [bind]; [|discriminate].
  destruct (feq (round8 (np_float64 y_first)) (round8 (py_float (float_ h1))))
    eqn:Efirst; cbn [assert bind]; [|discriminate].
  destruct (Z.of_nat (List.length y) =? resolution)%Z;
    cbn [assert bind]; [|discriminate].
  destruct (List.nth_error y (Z.to_nat (resolution - 1))) as [y_last|];
    cbn [bind]; [|discriminate].
  destruct (feq (round8 (np_float64 y_last)) (round8 h2)) eqn:Elast;
    cbn [assert bind]; [|discriminate].
  intros Hl. apply Z.ltb_lt in Eres. split; [assumption|]. split.
  - destruct remove_end; congruence.
  - exists y_first, y_last. repeat split; assumption.
Qed.

(** The flag [remove_end] plays no part in the checks: the call with the
    flag is the call without it, followed by the slice. *)
Lemma sine_interp_flag (h1 h2 : number) (resolution : Z) :
  sine_interp h1 h2 resolution true
  = bind (sine_interp h1 h2 resolution false)
         (fun y => Ok (List.firstn (Z.to_nat (resolution - 1)) y)).
Proof.
  unfold sine_interp. cbv zeta.
  set (y := samples (float_ h1) (float_ h2) (Z.to_nat resolution)).
  destruct (2 <? resolution)%Z; cbn [assert bind]; [|reflexivity].
  destruct (getitem y 0) as [y_first|]; cbn [bind]; [|reflexivity].
  destruct (feq (round8 (np_float64 y_first)) (round8 (py_float (float_ h1))));
    cbn [assert bind]; [|reflexivity].
  destruct (Z.of_nat (List.length y) =? resolution)%Z;
    cbn [assert bind]; [|reflexivity].
  destruct (getitem y (Z.to_nat (resolution - 1))) as [y_last|];
    cbn [bind]; [|reflexivity].
  destruct (feq (round8 (np_float64 y_last)) (round8 h2));
    cbn [assert bind]; reflexivity.
Qed.

Lemma sine_interp_raises (h1 h2 : number) (resolution : Z)
    (remove_end : bool) (e : exn) :
  sine_interp h1 h2 resolution remove_end = Raise e -> e = AssertionError.
Proof.
  unfold sine_interp. cbv zeta.
  set (y := samples (float_ h1) (float_ h2) (Z.to_nat resolution)).
  assert (Hlen : List.length y = Z.to_nat resolution)
    by apply samples_length.
  destruct (2 <? resolution)%Z eqn:Eres; cbn [assert bind]; [|congruence].
  apply Z.ltb_lt in Eres.
  destruct (getitem_lt y 0) as (y_first & ->); [lia|]. cbn [bind].
  destruct (feq (round8 (np_float64 y_first)) (round8 (py_float (float_ h1))));
    cbn [assert bind]; [|congruence].
  destruct (Z.of_nat (List.length y) =? resolution)%Z;
    cbn [assert bind]; [|congruence].
  destruct (getitem_lt y (Z.to_nat (resolution - 1))) as (y_last & ->); [lia|].
  cbn [bind].
  destruct (feq (round8 (np_float64 y_last)) (round8 h2));
    cbn [assert bind]; [|congruence].
  destruct remove_end; discriminate.
Qed.

(** *** The loops of [build_all_tides] *)

Lemma interpolate_pair_inv (resolution : Z) (pair : number * number)
    (blk : list double) :
  interpolate_pair resolution pair = Ok blk ->
  opens_with resolution pair blk.
Proof.
  destruct pair as [value_a value_b]. unfold interpolate_pair.
  destruct (sine_interp value_a value_b resolution true)
    as [interps|e] eqn:Erun; cbn [bind]; [|discriminate].
  destruct (Z.of_nat (List.length interps) =? resolution - 1)%Z eqn:Elen;
    cbn [assert bind]; [|discriminate].
  intros [= <-]. apply Z.eqb_eq in Elen.
  destruct (sine_interp_inv _ _ _ _ _ Erun)
    as (Hres & Hl & y_first & _ & Hfirst & _ & Hround & _).
  cbn [fst] in *. split; [lia|].
  exists y_first. split; [|assumption].
  rewrite Hl, List.nth_error_firstn.
  replace (0 <? Z.to_nat (resolution - 1))%nat with true
    by (symmetry; apply Nat.ltb_lt; lia).
  assumption.
Qed.

Lemma interpolate_pair_returns (resolution : Z) (value_a value_b : number) :
  returns (sine_interp value_a value_b resolution true) ->
  returns (interpolate_pair resolution (value_a, value_b)).
Proof.
  intros (interps & Hrun). unfold interpolate_pair. rewrite Hrun. cbn [bind].
  destruct (sine_interp_inv _ _ _ _ _ Hrun) as (Hres & Hl & _).
  cbv zeta in Hl.
  assert (Hlen : List.length interps = Z.to_nat (resolution - 1))
    by (rewrite Hl, List.length_firstn, samples_length; lia).
  rewrite Hlen, Z2Nat.id, Z.eqb_refl by lia. cbn [assert bind].
  eexists. reflexivity.
Qed.

Lemma interpolate_pair_raises (resolution : Z) (pair : number * number)
    (e : exn) :
  interpolate_pair resolution pair = Raise e -> e = AssertionError.
Proof.
  destruct pair as [value_a value_b]. unfold interpolate_pair.
  destruct (sine_interp value_a value_b resolution true)
    as [interps|e'] eqn:Erun; cbn [bind].
  - destruct (Z.of_nat (List.length interps) =? resolution - 1)%Z;
      cbn [assert bind]; congruence.
  - intros [= <-]. exact (sine_interp_raises _ _ _ _ _ Erun).
Qed.

Lemma magnitudes_loop (resolution : Z) (vals : list number) :
  interpolable resolution vals ->
  returns (for_each (interpolate_pair resolution) (pairwise vals)).
Proof.
  intros Hint.
  destruct (for_each_forall (interpolate_pair resolution) (fun _ _ => True)
              (pairwise vals)) as (blocks & Hrun & _).
  - unfold interpolable in Hint. revert Hint. apply List.Forall_impl.
    intros [value_a value_b] Hret.
    destruct (interpolate_pair_returns _ _ _ Hret) as (blk & Hblk).
    now exists blk.
  - now exists blocks.
Qed.

Lemma times_loop (resolution : Z) (idx : list Z) :
  (2 < resolution)%Z -> spaced resolution idx ->
  returns (for_each (interval_times resolution) (pairwise idx)).
Proof.
  intros Hres Hsp.
  destruct (for_each_forall (interval_times resolution) (fun _ _ => True)
              (pairwise idx)) as (blocks & Hrun & _).
  - unfold spaced in Hsp. revert Hsp. apply List.Forall_impl.
    intros [a b] Hgap.
    destruct (interval_times_spaced resolution a b Hres Hgap) as (blk & Hblk).
    now exists blk.
  - now exists blocks.
Qed.

Lemma values_length (raw_tides : DataFrame) :
  List.length (values raw_tides) = List.length (rows raw_tides).
Proof. apply List.length_map. Qed.

Lemma index_length (raw_tides : DataFrame) :
  List.length (index raw_tides) = List.length (rows raw_tides).
Proof. apply List.length_map. Qed.

Lemma build_all_tides_inv (raw_tides : DataFrame) (resolution : Z)
    (series : list (Z * double)) :
  build_all_tides raw_tides resolution = Ok series ->
  exists blocks tblocks last_value last_one,
    assembled raw_tides resolution series blocks tblocks last_value last_one.
Proof.
  unfold build_all_tides. cbv zeta.
  destruct (String.eqb (index_zone raw_tides) "UTC") eqn:Ezone;
    cbn [assert bind]; [|discriminate].
  destruct (2 <? resolution)%Z eqn:Eres; cbn [assert bind]; [|discriminate].
  apply String.eqb_eq in Ezone. apply Z.ltb_lt in Eres.
  destruct (for_each (interpolate_pair resolution)
              (pairwise (values raw_tides))) as [blocks|e] eqn:Eblocks;
    cbn [bind]; [|discriminate].
  destruct (item_last (values raw_tides)) as [last_value|e] eqn:Elv;
    cbn [bind]; [|discriminate].
  destruct (for_each (interval_times resolution)
              (pairwise (index raw_tides))) as [tblocks|e] eqn:Etblocks;
    cbn [bind]; [|discriminate].
  destruct (getitem (index raw_tides)
              (Z.to_nat (Z.of_nat (List.length (index raw_tides)) - 1)))
    as [last_one|e] eqn:Elo; cbn [bind]; [|discriminate].
  destruct (getitem (List.concat tblocks) 1) as [t1|e] eqn:Et1;
    cbn [bind]; [|discriminate].
  destruct (List.length (List.concat tblocks ++ [last_one])
            =? List.length (List.concat blocks ++ [float_ last_value]))%nat;
    cbn [assert bind]; [|discriminate].
  intros [= <-].
  apply for_each_inv in Eblocks, Etblocks.
  assert (Hb : List.Forall2 (opens_with resolution)
                 (pairwise (values raw_tides)) blocks).
  { revert Eblocks. apply Forall2_impl. intros pair blk.
    apply interpolate_pair_inv. }
  assert (Ht : List.Forall2 (fun pair blk =>
                    List.length blk = Z.to_nat (resolution - 1)
                    /\ List.nth_error blk 0 = Some (fst pair))
                 (pairwise (index raw_tides)) tblocks).
  { revert Etblocks. apply Forall2_impl. intros [a b] blk.
    now apply interval_times_inv. }
  assert (HN : (2 <= List.length (rows raw_tides))%nat).
  { apply getitem_nth_error in Et1.
    destruct tblocks as [|blk tblocks'];
      [destruct (List.nth_error_In _ _ Et1)|].
    apply List.Forall2_length in Ht. rewrite pairwise_length in Ht.
    rewrite index_length in Ht. cbn [List.length] in Ht. lia. }
  assert (Hint : interpolable resolution (values raw_tides)).
  { unfold interpolable. apply List.Forall_forall. intros [value_a value_b] Hin.
    destruct (List.In_nth_error _ _ Hin) as (k & Hk).
    destruct (Forall2_nth_error_l _ _ _ Eblocks k _ Hk) as (blk & _ & Hblk).
    unfold interpolate_pair in Hblk.
    destruct (sine_interp value_a value_b resolution true) as [interps|e];
      [now exists interps | discriminate]. }
  exists blocks, tblocks, last_value, last_one.
  split; try assumption; try reflexivity.
  - apply item_last_nth_error in Elv. now rewrite values_length in Elv.
  - apply getitem_nth_error in Elo. rewrite index_length in Elo.
    replace (List.length (rows raw_tides) - 1)%nat
      with (Z.to_nat (Z.of_nat (List.length (rows raw_tides)) - 1)) by lia.
    assumption.
Qed.

Lemma assembled_lengths (raw_tides : DataFrame) (resolution : Z)
    (series : list (Z * double)) (blocks : list (list double))
    (tblocks : list (list Z)) (last_value : number) (last_one : Z) :
  assembled raw_tides resolution series blocks tblocks last_value last_one ->
  let m := Z.to_nat (resolution - 1) in
  let N := List.length (rows raw_tides) in
  List.Forall (fun l => List.length l = m) blocks
  /\ List.Forall (fun l => List.length l = m) tblocks
  /\ List.length blocks = (N - 1)%nat
  /\ List.length tblocks = (N - 1)%nat
  /\ List.length (List.concat blocks) = ((N - 1) * m)%nat
  /\ List.length (List.concat tblocks) = ((N - 1) * m)%nat.
Proof.
  intros [_ _ Hb Ht _ _ _ _ _] m N.
  destruct (Forall2_lengths m _ _ _ Hb) as [Hbl Hbn].
  destruct (Forall2_lengths m _ _ _ Ht) as [Htl Htn].
  rewrite pairwise_length, values_length in Hbn.
  rewrite pairwise_length, index_length in Htn.
  pose proof (concat_length_uniform _ _ Hbl) as Hc1.
  pose proof (concat_length_uniform _ _ Htl) as Hc2.
  fold N in Hbn, Htn. rewrite Hbn in Hc1. rewrite Htn in Hc2.
  repeat split; assumption.
Qed.

Lemma assembled_length (raw_tides : DataFrame) (resolution : Z)
    (series : list (Z * double)) (blocks : list (list double))
    (tblocks : list (list Z)) (last_value : number) (last_one : Z) :
  assembled raw_tides resolution series blocks tblocks last_value last_one ->
  Z.of_nat (List.length series)
  = ((Z.of_nat (List.length (rows raw_tides)) - 1) * (resolution - 1) + 1)%Z.
Proof.
  intros Hasm.
  destruct (assembled_lengths _ _ _ _ _ _ _ Hasm)
    as (_ & _ & _ & _ & Hc1 & Hc2).
  destruct Hasm as [_ Hres _ _ _ _ HN _ ->].
  rewrite List.length_combine, !List.length_app, Hc1, Hc2, Nat.min_id.
  cbn [List.length]. nia.
Qed.

(** Once the two loops have passed, nothing else can fail on a frame of
    two rows or more. *)
Lemma build_all_tides_runs (raw_tides : DataFrame) (resolution : Z) :
  index_zone raw_tides = "UTC"%string ->
  (2 < resolution)%Z ->
  (2 <= List.length (rows raw_tides))%nat ->
  returns (for_each (interpolate_pair resolution)
             (pairwise (values raw_tides))) ->
  returns (for_each (interval_times resolution)
             (pairwise (index raw_tides))) ->
  returns (build_all_tides raw_tides resolution).
Proof.
  intros Hzone Hres HN (blocks & Hblocks) (tblocks & Htblocks).
  unfold build_all_tides. cbv zeta.
  rewrite Hzone. cbn [String.eqb Ascii.eqb Bool.eqb assert bind].
  apply Z.ltb_lt in Hres as Hb. rewrite Hb. cbn [assert bind].
  rewrite Hblocks, Htblocks. cbn [bind].
  pose proof (values_length raw_tides) as Hvals.
  pose proof (index_length raw_tides) as Hidx.
  destruct (item_last_cons (values raw_tides)) as (last_value & ->).
  { intros E. rewrite E in Hvals. cbn in Hvals. lia. }
  cbn [bind].
  destruct (getitem_lt (index raw_tides)
              (Z.to_nat (Z.of_nat (List.length (index raw_tides)) - 1)))
    as (last_one & ->); [lia|].
  cbn [bind].
  apply for_each_inv in Hblocks, Htblocks.
  set (m := Z.to_nat (resolution - 1)).
  assert (Hbl : List.Forall2 (fun (_ : number * number) blk =>
                                List.length blk = m /\ True)
                  (pairwise (values raw_tides)) blocks).
  { revert Hblocks. apply Forall2_impl. intros pair blk Hrun.
    split; [|exact I]. now destruct (interpolate_pair_inv _ _ _ Hrun). }
  assert (Htl : List.Forall2 (fun (_ : Z * Z) blk =>
                                List.length blk = m /\ True)
                  (pairwise (index raw_tides)) tblocks).
  { revert Htblocks. apply Forall2_impl. intros [a b] blk Hrun.
    split; [|exact I]. now destruct (interval_times_inv _ _ _ _ Hres Hrun). }
  destruct (Forall2_lengths m _ _ _ Hbl) as [Hb1 Hb2].
  destruct (Forall2_lengths m _ _ _ Htl) as [Ht1 Ht2].
  rewrite pairwise_length in Hb2. rewrite pairwise_length in Ht2.
  pose proof (concat_length_uniform _ _ Hb1) as Hc1.
  pose proof (concat_length_uniform _ _ Ht1) as Hc2.
  destruct (getitem_lt (List.concat tblocks) 1) as (t1 & ->).
  { rewrite Hc2, Ht2, Hidx. unfold m. nia. }
  cbn [bind].
  assert (Hsame : List.length (List.concat tblocks ++ [last_one])
                  = List.length (List.concat blocks ++ [float_ last_value]))
    by (rewrite !List.length_app, Hc1, Hc2, Hb2, Ht2, Hvals, Hidx;
        reflexivity).
  rewrite Hsame, Nat.eqb_refl. cbn [assert bind].
  eexists. reflexivity.
Qed.

End Interpolator.

(** C5, as amended: for a UTC-indexed frame of [N >= 2] extrema whose
    consecutive instants are at least [r - 1] ticks apart, [r > 2], and
    whose every segment passes the endpoint checks that [sine_interp] makes
    on its own samples, [build_all_tides] returns a series of exactly
    [(N-1)*(r-1) + 1] entries. *)
Theorem build_all_tides_length {FL : Floats} (raw_tides : DataFrame)
    (resolution : Z) :
  index_zone raw_tides = "UTC"%string ->
  (2 < resolution)%Z ->
  (2 <= List.length (rows raw_tides))%nat ->
  spaced resolution (index raw_tides) ->
  interpolable resolution (values raw_tides) ->
  exists series,
    build_all_tides raw_tides resolution = Ok series
    /\ Z.of_nat (List.length series)
       = ((Z.of_nat (List.length (rows raw_tides)) - 1) * (resolution - 1) + 1)%Z.
Proof.
  intros Hzone Hres HN Hsp Hint.
  destruct (build_all_tides_runs raw_tides resolution Hzone Hres HN)
    as (series & Hrun).
  - now apply magnitudes_loop.
  - now apply times_loop.
  - exists series. split; [assumption|].
    destruct (build_all_tides_inv _ _ _ Hrun)
      as (blocks & tblocks & last_value & last_one & Hasm).
    exact (assembled_length _ _ _ _ _ _ _ Hasm).
Qed.

Lemma build_all_tides_length_witness :
  let raw_tides :=
    {| index_zone := "UTC";
       rows := [(0%Z, py_float (FL := Exact.floats) 1%Q);
                (10%Z, py_float (FL := Exact.floats) 2%Q)] |} in
  exists series,
    build_all_tides raw_tides 3 = Ok series
    /\ Z.of_nat (List.length series)
       = ((Z.of_nat (List.length (rows raw_tides)) - 1) * (3 - 1) + 1)%Z.
Proof.
  intros raw_tides. apply (build_all_tides_length raw_tides 3).
  - reflexivity.
  - lia.
  - unfold raw_tides. simpl. lia.
  - unfold spaced, raw_tides, pairwise, index. simpl.
    constructor; [lia | constructor].
  - unfold interpolable, raw_tides, pairwise, values. simpl.
    constructor; [|constructor].
    eexists. vm_compute. reflexivity.
Defined.

(** C5, as stated, fails on a single extremum: no magnitude is
    interpolated, and the check on [tidetimes[1]] indexes an empty array, so
    that the call raises instead of returning a series of length 1. *)
Lemma build_all_tides_single_row_raises :
  let raw_tides :=
    {| index_zone := "UTC";
       rows := [(0%Z, py_float (FL := Exact.floats) 1%Q)] |} in
  build_all_tides raw_tides 3 = Raise IndexError
  /\ ~ (exists series,
          build_all_tides raw_tides 3 = Ok series
          /\ Z.of_nat (List.length series)
             = ((Z.of_nat (List.length (rows raw_tides)) - 1) * (3 - 1) + 1)%Z).
Proof.
  intros raw_tides.
  assert (H : build_all_tides raw_tides 3 = Raise IndexError) by reflexivity.
  split; [exact H|]. intros (series & Hs & _). rewrite H in Hs. discriminate.
Qed.

(** C10: with fewer than two rows [build_all_tides] raises and returns no
    series; once its two entry checks pass (UTC index, resolution above 2)
    the exception is the [IndexError] of an out-of-range access:
    [raw_values[-1]] on an empty frame, [tidetimes[1]] on a single row. *)
Theorem build_all_tides_needs_two_rows {FL : Floats} (raw_tides : DataFrame)
    (resolution : Z) :
  (List.length (rows raw_tides) < 2)%nat ->
  (exists e, build_all_tides raw_tides resolution = Raise e)
  /\ (index_zone raw_tides = "UTC"%string -> (2 < resolution)%Z ->
      build_all_tides raw_tides resolution = Raise IndexError).
Proof.
  intros Hrows. destruct raw_tides as [zone rws].
  cbn [rows index_zone] in *. unfold build_all_tides.
  cbn [index_zone].
  destruct (String.eqb zone "UTC") eqn:Ez.
  2:{ split; [now exists AssertionError|].
      intros ->. discriminate. }
  destruct (2 <? resolution)%Z eqn:Er.
  2:{ split; [now exists AssertionError|].
      intros _ Hr. apply Z.ltb_lt in Hr. congruence. }
  destruct rws as [|[t v] [|p rest]]; cbn [List.length] in Hrows; [| |lia].
  - split; [now exists IndexError | reflexivity].
  - split; [now exists IndexError | reflexivity].
Qed.

Lemma build_all_tides_needs_two_rows_witness :
  let raw_tides :=
    {| index_zone := "UTC"; rows := @nil (Z * number (FL := Exact.floats)) |} in
  (exists e, build_all_tides raw_tides 20 = Raise e)
  /\ (index_zone raw_tides = "UTC"%string -> (2 < 20)%Z ->
      build_all_tides raw_tides 20 = Raise IndexError).
Proof.
  intros raw_tides. apply (build_all_tides_needs_two_rows raw_tides 20).
  unfold raw_tides. simpl. lia.
Defined.

End TidesFacts.

Module ResolverFacts.
Import PyStr Calendar Astro.
Local Open Scope Q_scope.

Lemma digit_facts (c : ascii) :
  is_digit c = true ->
  is_c_space c = false /\ Ascii.eqb c "+" = false /\ Ascii.eqb c "-" = false
  /\ (0 <= digit_value c <= 9)%Z.
Proof.
  destruct c as [[] [] [] [] [] [] [] []]; vm_compute;
    intuition congruence.
Qed.

Lemma py_int_two_digits (c1 c2 : ascii) :
  is_digit c1 = true -> is_digit c2 = true ->
  py_int (String c1 (String c2 EmptyString))
  = Ok (10 * digit_value c1 + digit_value c2)%Z.
Proof.
  intros H1 H2.
  destruct (digit_facts c1 H1) as (S1 & P1 & M1 & _).
  destruct (digit_facts c2 H2) as (S2 & _).
  unfold py_int. cbn [list_ascii_of_string skip_c_spaces].
  rewrite S1. cbn [List.rev List.app skip_c_spaces]. rewrite S2.
  cbn [List.rev List.app]. rewrite P1, M1.
  cbn [parse_digits]. rewrite H1, H2. reflexivity.
Qed.

(** The digit that prints [k]. *)
Lemma digit_char (k : nat) :
  (k < 10)%nat ->
  is_digit (ascii_of_nat (48 + k)) = true
  /\ digit_value (ascii_of_nat (48 + k)) = Z.of_nat k.
Proof.
  intros Hk.
  do 10 (destruct k as [|k]; [vm_compute; split; reflexivity|]). lia.
Qed.

Lemma two_digits_spec (n : Z) :
  (0 <= n < 100)%Z ->
  exists c1 c2 : ascii,
    two_digits n = String c1 (String c2 EmptyString)
    /\ is_digit c1 = true /\ is_digit c2 = true
    /\ (10 * digit_value c1 + digit_value c2 = n)%Z.
Proof.
  intros Hn. unfold two_digits.
  assert (H1 : (0 <= n / 10 < 10)%Z)
    by (split; [apply Z.div_pos | apply Z.div_lt_upper_bound]; lia).
  assert (H2 : (0 <= n mod 10 < 10)%Z) by (apply Z.mod_pos_bound; lia).
  destruct (digit_char (Z.to_nat (n / 10)) ltac:(lia)) as (D1 & V1).
  destruct (digit_char (Z.to_nat (n mod 10)) ltac:(lia)) as (D2 & V2).
  do 2 eexists. split; [reflexivity|]. split; [exact D1|]. split; [exact D2|].
  rewrite V1, V2, !Z2Nat.id by lia.
  pose proof (Z.div_mod n 10 ltac:(lia)). lia.
Qed.

(** A text of the shape, character by character: it is parsed into the
    hours and minutes it prints. *)
Lemma parse_shape (sg h1 h2 m1 m2 : ascii) :
  Ascii.eqb sg "+" || Ascii.eqb sg "-" = true ->
  is_digit h1 = true -> is_digit h2 = true ->
  is_digit m1 = true -> is_digit m2 = true ->
  _parse_UTC_offset
    (String sg (String h1 (String h2 (String m1 (String m2 EmptyString)))))
  = Ok ((inject_Z (10 * digit_value h1 + digit_value h2)
         + inject_Z (10 * digit_value m1 + digit_value m2) / 60) / 24,
        Ascii.eqb sg "-").
Proof.
  intros Hsg Hh1 Hh2 Hm1 Hm2.
  unfold _parse_UTC_offset, slice, slice_from.
  cbn [String.length Nat.eqb assert bind String.get String.substring Nat.sub].
  rewrite !py_int_two_digits by assumption.
  apply orb_prop in Hsg as [H | H]; apply Ascii.eqb_eq in H; subst sg;
    reflexivity.
Qed.


(** The text that [%z] prints for an offset within a day has the shape,
    and parsing it gives the offset back: its size in days, and whether it
    is behind UTC. *)
Lemma strftime_parse (utcoffset : Z) :
  within_a_day utcoffset ->
  exists (text : string) (days : Q) (behind : bool),
    strftime_z utcoffset = Ok text
    /\ well_formed_offset text = true
    /\ _parse_UTC_offset text = Ok (days, behind)
    /\ (if behind then days else - days) == - offset_days utcoffset.
Proof.
  intros [Hlo Hhi]. unfold strftime_z.
  assert (Hin : ((-1440 <? utcoffset) && (utcoffset <? 1440))%Z = true).
  { apply andb_true_intro. split; apply Z.ltb_lt; assumption. }
  rewrite Hin.
  set (a := Z.abs utcoffset).
  assert (Ha : (0 <= a < 1440)%Z) by (unfold a; lia).
  assert (Hhh : (0 <= a / 60 < 100)%Z)
    by (split; [apply Z.div_pos | apply Z.div_lt_upper_bound]; lia).
  assert (Hmm : (0 <= a mod 60 < 100)%Z)
    by (pose proof (Z.mod_pos_bound a 60 ltac:(lia)); lia).
  destruct (two_digits_spec _ Hhh) as (h1 & h2 & -> & Dh1 & Dh2 & Vh).
  destruct (two_digits_spec _ Hmm) as (m1 & m2 & -> & Dm1 & Dm2 & Vm).
  change (String h1 (String h2 EmptyString)
          ++ String m1 (String m2 EmptyString))%string
    with (String h1 (String h2 (String m1 (String m2 EmptyString)))).
  set (sg := if (utcoffset <? 0)%Z then "-"%char else "+"%char).
  assert (Hsg : Ascii.eqb sg "+" || Ascii.eqb sg "-" = true)
    by (unfold sg; destruct (utcoffset <? 0)%Z; reflexivity).
  do 3 eexists. split; [reflexivity|]. split.
  { unfold well_formed_offset. cbn [list_ascii_of_string].
    now rewrite Hsg, Dh1, Dh2, Dm1, Dm2. }
  split; [now apply parse_shape|].
  rewrite Vh, Vm. unfold offset_days.
  assert (Hsplit : inject_Z a == inject_Z (a / 60) * 60 + inject_Z (a mod 60)).
  { assert (Hz : a = (a / 60 * 60 + a mod 60)%Z)
      by (pose proof (Z.div_mod a 60 ltac:(lia)); lia).
    rewrite Hz at 1. rewrite inject_Z_plus, inject_Z_mult. reflexivity. }
  assert (Hdays : (inject_Z (a / 60) + inject_Z (a mod 60) / 60) / 24
                  == inject_Z a / 1440)
    by (rewrite Hsplit; field).
  unfold sg. clear Hsg sg.
  destruct (utcoffset <? 0)%Z eqn:E;
    [apply Z.ltb_lt in E | apply Z.ltb_ge in E];
    cbn [Ascii.eqb Bool.eqb andb]; rewrite Hdays; unfold a.
  - rewrite Z.abs_neq by lia. rewrite inject_Z_opp. field.
  - rewrite Z.abs_eq by lia. reflexivity.
Qed.



Lemma datetime_new_jan1 (y : Z) :
  (MINYEAR <= y <= MAXYEAR)%Z -> datetime_new y 1 1 0 0 0 = Ok (jan1 y).
Proof.
  intros [Hlo Hhi]. unfold datetime_new.
  apply Z.leb_le in Hlo, Hhi. rewrite Hlo, Hhi. reflexivity.
Qed.

Lemma datetime_new_dec31 (y : Z) :
  (MINYEAR <= y <= MAXYEAR)%Z -> datetime_new y 12 31 23 59 59 = Ok (dec31 y).
Proof.
  intros [Hlo Hhi]. unfold datetime_new.
  apply Z.leb_le in Hlo, Hhi. rewrite Hlo, Hhi. reflexivity.
Qed.

(** The day counts of 1 January and 31 December of a year of the
    calendar. *)
Lemma cal_mjd_jan1 (y : Z) :
  (1 <= y)%Z ->
  cal_mjd 1 1 y
  = inject_Z ((if (y <=? 1582)%Z then 0
               else 2 - (y - 1) / 100 + (y - 1) / 100 / 4)
              + (1461 * (y - 1) / 4 - 694025) + 428 + 1)%Z - (1 # 2).
Proof.
  intros Hy. unfold cal_mjd. cbv zeta.
  replace (y <? 0)%Z with false by (symmetry; apply Z.ltb_ge; lia).
  change (1 <? 3)%Z with true. change (1 <? 10)%Z with true. cbv iota.
  replace (y - 1 <? 0)%Z with false by (symmetry; apply Z.ltb_ge; lia).
  change (Z.quot (306001 * (1 + 12 + 1)) 10000) with 428%Z.
  rewrite (Z.quot_div_nonneg (1461 * (y - 1)) 4) by lia.
  rewrite (Z.quot_div_nonneg (y - 1) 100) by lia.
  rewrite (Z.quot_div_nonneg ((y - 1) / 100) 4)
    by (try apply Z.div_pos; lia).
  cbn [orb andb].
  destruct (y <? 1582)%Z eqn:E1; [apply Z.ltb_lt in E1 | apply Z.ltb_ge in E1];
    cbn [orb].
  - replace (y <=? 1582)%Z with true by (symmetry; apply Z.leb_le; lia).
    reflexivity.
  - destruct (y =? 1582)%Z eqn:E2;
      [apply Z.eqb_eq in E2 | apply Z.eqb_neq in E2]; cbn [orb andb].
    + replace (y <=? 1582)%Z with true by (symmetry; apply Z.leb_le; lia).
      reflexivity.
    + replace (y <=? 1582)%Z with false by (symmetry; apply Z.leb_gt; lia).
      reflexivity.
Qed.

Lemma cal_mjd_dec31 (y : Z) :
  (1 <= y)%Z ->
  cal_mjd 12 31 y
  = inject_Z ((if (y <? 1582)%Z then 0 else 2 - y / 100 + y / 100 / 4)
              + (1461 * y / 4 - 694025) + 397 + 31)%Z - (1 # 2).
Proof.
  intros Hy. unfold cal_mjd. cbv zeta.
  replace (y <? 0)%Z with false by (symmetry; apply Z.ltb_ge; lia).
  change (12 <? 3)%Z with false. change (12 <? 10)%Z with false.
  change (12 =? 10)%Z with false. cbv iota.
  replace (y <? 0)%Z with false by (symmetry; apply Z.ltb_ge; lia).
  change (Z.quot (306001 * (12 + 1)) 10000) with 397%Z.
  rewrite (Z.quot_div_nonneg (1461 * y) 4) by lia.
  rewrite (Z.quot_div_nonneg y 100) by lia.
  rewrite (Z.quot_div_nonneg (y / 100) 4) by (try apply Z.div_pos; lia).
  cbn [orb andb]. rewrite andb_false_r, orb_false_r. reflexivity.
Qed.

(** From local midnight of 1 January to 23:59:59 of 31 December: the whole
    year of [ephem.Date]'s calendar less one second. *)
Lemma naive_year_span (y : Z) :
  (1 <= y)%Z ->
  ephem_Date (dec31 y) - ephem_Date (jan1 y)
  == ephem_year_length y - (1 # 86400).
Proof.
  intros Hy. unfold ephem_Date.
  cbn [Calendar.year month day hour minute second dec31 jan1].
  rewrite cal_mjd_jan1, cal_mjd_dec31 by assumption.
  set (j := ((if (y <=? 1582)%Z then 0
              else 2 - (y - 1) / 100 + (y - 1) / 100 / 4)
             + (1461 * (y - 1) / 4 - 694025) + 428 + 1)%Z).
  set (d := ((if (y <? 1582)%Z then 0 else 2 - y / 100 + y / 100 / 4)
             + (1461 * y / 4 - 694025) + 397 + 31)%Z).
  assert (Hdiff : exists len : Z,
             d = (j + len + -1)%Z /\ ephem_year_length y == inject_Z len).
  { unfold d, j, ephem_year_length, year_length, is_leap.
    destruct (y <? 1582)%Z eqn:E1;
      [apply Z.ltb_lt in E1 | apply Z.ltb_ge in E1].
    - replace (y <=? 1582)%Z with true by (symmetry; apply Z.leb_le; lia).
      destruct (y mod 4 =? 0)%Z eqn:E4;
        [apply Z.eqb_eq in E4 | apply Z.eqb_neq in E4];
        [exists 366%Z | exists 365%Z]; (split; [|reflexivity]);
        Z.to_euclidean_division_equations; lia.
    - destruct (y =? 1582)%Z eqn:E2;
        [apply Z.eqb_eq in E2 | apply Z.eqb_neq in E2].
      + subst y. exists 355%Z. split; reflexivity.
      + replace (y <=? 1582)%Z with false by (symmetry; apply Z.leb_gt; lia).
        destruct (y mod 4 =? 0)%Z eqn:E4;
          [apply Z.eqb_eq in E4 | apply Z.eqb_neq in E4];
          destruct (y mod 100 =? 0)%Z eqn:E100;
          [apply Z.eqb_eq in E100 | apply Z.eqb_neq in E100
          |apply Z.eqb_eq in E100 | apply Z.eqb_neq in E100];
          destruct (y mod 400 =? 0)%Z eqn:E400;
          [apply Z.eqb_eq in E400 | apply Z.eqb_neq in E400
          |apply Z.eqb_eq in E400 | apply Z.eqb_neq in E400
          |apply Z.eqb_eq in E400 | apply Z.eqb_neq in E400
          |apply Z.eqb_eq in E400 | apply Z.eqb_neq in E400];
          cbn [negb andb orb];
          first [exists 366%Z; split; [|reflexivity];
                 Z.to_euclidean_division_equations; lia
                |exists 365%Z; split; [|reflexivity];
                 Z.to_euclidean_division_equations; lia]. }
  destruct Hdiff as (len & -> & ->). clearbody j.
  rewrite !inject_Z_plus.
  change (inject_Z 23) with 23. change (inject_Z 59) with 59.
  change (inject_Z 0) with 0. change (inject_Z (-1)) with (-1). field.
Qed.

Section Bounds.

Variable pytz_timezone : string -> option (datetime -> Z).
Variable time_zone : string.
Variable year : Z.
Hypothesis year_in_range : (MINYEAR <= year <= MAXYEAR)%Z.

(** A valid year, a known zone and offsets within a day: the resolver
    returns the two naive times moved to UTC. *)
Lemma utc_year_bounds_known (zone : datetime -> Z) :
  pytz_timezone time_zone = Some zone ->
  within_a_day (zone (jan1 year)) ->
  within_a_day (zone (dec31 year)) ->
  exists start stop : Q,
    utc_year_bounds pytz_timezone time_zone year = Ok (start, stop)
    /\ start == ephem_Date (jan1 year) - offset_days (zone (jan1 year))
    /\ stop == ephem_Date (dec31 year) - offset_days (zone (dec31 year)).
Proof.
  intros Hz Hb He. unfold utc_year_bounds, localize_strftime_z.
  rewrite datetime_new_jan1, datetime_new_dec31, Hz by assumption.
  cbn [bind].
  destruct (strftime_parse _ Hb) as (t1 & d1 & b1 & S1 & _ & P1 & Hs1).
  destruct (strftime_parse _ He) as (t2 & d2 & b2 & S2 & _ & P2 & Hs2).
  rewrite S1, S2. cbn [bind]. rewrite P1. cbn [bind]. rewrite P2.
  cbn [bind]. do 2 eexists. split; [reflexivity|].
  unfold _make_offset_ephemDates.
  split; [destruct b1 | destruct b2]; lra.
Qed.


End Bounds.

(** The span of the bounds: the year of [ephem.Date]'s calendar less one
    second, plus what the offset lost between its two ends. *)
Lemma year_bounds_span
    (pytz_timezone : string -> option (datetime -> Z))
    (time_zone : string) (zone : datetime -> Z) (year : Z) :
  pytz_timezone time_zone = Some zone ->
  (MINYEAR <= year <= MAXYEAR)%Z ->
  within_a_day (zone (jan1 year)) ->
  within_a_day (zone (dec31 year)) ->
  exists start stop : Q,
    utc_year_bounds pytz_timezone time_zone year = Ok (start, stop)
    /\ stop - start
       == ephem_year_length year - (1 # 86400)
          + (offset_days (zone (jan1 year))
             - offset_days (zone (dec31 year))).
Proof.
  intros Hz Hy Hb He.
  destruct (utc_year_bounds_known _ _ _ Hy zone Hz Hb He)
    as (start & stop & Hrun & Hstart & Hstop).
  exists start, stop. split; [exact Hrun|].
  pose proof (naive_year_span year ltac:(unfold MINYEAR in Hy; lia)) as Hspan.
  lra.
Qed.

Lemma offset_days_bound (utcoffset : Z) :
  within_a_day utcoffset -> -1 < offset_days utcoffset < 1.
Proof.
  intros [Hlo Hhi]. unfold offset_days.
  assert (H1 : inject_Z (-1440) < inject_Z utcoffset)
    by now rewrite <- Zlt_Qlt.
  assert (H2 : inject_Z utcoffset < inject_Z 1440) by now rewrite <- Zlt_Qlt.
  change (inject_Z (-1440)) with (-1440) in H1.
  change (inject_Z 1440) with 1440 in H2.
  split; [apply Qlt_shift_div_l | apply Qlt_shift_div_r];
    (reflexivity || lra).
Qed.

Lemma ephem_year_length_cases (year : Z) :
  (year = 1582%Z /\ ephem_year_length year = 355)
  \/ (year <> 1582%Z
      /\ (ephem_year_length year = 365 \/ ephem_year_length year = 366)
      /\ ((1582 < year)%Z -> ephem_year_length year = year_length year)).
Proof.
  unfold ephem_year_length, year_length.
  destruct (year <? 1582)%Z eqn:E1;
    [apply Z.ltb_lt in E1 | apply Z.ltb_ge in E1].
  - right. split; [lia|]. split; [|lia].
    destruct (year mod 4 =? 0)%Z; auto.
  - destruct (year =? 1582)%Z eqn:E2;
      [apply Z.eqb_eq in E2 | apply Z.eqb_neq in E2].
    + left. split; [exact E2 | reflexivity].
    + right. split; [exact E2|]. split; [|reflexivity].
      destruct (is_leap year); auto.
Qed.

(** C2, as amended: for a recognized zone, whose offsets at the two ends
    of the year are within a day as [datetime] requires, and a year of the
    calendar (1 to 9999), [utc_year_bounds] returns [start < end], and
    [end - start] is the length of the year less one second, plus the UTC
    offset at local 1 January 00:00:00 minus the UTC offset at local
    31 December 23:59:59.  The length of the year is 365 or 366 days, but
    355 days in 1582, the year in which the calendar of [ephem.Date] drops
    5 to 14 October; after 1582 it is the length of the civil year. *)
Theorem utc_year_bounds_span
    (pytz_timezone : string -> option (datetime -> Z))
    (time_zone : string) (zone : datetime -> Z) (year : Z) :
  pytz_timezone time_zone = Some zone ->
  (MINYEAR <= year <= MAXYEAR)%Z ->
  within_a_day (zone (jan1 year)) ->
  within_a_day (zone (dec31 year)) ->
  exists (start stop days : Q),
    utc_year_bounds pytz_timezone time_zone year = Ok (start, stop)
    /\ start < stop
    /\ (if (year =? 1582)%Z then days = 355 else days = 365 \/ days = 366)
    /\ stop - start
       == days - 1 / 86400
          + (offset_days (zone (jan1 year)) - offset_days (zone (dec31 year)))
    /\ ((1582 < year)%Z -> days = year_length year).
Proof.
  intros Hz Hy Hb He.
  destruct (year_bounds_span _ _ _ _ Hz Hy Hb He)
    as (start & stop & Hrun & Hspan).
  pose proof (offset_days_bound _ Hb) as Bb.
  pose proof (offset_days_bound _ He) as Be.
  exists start, stop, (ephem_year_length year).
  assert (Heps : 1 / 86400 == 1 # 86400) by reflexivity.
  split; [exact Hrun|].
  destruct (ephem_year_length_cases year)
    as [(H1582 & Hlen) | (H1582 & Hlen & Hcivil)].
  - split; [rewrite Hlen in Hspan; lra|].
    split; [subst year; exact Hlen|].
    split; [now rewrite Heps | lia].
  - split; [destruct Hlen as [Hl | Hl]; rewrite Hl in Hspan; lra|].
    apply Z.eqb_neq in H1582. rewrite H1582.
    split; [exact Hlen|]. split; [now rewrite Heps | exact Hcivil].
Qed.

Lemma utc_year_bounds_span_witness :
  let zone := fun dt : datetime =>
                if (month dt =? 1)%Z then (-270)%Z else (-240)%Z in
  let pytz_timezone := fun name : string =>
                if String.eqb name "America/Caracas" then Some zone
                else None in
  exists (start stop days : Q),
    utc_year_bounds pytz_timezone "America/Caracas" 2016 = Ok (start, stop)
    /\ start < stop
    /\ (if (2016 =? 1582)%Z then days = 355 else days = 365 \/ days = 366)
    /\ stop - start
       == days - 1 / 86400
          + (offset_days (zone (jan1 2016)) - offset_days (zone (dec31 2016)))
    /\ ((1582 < 2016)%Z -> days = year_length 2016).
Proof.
  intros zone pytz_timezone.
  apply (utc_year_bounds_span pytz_timezone "America/Caracas" zone 2016).
  - reflexivity.
  - unfold MINYEAR, MAXYEAR. lia.
  - unfold within_a_day. cbn. lia.
  - unfold within_a_day. cbn. lia.
Defined.

(** C2, as stated, fails in 1582: [ephem.Date] counts that year on the
    calendar that drops 5 to 14 October, so for a zone at UTC all year the
    bounds are 355 days less one second apart, neither 365 nor 366.  It
    also fails outside the years of the calendar: for the year 10000 no
    pair is returned, the [datetime] constructor raises [ValueError]. *)
Lemma utc_year_bounds_1582 :
  let pytz_timezone := fun _ : string => Some (fun _ : datetime => 0%Z) in
  (exists start stop : Q,
     utc_year_bounds pytz_timezone "UTC" 1582 = Ok (start, stop)
     /\ stop - start == 355 - 1 / 86400
     /\ ~ stop - start == 365 - 1 / 86400
     /\ ~ stop - start == 366 - 1 / 86400)
  /\ utc_year_bounds pytz_timezone "UTC" 10000 = Raise ValueError.
Proof.
  intros pytz_timezone. split; [|reflexivity].
  do 2 eexists. split; [vm_compute; reflexivity|].
  split; [reflexivity|]. split; intros H; discriminate H.
Qed.



End ResolverFacts.

Module LunationFacts.
Import Astro.
Local Open Scope Q_scope.

Lemma round_half_even_bounds (fl2 n : Z) (exact_half : bool) :
  (0 <= fl2 <= 2 * n)%Z -> (0 <= round_half_even fl2 exact_half <= n)%Z.
Proof.
  intros H. unfold round_half_even.
  destruct (Z.even fl2) eqn:Ev.
  - apply Z.even_spec in Ev as [k ->].
    replace (2 * k / 2)%Z with k by (apply Z.div_unique_exact; lia).
    lia.
  - assert (Hodd : Z.odd fl2 = true) by (rewrite <- Z.negb_even, Ev; reflexivity).
    apply Z.odd_spec in Hodd as [k ->].
    replace ((2 * k + 1) / 2)%Z with k
      by (apply (Z.div_unique _ _ _ 1); lia).
    destruct exact_half; [destruct (Z.even k)|]; lia.
Qed.

Lemma py_round_bounds (x : Q) (n : Z) :
  0 <= x <= inject_Z n -> (0 <= py_round x <= n)%Z.
Proof.
  intros [Hlo Hhi]. unfold py_round. apply round_half_even_bounds. split.
  - assert (H0 : 0 <= 2 * x) by lra.
    apply Qfloor_resp_le in H0. exact H0.
  - assert (H1 : 2 * x <= inject_Z (2 * n))
      by (rewrite inject_Z_mult; change (inject_Z 2) with 2; lra).
    apply Qfloor_resp_le in H1. now rewrite Qfloor_Z in H1.
Qed.

Lemma py_div_pos (a b : Q) : 0 < b -> py_div a b = Ok (a / b).
Proof.
  intros Hb. unfold py_div.
  destruct (Qeq_bool b 0) eqn:E; [|reflexivity].
  apply Qeq_bool_iff in E. lra.
Qed.

Lemma Qlt_bool_iff (x y : Q) : Qlt_bool x y = true <-> x < y.
Proof.
  unfold Qlt_bool. rewrite negb_true_iff, <- not_true_iff_false, Qle_bool_iff.
  split; [apply Qnot_le_lt | apply Qlt_not_le].
Qed.

(** A fraction of the way through an interval, scaled by a part of [num],
    rounds into [[0, num]], and to 0 at the start of the interval. *)
Lemma scaled_part_rounds (today last_new next scale : Q) (num : Z) :
  last_new <= today -> today <= next -> last_new < next ->
  0 <= scale <= inject_Z num ->
  exists d,
    (part <- py_div (today - last_new) (next - last_new) ;;
     Ok (py_round (part * scale)))%py = Ok d
    /\ (0 <= d <= num)%Z
    /\ (today == last_new -> d = 0%Z).
Proof.
  intros Hlo Hhi Hlt [Hs0 Hs1].
  assert (Hd : 0 < next - last_new) by lra.
  rewrite py_div_pos by assumption. cbn [bind].
  set (f := (today - last_new) / (next - last_new)).
  assert (Hf0 : 0 <= f) by (apply Qle_shift_div_l; [assumption | lra]).
  assert (Hf1 : f <= 1) by (apply Qle_shift_div_r; [assumption | lra]).
  eexists. split; [reflexivity|]. split.
  - apply py_round_bounds. split; nra.
  - intros Heq.
    assert (Hz : f * scale == 0) by (unfold f; rewrite Heq; field; lra).
    assert (H0 : (0 <= py_round (f * scale) <= 0)%Z)
      by (apply py_round_bounds; rewrite Hz; split; apply Qle_refl).
    lia.
Qed.

(** One quarter test of [get_lunation_day]: re-anchor on the quarter
    instant when [today] is before it, else fall through. *)
Lemma quarter_branch (today last_new next_q scale : Q) (num : Z)
    (test : bool) (otherwise : result Z) :
  last_new <= today -> 0 <= scale <= inject_Z num ->
  (exists d, otherwise = Ok d
             /\ (0 <= d <= num)%Z /\ (today == last_new -> d = 0%Z)) ->
  exists d,
    (if test
     then if Qlt_bool today next_q
          then (part <- py_div (today - last_new) (next_q - last_new) ;;
                Ok (py_round (part * scale)))%py
          else otherwise
     else otherwise) = Ok d
    /\ (0 <= d <= num)%Z /\ (today == last_new -> d = 0%Z).
Proof.
  intros Hlo Hs Hother. destruct test; [|exact Hother].
  destruct (Qlt_bool today next_q) eqn:E; [|exact Hother].
  apply Qlt_bool_iff in E. apply scaled_part_rounds; try assumption; lra.
Qed.

(** C4: with at least one phase identifier, for every lunation with
    [last_new <= today <= next_new] and [last_new < next_new],
    [get_lunation_day] returns an integer of [[0, number_of_phase_ids - 1]],
    and returns 0 when [today] is [last_new]; the oracle's quarter instants
    are arbitrary. *)
Theorem get_lunation_day_range
    (next_first_quarter_moon next_full_moon next_last_quarter_moon : Q -> Q)
    (today last_new next_new : Q) (number_of_phase_ids : Z) :
  last_new <= today <= next_new ->
  last_new < next_new ->
  (1 <= number_of_phase_ids)%Z ->
  exists d : Z,
    get_lunation_day next_first_quarter_moon next_full_moon
                     next_last_quarter_moon
                     today last_new next_new number_of_phase_ids = Ok d
    /\ (0 <= d <= number_of_phase_ids - 1)%Z
    /\ (today == last_new -> d = 0%Z).
Proof.
  intros [Hlo Hhi] Hlt Hids. unfold get_lunation_day.
  rewrite py_div_pos by lra. cbn [bind].
  set (n := (number_of_phase_ids - 1)%Z).
  set (num := inject_Z n).
  assert (Hnum : 0 <= num)
    by (unfold num; change 0 with (inject_Z 0); rewrite <- Zle_Qle; lia).
  assert (H4 : 0 <= num / 4 <= num).
  { assert (E : num / 4 == num * (1 # 4)) by reflexivity.
    rewrite E. split; lra. }
  assert (H2 : 0 <= num / 2 <= num).
  { assert (E : num / 2 == num * (1 # 2)) by reflexivity.
    rewrite E. split; lra. }
  assert (H34 : 0 <= num * 3 / 4 <= num).
  { assert (E : num * 3 / 4 == num * 3 * (1 # 4)) by reflexivity.
    rewrite E. split; lra. }
  assert (Hfirst : exists d,
    Ok (py_round ((today - last_new) / (next_new - last_new) * num)) = Ok d
    /\ (0 <= d <= n)%Z /\ (today == last_new -> d = 0%Z)).
  { pose proof (scaled_part_rounds today last_new next_new num n
                  Hlo Hhi Hlt) as H.
    rewrite py_div_pos in H by lra. apply H. split; [assumption|].
    apply Qle_refl. }
  apply quarter_branch; [assumption | exact H4 |].
  apply quarter_branch; [assumption | exact H2 |].
  apply quarter_branch; [assumption | exact H34 |].
  exact Hfirst.
Qed.

Lemma get_lunation_day_range_witness :
  exists d : Z,
    get_lunation_day (fun t => t + 7) (fun t => t + 15) (fun t => t + 22)
                     10 0 (59 # 2) 28 = Ok d
    /\ (0 <= d <= 28 - 1)%Z
    /\ (10 == 0 -> d = 0%Z).
Proof.
  apply (get_lunation_day_range (fun t => t + 7) (fun t => t + 15)
           (fun t => t + 22) 10 0 (59 # 2) 28).
  - split; [apply Qle_bool_imp_le | apply Qle_bool_imp_le]; reflexivity.
  - reflexivity.
  - lia.
Defined.

End LunationFacts.

Module RoundFacts.
Import Astro.
Local Open Scope Q_scope.

Lemma even_half (k : Z) : ((2 * k) / 2 = k)%Z.
Proof. symmetry. apply Z.div_unique_exact; lia. Qed.

Lemma odd_half (k : Z) : ((2 * k + 1) / 2 = k)%Z.
Proof. symmetry. apply (Z.div_unique _ _ _ 1); lia. Qed.

Lemma parity_cases (z : Z) :
  (exists k, z = (2 * k)%Z /\ Z.even z = true)
  \/ (exists k, z = (2 * k + 1)%Z /\ Z.even z = false).
Proof.
  destruct (Z.even z) eqn:Ev.
  - left. apply Z.even_spec in Ev as [k ->]. now exists k.
  - right.
    assert (Hodd : Z.odd z = true) by (rewrite <- Z.negb_even, Ev; reflexivity).
    apply Z.odd_spec in Hodd as [k ->]. now exists k.
Qed.

(** Rounding to the nearest integer never reverses an order. *)
Lemma py_round_mono (x y : Q) : x <= y -> (py_round x <= py_round y)%Z.
Proof.
  intros Hxy. unfold py_round.
  assert (H2 : 2 * x <= 2 * y) by lra.
  pose proof (Qfloor_resp_le _ _ H2) as Hfl.
  pose proof (Qfloor_le (2 * x)) as Hx0.
  pose proof (Qfloor_le (2 * y)) as Hy0.
  set (fx := Qfloor (2 * x)) in *. set (fy := Qfloor (2 * y)) in *.
  assert (Htie : Qeq_bool (2 * x) (inject_Z fx) = false ->
                 Qeq_bool (2 * y) (inject_Z fy) = true -> fx <> fy).
  { intros Ex Ey Hfe. apply Qeq_bool_neq in Ex. apply Qeq_bool_iff in Ey.
    rewrite <- Hfe in Ey. apply Ex. lra. }
  unfold round_half_even.
  destruct (parity_cases fx) as [(kx & Hkx & ->) | (kx & Hkx & ->)];
    destruct (parity_cases fy) as [(ky & Hky & ->) | (ky & Hky & ->)];
    rewrite Hkx, Hky, ?even_half, ?odd_half in *;
    destruct (Qeq_bool (2 * x) (inject_Z (2 * kx + 1))) eqn:Ex;
    destruct (Qeq_bool (2 * y) (inject_Z (2 * ky + 1))) eqn:Ey;
    try (destruct (Z.even kx) eqn:Px); try (destruct (Z.even ky) eqn:Py);
    try lia.
  all: try (specialize (Htie eq_refl eq_refl); lia).
  all: destruct (Z.eq_dec kx ky) as [Heq | Hne]; [subst; congruence | lia].
Qed.

Lemma round6_mono (x y : Q) : x <= y -> round6 x <= round6 y.
Proof.
  intros Hxy. unfold round6.
  assert (H : x * 1000000 <= y * 1000000) by lra.
  apply py_round_mono in H. rewrite Zle_Qle in H.
  apply Qmult_le_compat_r; [assumption | discriminate].
Qed.

(** The loop test of [fill_in_heights] is only true strictly before
    [stop]. *)
Lemma round6_lt (d stop : Q) :
  Qlt_bool (round6 d) (round6 stop) = true -> d < stop.
Proof.
  intros H. apply LunationFacts.Qlt_bool_iff in H.
  apply Qnot_le_lt. intros Hle. apply round6_mono in Hle. lra.
Qed.

End RoundFacts.

Module StoreFacts.
Import Astro RoundFacts.
Local Open Scope Q_scope.

Lemma deref_insert_eq (h : heap) (r : ref) (o : Observer) :
  deref (<[r := o]> h) r = o.
Proof. unfold deref. now rewrite lookup_insert_eq. Qed.

Lemma deref_insert_ne (h : heap) (r r' : ref) (o : Observer) :
  r <> r' -> deref (<[r := o]> h) r' = deref h r'.
Proof. intros Hne. unfold deref. now rewrite lookup_insert_ne. Qed.

Lemma deref_Some (h : heap) (r : ref) (o : Observer) :
  h !! r = Some o -> deref h r = o.
Proof. intros H. unfold deref. now rewrite H. Qed.

Lemma fresh_ne (h : heap) (r : ref) (o : Observer) :
  h !! r = Some o -> fresh (dom h) <> r.
Proof.
  intros Hr Heq. pose proof (is_fresh (dom h)) as Hfresh.
  rewrite Heq in Hfresh. apply Hfresh, elem_of_dom. now exists o.
Qed.

Lemma st_bind_Done {A B : Type} (m : heap -> outcome A)
    (k : A -> heap -> outcome B) (h h' : heap) (a : A) :
  m h = Done a h' -> st_bind m k h = k a h'.
Proof. intros H. unfold st_bind. now rewrite H. Qed.

Lemma st_bind_Fail {A B : Type} (m : heap -> outcome A)
    (k : A -> heap -> outcome B) (h : heap) (e : exn) :
  m h = Fail e -> st_bind m k h = Fail e.
Proof. intros H. unfold st_bind. now rewrite H. Qed.

Section Fill.

Variable sin_alt : string -> Observer -> Q.
Variable o : Observer.
Variable obs : ref.
Variables stop step : Q.
Variable body_name : string.

(** The loop on the store computes the samples of [samples_from], writes
    only to [obs], and leaves in [obs] the attributes [o] at a later
    date. *)
Lemma fill_loop_spec (fuel : nat) :
  forall (h : heap) (times : list Q) (heights : list height) (d : Q),
    deref h obs = set_date o d ->
    match samples_from sin_alt fuel o d stop step body_name with
    | Some l =>
        exists h' d',
          fill_loop sin_alt fuel obs stop step body_name h times heights
          = Some (h', times ++ List.map fst l, heights ++ List.map snd l)
          /\ (forall r, r <> obs -> h' !! r = h !! r)
          /\ deref h' obs = set_date o d'
    | None =>
        fill_loop sin_alt fuel obs stop step body_name h times heights = None
    end.
Proof.
  induction fuel as [|fuel IH]; intros h times heights d Hd;
    cbn [samples_from fill_loop]; rewrite Hd; cbn [date set_date].
  - destruct (Qlt_bool (round6 d) (round6 stop)); [reflexivity|].
    exists h, d. cbn [List.map]. rewrite !List.app_nil_r. auto.
  - destruct (Qlt_bool (round6 d) (round6 stop)).
    + specialize (IH (<[obs := set_date (set_date o d) (d + step)]> h)
                     (times ++ [d])
                     (heights ++ [Val (sin_alt body_name (set_date o d))])
                     (d + step) (deref_insert_eq _ _ _)).
      destruct (samples_from sin_alt fuel o (d + step) stop step body_name)
        as [l|]; cbn [option_map]; [|exact IH].
      destruct IH as (h' & d' & Hrun & Hframe & Hobs).
      exists h', d'. rewrite Hrun. cbn [List.map fst snd].
      rewrite <- !List.app_assoc. cbn [List.app]. repeat split; [|exact Hobs].
      intros r Hr. rewrite Hframe by assumption.
      now apply lookup_insert_ne.
    + exists h, d. cbn [List.map]. rewrite !List.app_nil_r. auto.
Qed.

(** With a positive step, [fuel] iterations are enough as soon as
    [fuel * step] covers the distance to [stop]. *)
Lemma samples_from_enough (fuel : nat) :
  forall d : Q,
    0 < step -> stop - d <= inject_Z (Z.of_nat fuel) * step ->
    exists l, samples_from sin_alt fuel o d stop step body_name = Some l.
Proof.
  induction fuel as [|fuel IH]; intros d Hstep Hdist; cbn [samples_from];
    destruct (Qlt_bool (round6 d) (round6 stop)) eqn:E;
    try (eexists; reflexivity); apply round6_lt in E.
  - exfalso. change (inject_Z (Z.of_nat 0)) with 0 in Hdist. lra.
  - destruct (IH (d + step) Hstep) as (l & ->).
    + rewrite Nat2Z.inj_succ, <- Z.add_1_r, inject_Z_plus in Hdist.
      change (inject_Z 1) with 1 in Hdist. lra.
    + eexists. reflexivity.
Qed.

End Fill.

Lemma loop_fuel_enough (start stop step : Q) :
  0 < step ->
  stop - start <= inject_Z (Z.of_nat (loop_fuel start stop step)) * step.
Proof.
  intros Hstep. unfold loop_fuel.
  assert (Hb : Qlt_bool 0 step = true) by now apply LunationFacts.Qlt_bool_iff.
  rewrite Hb.
  set (q := (stop - start) / step).
  assert (Hq : stop - start == q * step) by (unfold q; field; lra).
  pose proof (Qle_ceiling q) as Hc.
  assert (Hz : inject_Z (Qceiling q)
               <= inject_Z (Z.of_nat (Z.to_nat (Qceiling q))))
    by (rewrite <- Zle_Qle; lia).
  rewrite Hq. apply Qmult_le_compat_r; lra.
Qed.

Lemma segment_returns sin_alt (o : Observer) (start stop step : Q)
    (body_name : string) (append_NaN : bool) :
  0 < step ->
  exists seg, segment sin_alt o start stop step body_name append_NaN = Some seg.
Proof.
  intros Hstep. unfold segment.
  destruct (samples_from_enough sin_alt o stop step body_name
              (loop_fuel start stop step) start Hstep
              (loop_fuel_enough start stop step Hstep)) as (l & ->).
  eexists. reflexivity.
Qed.

(** [fill_in_heights] computes the segment of the attributes found in
    [observe], and every observer of the caller's store is left as it
    was. *)
Lemma fill_in_heights_spec sin_alt (start stop step : Q) (observe : ref)
    (body_name : string) (append_NaN : bool) (h : heap) (o : Observer) :
  h !! observe = Some o ->
  match segment sin_alt o start stop step body_name append_NaN with
  | Some seg =>
      exists h',
        fill_in_heights sin_alt start stop step observe body_name
                        append_NaN h
        = Done (List.map fst seg, List.map snd seg) h'
        /\ (forall r o', h !! r = Some o' -> h' !! r = Some o')
  | None =>
      fill_in_heights sin_alt start stop step observe body_name append_NaN h
      = Loops
  end.
Proof.
  intros Ho. unfold fill_in_heights, segment, st_bind, copy_ephem_observer.
  set (obs := fresh (dom h)).
  assert (Hne : obs <> observe) by (apply (fresh_ne h observe o Ho)).
  rewrite (deref_insert_ne _ obs observe) by assumption.
  rewrite (deref_Some _ _ _ Ho), deref_insert_eq.
  set (h1 := <[obs := _]> (<[obs := new_Observer]> h)).
  pose proof (fill_loop_spec sin_alt o obs stop step body_name
                (loop_fuel start stop step)
                (<[obs := set_date o start]> h1) [] [] start
                (deref_insert_eq _ _ _)) as Hloop.
  change (set_date {| date := date o; epoch := epoch o; long := long o;
                      lat := lat o; elev := elev o; temp := temp o;
                      pressure := pressure o; horizon := horizon o |} start)
    with (set_date o start).
  destruct (samples_from sin_alt (loop_fuel start stop step) o start stop step
              body_name) as [l|]; cbn [option_map]; [|now rewrite Hloop].
  destruct Hloop as (h' & d' & -> & Hframe & Hobs).
  rewrite deref_insert_eq, Hobs. cbn [List.app date set_date].
  assert (Hframe' : forall r o',
             h !! r = Some o' ->
             (<[obs := set_date o stop]> h') !! r = Some o').
  { intros r o' Hr.
    assert (Hro : obs <> r) by (apply (fresh_ne h r o' Hr)).
    rewrite lookup_insert_ne, Hframe by auto.
    unfold h1. now rewrite !lookup_insert_ne by assumption. }
  change (set_date (set_date o d') stop) with (set_date o stop).
  destruct append_NaN.
  - rewrite !List.length_app, !List.length_map, Nat.eqb_refl.
    cbn [assert st_lift st_ret]. eexists. split; [|exact Hframe'].
    rewrite !List.map_app. cbn [List.map List.app fst snd].
    rewrite <- !List.app_assoc. reflexivity.
  - rewrite !List.length_app, !List.length_map, Nat.eqb_refl.
    cbn [assert st_lift st_ret]. eexists. split; [|exact Hframe'].
    rewrite !List.map_app. cbn [List.map List.app fst snd].
    rewrite <- ?List.app_assoc, ?List.app_nil_r. reflexivity.
Qed.

(** C9: a call of [fill_in_heights] works on a copy: whenever it returns,
    the caller's observer (and every other observer of the store) has the
    attributes it had before the call, its date included; and with a
    positive step the call does return. *)
Theorem fill_in_heights_keeps_observer
    (sin_alt : string -> Observer -> Q) (start stop step : Q) (observe : ref)
    (body_name : string) (append_NaN : bool) (h : heap) (o : Observer) :
  h !! observe = Some o ->
  (forall result h',
     fill_in_heights sin_alt start stop step observe body_name append_NaN h
     = Done result h' ->
     h' !! observe = Some o
     /\ forall r o', h !! r = Some o' -> h' !! r = Some o')
  /\ (0 < step ->
      exists result h',
        fill_in_heights sin_alt start stop step observe body_name
                        append_NaN h = Done result h').
Proof.
  intros Ho.
  pose proof (fill_in_heights_spec sin_alt start stop step observe body_name
                append_NaN h o Ho) as Hspec.
  split.
  - intros result h' Hrun.
    destruct (segment sin_alt o start stop step body_name append_NaN)
      as [seg|]; [|congruence].
    destruct Hspec as (h'' & Hrun' & Hframe).
    rewrite Hrun' in Hrun. injection Hrun as _ <-. auto.
  - intros Hstep.
    destruct (segment_returns sin_alt o start stop step body_name append_NaN
                Hstep) as (seg & Hseg).
    rewrite Hseg in Hspec. destruct Hspec as (h' & Hrun & _). eauto.
Qed.

Lemma fill_in_heights_keeps_observer_witness :
  let sin_alt := fun (_ : string) (o : Observer) => date o in
  let h : gmap positive Observer := {[1%positive := new_Observer]} in
  (forall result h',
     fill_in_heights sin_alt 0 1 (1 # 4) 1%positive "Sun" true h
     = Done result h' ->
     h' !! 1%positive = Some new_Observer
     /\ forall r o', h !! r = Some o' -> h' !! r = Some o')
  /\ (0 < 1 # 4 ->
      exists result h',
        fill_in_heights sin_alt 0 1 (1 # 4) 1%positive "Sun" true h
        = Done result h').
Proof.
  intros sin_alt h.
  apply (fill_in_heights_keeps_observer sin_alt 0 1 (1 # 4) 1%positive "Sun"
           true h new_Observer).
  reflexivity.
Defined.

End StoreFacts.

Module EventFacts.
Import Astro StoreFacts.
Local Open Scope Q_scope.

Lemma key_compare_antisym (a b : option Q) :
  key_compare b a = CompOpp (key_compare a b).
Proof.
  destruct a as [x|], b as [y|]; cbn; try reflexivity.
  symmetry. apply Qcompare_antisym.
Qed.

Lemma event_ltb_asym (a b : option Q * string) :
  event_ltb a b = true -> event_ltb b a = false.
Proof.
  unfold event_ltb. rewrite (key_compare_antisym (fst a) (fst b)).
  destruct (key_compare (fst a) (fst b)); cbn; try congruence.
  unfold String.ltb. rewrite (String.compare_antisym (snd b) (snd a)).
  destruct (String.compare (snd a) (snd b)); cbn; congruence.
Qed.

Lemma insert_sorted_perm x l : Permutation (insert_sorted x l) (x :: l).
Proof.
  induction l as [|y l IH]; cbn [insert_sorted]; [reflexivity|].
  destruct (event_ltb x y); [reflexivity|].
  rewrite IH. apply perm_swap.
Qed.

Lemma insert_sorted_sorted x l :
  Sorted not_after l -> Sorted not_after (insert_sorted x l).
Proof.
  induction 1 as [|y l Hs IH Hhd]; cbn [insert_sorted].
  - repeat constructor.
  - destruct (event_ltb x y) eqn:E.
    + constructor; [now constructor|]. constructor.
      now apply event_ltb_asym.
    + constructor; [exact IH|].
      destruct l as [|z l]; cbn [insert_sorted].
      * constructor. exact E.
      * destruct (event_ltb x z); constructor; [exact E|].
        now inversion Hhd.
Qed.

Lemma list_sort_spec l :
  Permutation (list_sort l) l /\ Sorted not_after (list_sort l).
Proof.
  unfold list_sort.
  assert (H : forall acc, Sorted not_after acc ->
            Permutation (List.fold_left
                           (fun sorted x => insert_sorted x sorted) l acc)
                        (acc ++ l)
            /\ Sorted not_after
                 (List.fold_left (fun sorted x => insert_sorted x sorted)
                                 l acc)).
  { induction l as [|x l IH]; intros acc Hacc; cbn [List.fold_left].
    - rewrite List.app_nil_r. split; [reflexivity | assumption].
    - destruct (IH (insert_sorted x acc) (insert_sorted_sorted x acc Hacc))
        as [Hp Hs].
      split; [|exact Hs]. rewrite Hp, insert_sorted_perm.
      cbn [List.app]. apply Permutation_middle. }
  apply (H []). constructor.
Qed.

(** The removal loop leaves exactly the tuples with a defined time. *)
Lemma removal_loop (rise transit set_ : option Q) (name : string) :
  let rns := [(rise, "rise"%string); (transit, transit_label name);
              (set_, "set"%string)] in
  List.fold_left
    (fun acc t =>
       (rns <- acc ;;
        match fst t with
        | None => list_remove t rns
        | Some _ => Ok rns
        end)%py)
    (List.rev rns) (Ok rns)
  = Ok (defined rns).
Proof.
  unfold transit_label.
  destruct rise, transit, set_, (String.eqb name "Sun"); reflexivity.
Qed.

Lemma read_instants (l : list (option Q * string)) :
  List.Forall (fun t => exists d, fst t = Some d) l ->
  exists evs,
    for_each (fun t => match fst t with
                       | Some d => Ok (d, snd t)
                       | None => Raise AttributeError
                       end) l = Ok evs
    /\ List.map as_tuple evs = l.
Proof.
  induction 1 as [|[k lbl] l (d & Hd) _ (evs & Hevs & Hmap)].
  - exists []. split; reflexivity.
  - cbn [fst] in Hd. subst k. exists ((d, lbl) :: evs).
    cbn [for_each fst snd bind]. rewrite Hevs. cbn [bind List.map].
    rewrite Hmap. split; reflexivity.
Qed.

(** A day's events are the defined ones of rise, transit and set, in
    chronological order; the assembly of a day never raises. *)
Lemma day_events_spec (rise transit set_ : option Q) (name : string) :
  exists evs,
    day_events rise transit set_ (transit_label name) = Ok evs
    /\ Permutation (List.map as_tuple evs)
                   (defined [(rise, "rise"%string);
                             (transit, transit_label name);
                             (set_, "set"%string)])
    /\ Sorted not_after (List.map as_tuple evs).
Proof.
  unfold day_events. rewrite removal_loop. cbn [bind].
  set (rns := defined _).
  destruct (list_sort_spec rns) as [Hperm Hsorted].
  destruct (read_instants (list_sort rns)) as (evs & -> & Hmap).
  - apply List.Forall_forall. intros t Ht.
    apply (Permutation_in _ Hperm) in Ht. unfold rns, defined in Ht.
    apply List.filter_In in Ht as [_ Ht].
    destruct (fst t) as [d|]; [now exists d | discriminate].
  - exists evs. rewrite Hmap. auto.
Qed.

Lemma combine_fst_snd {A B : Type} (l : list (A * B)) :
  List.combine (List.map fst l) (List.map snd l) = l.
Proof.
  induction l as [|[a b] l IH]; [reflexivity|].
  cbn [List.map List.combine fst snd]. now rewrite IH.
Qed.

Lemma days_from_enough (end_ : Q) (fuel : nat) :
  forall d : Q,
    end_ - d < inject_Z (Z.of_nat fuel) ->
    exists ds, days_from fuel d end_ = Some ds.
Proof.
  induction fuel as [|fuel IH]; intros d Hdist; cbn [days_from];
    destruct (Qle_bool d end_) eqn:E; try (eexists; reflexivity);
    apply Qle_bool_iff in E.
  - exfalso. change (inject_Z (Z.of_nat 0)) with 0 in Hdist. lra.
  - destruct (IH (d + 1)) as (ds & ->).
    + rewrite Nat2Z.inj_succ, <- Z.add_1_r, inject_Z_plus in Hdist.
      change (inject_Z 1) with 1 in Hdist. lra.
    + eexists. reflexivity.
Qed.

Section Loop.

Variable rise_time transit_time set_time : string -> Observer -> option Q.
Variable observer : ref.
Variable end_ : Q.
Variable name : string.
Variable o : Observer.

(** The loop visits the dates of [days_from] and appends each day's
    events. *)
Lemma events_loop_spec (fuel : nat) :
  forall (h : heap) (times : list Q) (labels : list string) (d : Q),
    deref h observer = set_date o d ->
    match days_from fuel d end_ with
    | Some ds =>
        exists per_day h',
          events_loop rise_time transit_time set_time fuel observer end_ name
                      times labels h
          = Done (times ++ List.map fst (List.concat per_day),
                  labels ++ List.map snd (List.concat per_day)) h'
          /\ List.Forall2
               (fun d evs =>
                  events_at rise_time transit_time set_time name o d = Ok evs)
               ds per_day
    | None =>
        events_loop rise_time transit_time set_time fuel observer end_ name
                    times labels h = Loops
    end.
Proof.
  induction fuel as [|fuel IH]; intros h times labels d Hd;
    cbn [days_from events_loop]; rewrite Hd; cbn [date set_date].
  - destruct (Qle_bool d end_); [reflexivity|].
    exists [], h. cbn [List.concat List.map]. rewrite !List.app_nil_r.
    split; [reflexivity | constructor].
  - destruct (Qle_bool d end_).
    2:{ exists [], h. cbn [List.concat List.map]. rewrite !List.app_nil_r.
        split; [reflexivity | constructor]. }
    destruct (day_events_spec (rise_time name (set_date o d))
                (transit_time name (set_date o d))
                (set_time name (set_date o d)) name) as (evs & Hevs & _).
    rewrite Hevs. unfold st_bind, st_lift. rewrite Hd.
    specialize (IH (<[observer := set_date (set_date o d)
                                            (date (set_date o d) + 1)]> h)
                   (times ++ List.map fst evs) (labels ++ List.map snd evs)
                   (d + 1) (deref_insert_eq _ _ _)).
    destruct (days_from fuel (d + 1) end_) as [ds|]; cbn [option_map];
      [|exact IH].
    destruct IH as (per_day & h' & Hrun & Hall).
    exists (evs :: per_day), h'. rewrite Hrun. cbn [List.concat].
    rewrite !List.map_app, !List.app_assoc. split; [reflexivity|].
    constructor; [exact Hevs | exact Hall].
Qed.

End Loop.

(** C6: the daily assembly loop of a year never raises and always
    returns; its series is the concatenation, over the dates it visits, of
    each day's events, which are the defined ones of rise, transit and set
    in chronological order; a day whose rise, transit and set are all
    undefined contributes no event. *)
Theorem polar_day_yields_no_events
    (rise_time transit_time set_time : string -> Observer -> option Q)
    (begin end_ : Q) (observer : ref) (name : string) (h : heap) :
  let o := deref h observer in
  exists (days : list Q) (per_day : list (list (Q * string))) (h' : heap),
    rise_noon_set rise_time transit_time set_time begin end_ observer name h
    = Done (List.concat per_day) h'
    /\ days_from (Z.to_nat (Qfloor (end_ - begin) + 1)) begin end_ = Some days
    /\ List.Forall2
         (fun d evs =>
            let rise := rise_time name (set_date o d) in
            let transit := transit_time name (set_date o d) in
            let set_ := set_time name (set_date o d) in
            day_events rise transit set_ (transit_label name) = Ok evs
            /\ Permutation (List.map as_tuple evs)
                           (defined [(rise, "rise"%string);
                                     (transit, transit_label name);
                                     (set_, "set"%string)])
            /\ Sorted not_after (List.map as_tuple evs)
            /\ (rise = None -> transit = None -> set_ = None -> evs = []))
         days per_day.
Proof.
  intros o. unfold rise_noon_set.
  set (fuel := Z.to_nat (Qfloor (end_ - begin) + 1)).
  destruct (days_from_enough end_ fuel begin) as (days & Hdays).
  { pose proof (Qlt_floor (end_ - begin)) as Hfl.
    assert (Hz : inject_Z (Qfloor (end_ - begin) + 1)
                 <= inject_Z (Z.of_nat fuel))
      by (rewrite <- Zle_Qle; unfold fuel; lia).
    lra. }
  pose proof (events_loop_spec rise_time transit_time set_time observer end_
                name o fuel (<[observer := set_date o begin]> h) [] [] begin
                (deref_insert_eq _ _ _)) as Hloop.
  rewrite Hdays in Hloop. destruct Hloop as (per_day & h' & Hrun & Hall).
  exists days, per_day, h'. unfold st_bind. fold o. rewrite Hrun.
  cbn [fst snd List.app]. rewrite !List.length_map, Nat.eqb_refl.
  cbn [assert st_lift st_ret]. rewrite combine_fst_snd.
  split; [reflexivity|]. split; [exact Hdays|].
  revert Hall. apply List.Forall2_impl. intros d evs Hevs. cbv zeta.
  unfold events_at in Hevs.
  destruct (day_events_spec (rise_time name (set_date o d))
              (transit_time name (set_date o d))
              (set_time name (set_date o d)) name)
    as (evs' & Hevs' & Hperm & Hsorted).
  rewrite Hevs in Hevs'. injection Hevs' as <-.
  repeat split; try assumption.
  intros Hr Ht Hs. rewrite Hr, Ht, Hs in Hperm. cbn in Hperm.
  symmetry in Hperm. apply Permutation_nil in Hperm. now destruct evs.
Qed.

End EventFacts.

Module HeightFacts.
Import Astro StoreFacts EventFacts.
Local Open Scope Q_scope.

Section Series.

Variable sin_alt : string -> Observer -> Q.
Variable step : Q.
Variable observer : ref.
Variable name : string.
Variable o : Observer.
Hypothesis step_pos : 0 < step.

Lemma fill_done (a b : Q) (h : heap) :
  h !! observer = Some o ->
  exists seg h',
    densified sin_alt o step name (a, b) seg
    /\ fill_in_heights sin_alt a b step observer name true h
       = Done (List.map fst seg, List.map snd seg) h'
    /\ h' !! observer = Some o.
Proof.
  intros Ho. unfold densified. cbn [fst snd].
  destruct (segment_returns sin_alt o a b step name true step_pos)
    as (seg & Hseg).
  pose proof (fill_in_heights_spec sin_alt a b step observer name true h o Ho)
    as Hspec.
  rewrite Hseg in Hspec. destruct Hspec as (h' & Hrun & Hframe).
  exists seg, h'. auto.
Qed.

Lemma extend_split (acc seg : list (Q * height)) :
  extend (List.map fst acc, List.map snd acc)
         (List.map fst seg, List.map snd seg)
  = (List.map fst (acc ++ seg), List.map snd (acc ++ seg)).
Proof. unfold extend. cbn [fst snd]. now rewrite !List.map_app. Qed.

(** The rise-to-set loop: every pair in order is densified with the
    observer untouched; the first pair out of order stops the run. *)
Lemma main_loop_spec (pairs : list (Q * Q)) :
  forall (acc : list (Q * height)) (h : heap),
    h !! observer = Some o ->
    if List.forallb ordered pairs
    then
      exists segs h',
        st_fold
          (fun pair acc =>
             (let rise_t := fst pair in
              let set_t := snd pair in
              _ <~ st_lift (assert (Qlt_bool rise_t set_t)) ;;
              th <~ fill_in_heights sin_alt rise_t set_t step observer
                                    name true ;;
              st_ret (extend acc th))%py)
          pairs (List.map fst acc, List.map snd acc) h
        = Done (List.map fst (acc ++ List.concat segs),
                List.map snd (acc ++ List.concat segs)) h'
        /\ List.Forall2 (densified sin_alt o step name) pairs segs
        /\ h' !! observer = Some o
    else
      st_fold
        (fun pair acc =>
           (let rise_t := fst pair in
            let set_t := snd pair in
            _ <~ st_lift (assert (Qlt_bool rise_t set_t)) ;;
            th <~ fill_in_heights sin_alt rise_t set_t step observer
                                  name true ;;
            st_ret (extend acc th))%py)
        pairs (List.map fst acc, List.map snd acc) h
      = Fail AssertionError.
Proof.
  induction pairs as [|[r s] pairs IH]; intros acc h Ho;
    cbn [List.forallb st_fold].
  - exists [], h. cbn [List.concat]. rewrite List.app_nil_r.
    split; [reflexivity|]. split; [constructor | assumption].
  - unfold ordered at 1. cbn [fst snd].
    destruct (Qlt_bool r s) eqn:E; cbn [andb].
    + destruct (fill_done r s h Ho) as (seg & h1 & Hseg & Hfill & Ho1).
      specialize (IH (acc ++ seg) h1 Ho1).
      match goal with
      | |- context [st_bind ?m _ h] =>
          assert (Hbody : m h = Done (List.map fst (acc ++ seg),
                                      List.map snd (acc ++ seg)) h1)
      end.
      { cbv zeta. cbn [fst snd]. rewrite ?E.
        unfold st_bind, st_lift, assert, st_ret. rewrite Hfill.
        now rewrite extend_split. }
      destruct (List.forallb ordered pairs).
      * destruct IH as (segs & h' & Hrun & Hall & Ho').
        exists (seg :: segs), h'.
        rewrite (st_bind_Done _ _ _ _ _ Hbody).
        cbv beta zeta in Hrun |- *. rewrite Hrun. cbn [List.concat].
        rewrite !List.app_assoc. split; [reflexivity|].
        split; [now constructor | assumption].
      * rewrite (st_bind_Done _ _ _ _ _ Hbody). exact IH.
    + apply st_bind_Fail. cbv zeta. cbn [fst snd]. rewrite ?E. reflexivity.
Qed.

Lemma combine_drop (l : list (Q * height)) :
  List.map drop_negative (List.combine (List.map fst l) (List.map snd l))
  = List.map drop_negative l.
Proof. now rewrite combine_fst_snd. Qed.

(** The whole series: an [IndexError] without a rise or without a set, an
    [AssertionError] when a rise is paired with a set that is not after it,
    and otherwise the samples of [intervals], negative ones dropped. *)
Lemma heights_series_spec (begin end_ : Q) (r_n_s : list (Q * string))
    (h : heap) :
  h !! observer = Some o ->
  let allrises := index_where "rise" r_n_s in
  let allsets := index_where "set" r_n_s in
  match allsets, allrises with
  | _ :: _, _ :: _ =>
      if List.forallb ordered (rise_set_pairs allrises allsets)
      then
        exists segs h',
          heights_series sin_alt begin end_ step observer name r_n_s h
          = Done (List.map drop_negative (List.concat segs)) h'
          /\ List.Forall2 (densified sin_alt o step name)
                          (intervals begin end_ allrises allsets) segs
          /\ h' !! observer = Some o
      else
        heights_series sin_alt begin end_ step observer name r_n_s h
        = Fail AssertionError
  | _, _ =>
      heights_series sin_alt begin end_ step observer name r_n_s h
      = Fail IndexError
  end.
Proof.
  intros Ho. cbv zeta. unfold heights_series. cbv zeta.
  destruct (index_where "set" r_n_s) as [|s0 ss]; [reflexivity|].
  destruct (index_where "rise" r_n_s) as [|r0 rs]; [reflexivity|].
  set (allrises := r0 :: rs). set (allsets := s0 :: ss).
  rewrite (st_bind_Done _ _ h h s0) by reflexivity.
  rewrite (st_bind_Done _ _ h h r0) by reflexivity.
  unfold rise_set_pairs, intervals. fold allrises. fold allsets.
  cbn [allsets allrises]. fold allrises. fold allsets.
  (* the first regime *)
  assert (Hstart : exists first h1,
    (if Qlt_bool s0 r0
     then (let first_set := s0 in
           th <~ fill_in_heights sin_alt begin first_set step observer
                                 name true ;;
           st_ret (extend ([], []) th, List.tl allsets))%py
     else st_ret (([], []), allsets)) h
    = Done ((List.map fst (List.concat first),
             List.map snd (List.concat first)),
            if Qlt_bool s0 r0 then ss else allsets) h1
    /\ List.Forall2 (densified sin_alt o step name)
                    (if Qlt_bool s0 r0 then [(begin, s0)] else []) first
    /\ h1 !! observer = Some o).
  { destruct (Qlt_bool s0 r0).
    - destruct (fill_done begin s0 h Ho) as (seg & h1 & Hseg & Hfill & Ho1).
      exists [seg], h1. cbv zeta.
      rewrite (st_bind_Done _ _ _ _ _ Hfill). cbn [st_ret List.concat].
      rewrite List.app_nil_r. unfold extend. cbn [fst snd List.app List.tl allsets].
      split; [reflexivity|]. split; [|assumption].
      constructor; [assumption | constructor].
    - exists [], h. cbn [st_ret List.concat List.map].
      split; [reflexivity|]. split; [constructor | assumption]. }
  destruct Hstart as (first & h1 & Hstart & Hfirst & Ho1).
  rewrite (st_bind_Done _ _ _ _ _ Hstart). cbn [fst snd].
  set (sets := if Qlt_bool s0 r0 then ss else allsets) in *.
  pose proof (main_loop_spec (List.combine allrises sets)
                (List.concat first) h1 Ho1) as Hmain.
  destruct (List.forallb ordered (List.combine allrises sets));
    [|now rewrite (st_bind_Fail _ _ _ _ Hmain)].
  destruct Hmain as (segs & h2 & Hmain & Hsegs & Ho2).
  rewrite (st_bind_Done _ _ _ _ _ Hmain).
  (* the trailing rise *)
  destruct (TidesFacts.item_last_cons allrises) as (last_rise & Hlast);
    [discriminate|].
  rewrite Hlast. cbn [bind].
  set (trailing := ((List.length sets <? List.length allrises)%nat
                    && Qlt_bool last_rise (pd_Timestamp end_))).
  assert (Htest :
    st_lift (if (List.length sets <? List.length allrises)%nat
             then Ok (Qlt_bool last_rise (pd_Timestamp end_))
             else Ok false) h2
    = Done trailing h2).
  { unfold trailing.
    now destruct (List.length sets <? List.length allrises)%nat. }
  rewrite (st_bind_Done _ _ _ _ _ Htest).
  assert (Hend : exists final h3,
    (if trailing
     then (last_rise0 <~ st_lift (Ok last_rise) ;;
           th <~ fill_in_heights sin_alt last_rise0 end_ step observer
                                 name true ;;
           st_ret (extend (List.map fst (List.concat first ++ List.concat segs),
                           List.map snd (List.concat first ++ List.concat segs))
                          th))%py
     else st_ret (List.map fst (List.concat first ++ List.concat segs),
                  List.map snd (List.concat first ++ List.concat segs))) h2
    = Done (List.map fst (List.concat (first ++ segs ++ final)),
            List.map snd (List.concat (first ++ segs ++ final))) h3
    /\ List.Forall2 (densified sin_alt o step name)
                    (if trailing then [(last_rise, end_)] else []) final
    /\ h3 !! observer = Some o).
  { destruct trailing.
    - destruct (fill_done last_rise end_ h2 Ho2)
        as (seg & h3 & Hseg & Hfill & Ho3).
      exists [seg], h3.
      rewrite (st_bind_Done _ _ h2 h2 last_rise) by reflexivity.
      rewrite (st_bind_Done _ _ _ _ _ Hfill). cbn [st_ret].
      rewrite extend_split, !List.concat_app. cbn [List.concat].
      rewrite List.app_nil_r, List.app_assoc.
      split; [reflexivity|]. split; [|assumption].
      constructor; [assumption | constructor].
    - exists [], h2. cbn [st_ret]. rewrite !List.concat_app.
      cbn [List.concat]. rewrite List.app_nil_r.
      split; [reflexivity|]. split; [constructor | assumption]. }
  destruct Hend as (final & h3 & Hend & Hfinal & Ho3).
  rewrite (st_bind_Done _ _ _ _ _ Hend). cbn [fst snd].
  rewrite !List.length_map, Nat.eqb_refl.
  rewrite (st_bind_Done _ _ h3 h3 tt) by reflexivity.
  cbn [st_ret]. rewrite combine_drop.
  exists (first ++ segs ++ final), h3.
  split; [reflexivity|]. split; [|assumption].
  apply List.Forall2_app; [assumption|].
  apply List.Forall2_app; assumption.
Qed.

End Series.

Lemma drop_negative_ok (e : Q * height) :
  snd (drop_negative e) = NaN
  \/ exists q, snd (drop_negative e) = Val q /\ 0 <= q.
Proof.
  unfold drop_negative. destruct e as [t [|q]]; cbn [fst snd]; [now left|].
  destruct (Qlt_bool q 0) eqn:E; cbn [snd]; [now left|].
  right. exists q. split; [reflexivity|].
  apply Qnot_lt_le. intros Hlt. apply LunationFacts.Qlt_bool_iff in Hlt.
  congruence.
Qed.

(** A densified interval ends with its NaN marker, a hundredth of a step
    past the interval's end, and dropping negatives keeps it. *)
Lemma densified_block sin_alt (o : Observer) (step : Q) (name : string)
    (iv : Q * Q) (seg : list (Q * height)) :
  densified sin_alt o step name iv seg ->
  exists samples,
    List.map drop_negative seg = samples ++ [(snd iv + step / 100, NaN)]
    /\ samples <> [].
Proof.
  unfold densified, segment. intros H.
  destruct (samples_from _ _ _ _ _ _ _) as [l|]; [|discriminate].
  cbn [option_map] in H. injection H as <-.
  set (a := (snd iv, Val (sin_alt name (set_date o (snd iv))))).
  set (b := (snd iv + step / 100, NaN)).
  exists (List.map drop_negative l ++ [drop_negative a]).
  rewrite !List.map_app. cbn [List.map List.app].
  rewrite <- List.app_assoc. split; [reflexivity|].
  intros E. apply List.app_eq_nil in E as [_ E]. discriminate.
Qed.

Lemma Forall2_blocks sin_alt (o : Observer) (step : Q) (name : string)
    (ivs : list (Q * Q)) (segs : list (list (Q * height))) :
  List.Forall2 (densified sin_alt o step name) ivs segs ->
  List.Forall2
    (fun iv block =>
       exists samples,
         block = samples ++ [(snd iv + step / 100, NaN)] /\ samples <> [])
    ivs (List.map (List.map drop_negative) segs).
Proof.
  induction 1 as [|iv seg ivs segs Hd _ IH]; cbn [List.map]; constructor.
  - now apply (densified_block sin_alt o step name).
  - exact IH.
Qed.

(** C3: when the first set of the year comes before the first rise, the
    first interval densified runs from year start to that set, and the
    rise-to-set loop pairs the rises with the sets that follow it: the run
    raises when one of those pairs is out of order, and otherwise returns
    the samples of year start to first set, then of each such pair (the
    first rise and the first set are not one of them), then of a last rise
    without a set when the closing test lets it through. *)
Theorem first_set_before_first_rise
    (sin_alt : string -> Observer -> Q) (begin end_ step : Q)
    (observer : ref) (name : string) (r_n_s : list (Q * string)) (h : heap)
    (o : Observer) (first_set first_rise : Q) (later_sets later_rises : list Q) :
  h !! observer = Some o ->
  0 < step ->
  index_where "set" r_n_s = first_set :: later_sets ->
  index_where "rise" r_n_s = first_rise :: later_rises ->
  first_set < first_rise ->
  let pairs := List.combine (first_rise :: later_rises) later_sets in
  if List.forallb ordered pairs
  then
    exists first rest trailing h',
      heights_series sin_alt begin end_ step observer name r_n_s h
      = Done (List.map drop_negative (first ++ List.concat rest)) h'
      /\ densified sin_alt o step name (begin, first_set) first
      /\ List.Forall2 (densified sin_alt o step name)
                      (pairs ++ trailing) rest
      /\ ~ List.In (first_rise, first_set) pairs
      /\ intervals begin end_ (first_rise :: later_rises)
                   (first_set :: later_sets)
         = (begin, first_set) :: pairs ++ trailing
  else
    heights_series sin_alt begin end_ step observer name r_n_s h
    = Fail AssertionError.
Proof.
  intros Ho Hstep Hsets Hrises Hlt pairs.
  apply LunationFacts.Qlt_bool_iff in Hlt as Hb.
  pose proof (heights_series_spec sin_alt step observer name o Hstep
                begin end_ r_n_s h Ho) as Hspec.
  cbv zeta in Hspec. rewrite Hsets, Hrises in Hspec.
  unfold intervals in Hspec. unfold rise_set_pairs in Hspec.
  rewrite !Hb in Hspec. fold pairs in Hspec.
  destruct (List.forallb ordered pairs) eqn:Hord; [|exact Hspec].
  destruct Hspec as (segs & h' & Hrun & Hall & _).
  cbn [List.app] in Hall.
  inversion Hall as [|iv first ivs rest Hfirst Hrest]; subst.
  eexists first, rest, _, h'. cbn [List.concat] in Hrun.
  split; [exact Hrun|]. split; [exact Hfirst|]. split; [exact Hrest|].
  split.
  - intros Hin. rewrite List.forallb_forall in Hord.
    specialize (Hord _ Hin). unfold ordered in Hord. cbn [fst snd] in Hord.
    apply LunationFacts.Qlt_bool_iff in Hord. lra.
  - unfold intervals, rise_set_pairs. rewrite Hb. reflexivity.
Qed.

Lemma first_set_before_first_rise_witness :
  let sin_alt := fun (_ : string) (_ : Observer) => 1 # 2 in
  let r_n_s := [(42371, "set"%string); (42372, "rise"%string);
                (42373, "set"%string)] in
  let h : gmap positive Observer := {[1%positive := new_Observer]} in
  let pairs := List.combine [42372] [42373] in
  if List.forallb ordered pairs
  then
    exists first rest trailing h',
      heights_series sin_alt 42370 42735 (1 # 4) 1%positive "Sun" r_n_s h
      = Done (List.map drop_negative (first ++ List.concat rest)) h'
      /\ densified sin_alt new_Observer (1 # 4) "Sun" (42370, 42371) first
      /\ List.Forall2 (densified sin_alt new_Observer (1 # 4) "Sun")
                      (pairs ++ trailing) rest
      /\ ~ List.In (42372, 42371) pairs
      /\ intervals 42370 42735 [42372] [42371; 42373]
         = (42370, 42371) :: pairs ++ trailing
  else
    heights_series sin_alt 42370 42735 (1 # 4) 1%positive "Sun" r_n_s h
    = Fail AssertionError.
Proof.
  intros sin_alt r_n_s h.
  apply (first_set_before_first_rise sin_alt 42370 42735 (1 # 4) 1%positive
           "Sun" r_n_s h new_Observer 42371 42372 [42373] []).
  - reflexivity.
  - reflexivity.
  - reflexivity.
  - reflexivity.
  - reflexivity.
Defined.

(** C8: whenever the altitude series of a year is assembled, every height
    in it is NaN or not below zero, and the series is made of one block
    per densified interval, each ending with exactly its NaN marker, a
    hundredth of a step past the interval's end; and the series is
    assembled as soon as there is a rise and a set and every rise is paired
    with a later set. *)
Theorem heights_nan_or_nonnegative
    (sin_alt : string -> Observer -> Q) (begin end_ step : Q)
    (observer : ref) (name : string) (r_n_s : list (Q * string)) (h : heap)
    (o : Observer) :
  h !! observer = Some o ->
  0 < step ->
  let allrises := index_where "rise" r_n_s in
  let allsets := index_where "set" r_n_s in
  (forall series h',
     heights_series sin_alt begin end_ step observer name r_n_s h
     = Done series h' ->
     List.Forall (fun e => snd e = NaN \/ exists q, snd e = Val q /\ 0 <= q)
                 series
     /\ exists blocks,
          series = List.concat blocks
          /\ List.Forall2
               (fun iv block =>
                  exists samples,
                    block = samples ++ [(snd iv + step / 100, NaN)]
                    /\ samples <> [])
               (intervals begin end_ allrises allsets) blocks)
  /\ (allrises <> [] -> allsets <> [] ->
      List.forallb ordered (rise_set_pairs allrises allsets) = true ->
      exists series h',
        heights_series sin_alt begin end_ step observer name r_n_s h
        = Done series h').
Proof.
  intros Ho Hstep allrises allsets.
  pose proof (heights_series_spec sin_alt step observer name o Hstep
                begin end_ r_n_s h Ho) as Hspec.
  cbv zeta in Hspec. fold allrises allsets in Hspec.
  split.
  - intros series h' Hrun.
    destruct allsets as [|s0 ss]; [congruence|].
    destruct allrises as [|r0 rs]; [congruence|].
    destruct (List.forallb ordered _); [|congruence].
    destruct Hspec as (segs & h'' & Hrun' & Hall & _).
    rewrite Hrun' in Hrun. injection Hrun as <- _. split.
    + apply List.Forall_forall. intros e He.
      apply List.in_map_iff in He as (e0 & <- & _).
      apply drop_negative_ok.
    + exists (List.map (List.map drop_negative) segs).
      split; [apply List.concat_map|].
      now apply (Forall2_blocks sin_alt o step name).
  - intros Hr Hs Hord.
    destruct allsets as [|s0 ss]; [congruence|].
    destruct allrises as [|r0 rs]; [congruence|].
    rewrite Hord in Hspec. destruct Hspec as (segs & h' & Hrun & _).
    eauto.
Qed.

Lemma heights_nan_or_nonnegative_witness :
  let sin_alt := fun (_ : string) (o : Observer) => date o - 42372 in
  let r_n_s := [(42371, "rise"%string); (42373, "set"%string);
                (42374, "rise"%string)] in
  let h : gmap positive Observer := {[1%positive := new_Observer]} in
  let allrises := index_where "rise" r_n_s in
  let allsets := index_where "set" r_n_s in
  exists series h',
    heights_series sin_alt 42370 42735 1 1%positive "Moon" r_n_s h
    = Done series h'
    /\ List.Forall (fun e => snd e = NaN \/ exists q, snd e = Val q /\ 0 <= q)
                   series
    /\ exists blocks,
         series = List.concat blocks
         /\ List.Forall2
              (fun iv block =>
                 exists samples,
                   block = samples ++ [(snd iv + 1 / 100, NaN)]
                   /\ samples <> [])
              (intervals 42370 42735 allrises allsets) blocks.
Proof.
  intros sin_alt r_n_s h allrises allsets.
  destruct (heights_nan_or_nonnegative sin_alt 42370 42735 1 1%positive
              "Moon" r_n_s h new_Observer) as (Hall & Hreturns).
  - reflexivity.
  - reflexivity.
  - destruct Hreturns as (series & h' & Hrun).
    + discriminate.
    + discriminate.
    + reflexivity.
    + exists series, h'. split; [exact Hrun|]. exact (Hall series h' Hrun).
Defined.

End HeightFacts.

(** * Further properties of [tides.py] *)

Module TidesMore.
Import Tides TidesFacts.

(** [pairwise] pairs each element with its successor: entry [i] exists
    exactly when the input has entries [i] and [i + 1], and holds both. *)
Theorem pairwise_lookup {A : Type} (s : list A) (i : nat) :
  List.nth_error (pairwise s) i
  = match List.nth_error s i, List.nth_error s (S i) with
    | Some a, Some b => Some (a, b)
    | _, _ => None
    end.
Proof. apply pairwise_nth_error. Qed.



(** [sine_interp] raises nothing but [AssertionError]; it raises it
    whenever the resolution is 2 or less, whatever the heights, and so
    returns only for a resolution above 2. *)
Theorem sine_interp_failures {FL : Floats} (height1 height2 : number)
    (resolution : Z) (remove_end : bool) :
  (forall e : exn,
     sine_interp height1 height2 resolution remove_end = Raise e ->
     e = AssertionError)
  /\ ((resolution <= 2)%Z ->
      sine_interp height1 height2 resolution remove_end
      = Raise AssertionError)
  /\ (returns (sine_interp height1 height2 resolution remove_end) ->
      (2 < resolution)%Z).
Proof.
  split; [intros e; apply sine_interp_raises|].
  split; [apply sine_interp_low|].
  intros (l & Hrun). now destruct (sine_interp_inv _ _ _ _ _ Hrun).
Qed.

(** The flag [remove_end] changes nothing but the slice of lines 92 to 95:
    when the call without the flag returns [y], the call with it returns
    [y] without its last sample, [resolution - 1] samples in all; when the
    one raises, the other raises the same exception. *)
Theorem sine_interp_remove_end {FL : Floats} (height1 height2 : number)
    (resolution : Z) :
  match sine_interp height1 height2 resolution false with
  | Ok y =>
      sine_interp height1 height2 resolution true = Ok (List.removelast y)
      /\ Z.of_nat (List.length (List.removelast y)) = (resolution - 1)%Z
  | Raise e => sine_interp height1 height2 resolution true = Raise e
  end.
Proof.
  rewrite sine_interp_flag.
  destruct (sine_interp height1 height2 resolution false) as [y|e] eqn:Hrun;
    cbn [bind]; [|reflexivity].
  destruct (sine_interp_inv _ _ _ _ _ Hrun) as (Hres & -> & _).
  set (y := samples (float_ height1) (float_ height2) (Z.to_nat resolution)).
  assert (Hlen : List.length y = Z.to_nat resolution) by apply samples_length.
  assert (Hcut : List.firstn (Z.to_nat (resolution - 1)) y
                 = List.removelast y).
  { rewrite List.removelast_firstn_len, Hlen. f_equal. lia. }
  rewrite Hcut. split; [reflexivity|].
  rewrite <- Hcut, List.length_firstn, Hlen. lia.
Qed.

(** *** The knots of the tide curve *)

(** The densified curve passes through every extremum.  On a frame that
    [build_all_tides] accepts, entry [k * (resolution - 1)] of the series
    carries the instant of row [k]; its magnitude is that of the row for the
    last row, and for every other row a sample that has passed the check of
    line 88 against it: the two agree once rounded to 8 decimals. *)
Theorem build_all_tides_knots {FL : Floats} (raw_tides : DataFrame)
    (resolution : Z) :
  index_zone raw_tides = "UTC"%string ->
  (2 < resolution)%Z ->
  (2 <= List.length (rows raw_tides))%nat ->
  spaced resolution (index raw_tides) ->
  interpolable resolution (values raw_tides) ->
  exists series,
    build_all_tides raw_tides resolution = Ok series
    /\ forall (k : nat) (t : Z) (v : number),
         List.nth_error (rows raw_tides) k = Some (t, v) ->
         exists m : double,
           List.nth_error series (k * Z.to_nat (resolution - 1)) = Some (t, m)
           /\ (if (S k =? List.length (rows raw_tides))%nat
               then m = float_ v
               else feq (round8 (np_float64 m)) (round8 (py_float (float_ v)))
                    = true).
Proof.
  intros Hzone Hres HN Hsp Hint.
  destruct (build_all_tides_runs raw_tides resolution Hzone Hres HN)
    as (series & Hrun).
  { now apply magnitudes_loop. }
  { now apply times_loop. }
  exists series. split; [assumption|].
  destruct (build_all_tides_inv _ _ _ Hrun)
    as (vvs & tts & last_value & last_one & Hasm).
  destruct (assembled_lengths _ _ _ _ _ _ _ Hasm)
    as (Hvlen & Htlen & Hvn & Htn & Hc1 & Hc2).
  destruct Hasm as [_ _ Hvv Htt Hlv Hlo _ _ ->].
  set (m := Z.to_nat (resolution - 1)) in *.
  assert (Hm : (2 <= m)%nat) by (unfold m; lia).
  intros k t v Hrow. rewrite nth_error_combine.
  assert (Hk : (k < List.length (rows raw_tides))%nat)
    by (apply List.nth_error_Some; congruence).
  assert (Ht : List.nth_error (index raw_tides) k = Some t)
    by (unfold index; rewrite List.nth_error_map, Hrow; reflexivity).
  assert (Hv : List.nth_error (values raw_tides) k = Some v)
    by (unfold values; rewrite List.nth_error_map, Hrow; reflexivity).
  destruct (S k =? List.length (rows raw_tides))%nat eqn:Elast.
  - (* the last row, appended after the two loops *)
    apply Nat.eqb_eq in Elast.
    replace (List.length (rows raw_tides) - 1)%nat with k in Hlv, Hlo by lia.
    rewrite !List.nth_error_app2 by (rewrite ?Hc1, ?Hc2; nia).
    rewrite Hc1, Hc2.
    replace (k * m - (List.length (rows raw_tides) - 1) * m)%nat with 0%nat
      by nia.
    cbn [List.nth_error]. exists (float_ last_value).
    split; [|congruence]. congruence.
  - (* a row that opens a segment *)
    apply Nat.eqb_neq in Elast.
    assert (Hnext : (S k < List.length (rows raw_tides))%nat) by lia.
    destruct (List.nth_error (index raw_tides) (S k)) as [t'|] eqn:Ht';
      [|apply List.nth_error_None in Ht'; rewrite index_length in Ht'; lia].
    destruct (List.nth_error (values raw_tides) (S k)) as [v'|] eqn:Hv';
      [|apply List.nth_error_None in Hv'; rewrite values_length in Hv'; lia].
    assert (Hpt : List.nth_error (pairwise (index raw_tides)) k = Some (t, t'))
      by (rewrite pairwise_nth_error, Ht, Ht'; reflexivity).
    assert (Hpv : List.nth_error (pairwise (values raw_tides)) k = Some (v, v'))
      by (rewrite pairwise_nth_error, Hv, Hv'; reflexivity).
    destruct (Forall2_nth_error_l _ _ _ Htt k _ Hpt)
      as (lt & Hlt & _ & Hhead_t).
    destruct (Forall2_nth_error_l _ _ _ Hvv k _ Hpv)
      as (lv & Hlv' & _ & y_first & Hhead_v & Hround).
    cbn [fst] in Hhead_t, Hround.
    rewrite !List.nth_error_app1 by (rewrite ?Hc1, ?Hc2; nia).
    replace (k * m)%nat with (k * m + 0)%nat by lia.
    rewrite (nth_error_concat_uniform m tts Htlen k 0 lt Hlt) by lia.
    rewrite (nth_error_concat_uniform m vvs Hvlen k 0 lv Hlv') by lia.
    rewrite Hhead_t, Hhead_v. exists y_first. split; [reflexivity|assumption].
Qed.

Lemma build_all_tides_knots_witness :
  let raw_tides :=
    {| index_zone := "UTC";
       rows := [(0%Z, py_float (FL := Exact.floats) 1%Q);
                (10%Z, py_float (FL := Exact.floats) 3%Q);
                (30%Z, py_float (FL := Exact.floats) 2%Q)] |} in
  exists series,
    build_all_tides raw_tides 3 = Ok series
    /\ forall (k : nat) (t : Z) (v : number),
         List.nth_error (rows raw_tides) k = Some (t, v) ->
         exists m : Q,
           List.nth_error series (k * Z.to_nat (3 - 1)) = Some (t, m)
           /\ (if (S k =? List.length (rows raw_tides))%nat
               then m = float_ v
               else Qeq_bool (Exact.round8 m) (Exact.round8 (float_ v))
                    = true).
Proof.
  intros raw_tides. apply (build_all_tides_knots raw_tides 3).
  - reflexivity.
  - lia.
  - unfold raw_tides. simpl. lia.
  - unfold spaced, raw_tides, pairwise, index. simpl.
    repeat constructor; lia.
  - unfold interpolable, raw_tides, pairwise, values. simpl.
    repeat constructor; eexists; vm_compute; reflexivity.
Defined.

(** A series that [build_all_tides] returns has been through every check:
    the index is in UTC, the resolution is above 2, the frame has two rows
    or more, every segment has passed the checks of [sine_interp], and the
    series has [(N-1)*(r-1) + 1] entries. *)
Theorem build_all_tides_returned {FL : Floats} (raw_tides : DataFrame)
    (resolution : Z) (series : list (Z * double)) :
  build_all_tides raw_tides resolution = Ok series ->
  index_zone raw_tides = "UTC"%string
  /\ (2 < resolution)%Z
  /\ (2 <= List.length (rows raw_tides))%nat
  /\ interpolable resolution (values raw_tides)
  /\ Z.of_nat (List.length series)
     = ((Z.of_nat (List.length (rows raw_tides)) - 1) * (resolution - 1) + 1)%Z.
Proof.
  intros Hrun.
  destruct (build_all_tides_inv _ _ _ Hrun)
    as (blocks & tblocks & last_value & last_one & Hasm).
  pose proof (assembled_length _ _ _ _ _ _ _ Hasm) as Hlen.
  destruct Hasm as [Hzone Hres _ _ _ _ HN Hint _].
  repeat split; assumption.
Qed.

Lemma build_all_tides_returned_witness :
  let raw_tides :=
    {| index_zone := "UTC";
       rows := [(0%Z, py_float (FL := Exact.floats) 1%Q);
                (10%Z, py_float (FL := Exact.floats) 2%Q)] |} in
  exists series,
    build_all_tides raw_tides 3 = Ok series
    /\ index_zone raw_tides = "UTC"%string
    /\ (2 < 3)%Z
    /\ (2 <= List.length (rows raw_tides))%nat
    /\ interpolable 3 (values raw_tides)
    /\ Z.of_nat (List.length series)
       = ((Z.of_nat (List.length (rows raw_tides)) - 1) * (3 - 1) + 1)%Z.
Proof.
  intros raw_tides.
  destruct (build_all_tides raw_tides 3) as [series|e] eqn:Hrun;
    [|vm_compute in Hrun; discriminate].
  exists series. split; [reflexivity|].
  exact (build_all_tides_returned raw_tides 3 series Hrun).
Defined.

(** Two first extrema at the same instant, or closer than
    [resolution - 1] ticks, give a zero time step, which [np.arange]
    refuses: [build_all_tides] never returns on such a frame.  It raises
    [ValueError] when the magnitude loop, which runs first, has passed, and
    the [AssertionError] of that loop otherwise. *)
Theorem build_all_tides_zero_step {FL : Floats} (more_rows : list (Z * number))
    (t t' : Z) (v v' : number) (resolution : Z) :
  (2 < resolution)%Z ->
  (0 <= t' - t < resolution - 1)%Z ->
  let raw_tides :=
    {| index_zone := "UTC"; rows := (t, v) :: (t', v') :: more_rows |} in
  (interpolable resolution (values raw_tides) ->
   build_all_tides raw_tides resolution = Raise ValueError)
  /\ (build_all_tides raw_tides resolution = Raise ValueError
      \/ build_all_tides raw_tides resolution = Raise AssertionError).
Proof.
  intros Hres Hgap raw_tides.
  assert (Hcases :
    match for_each (interpolate_pair resolution)
            (pairwise (values raw_tides)) with
    | Ok _ => build_all_tides raw_tides resolution = Raise ValueError
    | Raise e => build_all_tides raw_tides resolution = Raise e
    end).
  { unfold build_all_tides. cbv zeta.
    cbn [raw_tides index_zone String.eqb Ascii.eqb Bool.eqb assert bind].
    apply Z.ltb_lt in Hres as Hb. rewrite Hb. cbn [assert bind].
    destruct (for_each (interpolate_pair resolution)
                (pairwise (values raw_tides))) as [blocks|e];
      cbn [bind]; [|reflexivity].
    destruct (item_last_cons (values raw_tides)) as (last_value & ->);
      [discriminate|].
    cbn [bind]. unfold index, pairwise.
    cbn [raw_tides rows List.map fst List.tl List.combine for_each].
    rewrite (interval_times_zero_step resolution t t' Hres Hgap).
    reflexivity. }
  split.
  - intros Hint. destruct (magnitudes_loop _ _ Hint) as (blocks & Hblocks).
    now rewrite Hblocks in Hcases.
  - destruct (for_each (interpolate_pair resolution)
                (pairwise (values raw_tides))) as [blocks|e] eqn:Eloop;
      [now left|].
    right. destruct (for_each_raises _ _ _ Eloop) as (pair & _ & Hpair).
    now rewrite (interpolate_pair_raises _ _ _ Hpair) in Hcases.
Qed.

Lemma build_all_tides_zero_step_witness :
  let raw_tides :=
    {| index_zone := "UTC";
       rows := [(5%Z, py_float (FL := Exact.floats) 1%Q);
                (5%Z, py_float (FL := Exact.floats) 2%Q);
                (90%Z, py_float (FL := Exact.floats) 1%Q)] |} in
  interpolable 20 (values raw_tides)
  /\ build_all_tides raw_tides 20 = Raise ValueError
  /\ (build_all_tides raw_tides 20 = Raise ValueError
      \/ build_all_tides raw_tides 20 = Raise AssertionError).
Proof.
  intros raw_tides.
  assert (Hint : interpolable 20 (values raw_tides)).
  { unfold interpolable, raw_tides, pairwise, values. simpl.
    repeat constructor; eexists; vm_compute; reflexivity. }
  destruct (build_all_tides_zero_step
              [(90%Z, py_float (FL := Exact.floats) 1%Q)] 5 5
              (py_float (FL := Exact.floats) 1%Q)
              (py_float (FL := Exact.floats) 2%Q) 20) as [Hvalue Hany];
    [lia | lia |].
  split; [exact Hint|]. split; [exact (Hvalue Hint) | exact Hany].
Defined.

End TidesMore.

(** * Further properties of [astro.py] *)

Module AstroMore.
Import PyStr Calendar Astro.
Import ResolverFacts LunationFacts RoundFacts StoreFacts EventFacts HeightFacts.
Local Open Scope Q_scope.

(** Each bound is the naive local time moved to UTC: local midnight of
    1 January less the zone's signed offset then, and 23:59:59 of
    31 December less the signed offset then; a zone behind UTC (negative
    offset) gets later instants.  The naive times are counted as
    [ephem.Date] counts them, on the Julian calendar before
    15 October 1582. *)
Theorem utc_year_bounds_local_to_utc
    (pytz_timezone : string -> option (datetime -> Z))
    (time_zone : string) (zone : datetime -> Z) (year : Z) :
  pytz_timezone time_zone = Some zone ->
  (MINYEAR <= year <= MAXYEAR)%Z ->
  within_a_day (zone (jan1 year)) ->
  within_a_day (zone (dec31 year)) ->
  exists start stop : Q,
    utc_year_bounds pytz_timezone time_zone year = Ok (start, stop)
    /\ start == ephem_Date (jan1 year) - offset_days (zone (jan1 year))
    /\ stop == ephem_Date (dec31 year) - offset_days (zone (dec31 year)).
Proof.
  intros Hz Hy Hb He. now apply utc_year_bounds_known.
Qed.

Lemma utc_year_bounds_local_to_utc_witness :
  let zone := fun _ : datetime => 330%Z in
  let pytz_timezone := fun name : string =>
        if String.eqb name "Asia/Kolkata" then Some zone else None in
  exists start stop : Q,
    utc_year_bounds pytz_timezone "Asia/Kolkata" 2015 = Ok (start, stop)
    /\ start == ephem_Date (jan1 2015) - offset_days (zone (jan1 2015))
    /\ stop == ephem_Date (dec31 2015) - offset_days (zone (dec31 2015)).
Proof.
  intros zone pytz_timezone.
  apply (utc_year_bounds_local_to_utc pytz_timezone "Asia/Kolkata" zone 2015).
  - reflexivity.
  - unfold MINYEAR, MAXYEAR. lia.
  - unfold within_a_day, zone. lia.
  - unfold within_a_day, zone. lia.
Defined.



(** [copy_ephem_observer] returns a reference that was not in use, holding
    the eight attributes of the original; the original and every other
    observer stay as they were. *)
Theorem copy_ephem_observer_fresh_equal
    (original_observer : positive) (h : gmap positive Observer)
    (o : Observer) :
  h !! original_observer = Some o ->
  exists (new_observer : positive) (h' : gmap positive Observer),
    copy_ephem_observer original_observer h = Done new_observer h'
    /\ h !! new_observer = None
    /\ h' !! new_observer = Some o
    /\ forall r, r <> new_observer -> h' !! r = h !! r.
Proof.
  intros Ho. unfold copy_ephem_observer.
  set (new_observer := fresh (dom h)).
  assert (Hne : new_observer <> original_observer)
    by apply (fresh_ne h original_observer o Ho).
  exists new_observer. eexists. split; [reflexivity|].
  split; [apply not_elem_of_dom, is_fresh|].
  rewrite deref_insert_ne, (deref_Some _ _ _ Ho) by assumption.
  split.
  - rewrite lookup_insert_eq. now destruct o.
  - intros r Hr. now rewrite !lookup_insert_ne by congruence.
Qed.

Lemma copy_ephem_observer_fresh_equal_witness :
  let h : gmap positive Observer := {[7%positive := new_Observer]} in
  exists (new_observer : positive) (h' : gmap positive Observer),
    copy_ephem_observer 7%positive h = Done new_observer h'
    /\ h !! new_observer = None
    /\ h' !! new_observer = Some new_Observer
    /\ forall r, r <> new_observer -> h' !! r = h !! r.
Proof.
  intros h. apply (copy_ephem_observer_fresh_equal 7%positive h new_Observer).
  reflexivity.
Defined.

Lemma py_round_Qeq (x y : Q) : x == y -> py_round x = py_round y.
Proof.
  intros E. apply Z.le_antisymm; apply py_round_mono; rewrite E;
    apply Qle_refl.
Qed.

Lemma py_round_integer (n : Z) : py_round (inject_Z n) = n.
Proof.
  assert (Hf : Qfloor (2 * inject_Z n) = (2 * n)%Z).
  { rewrite <- (Qfloor_Z (2 * n)). apply Qfloor_comp.
    rewrite inject_Z_mult. reflexivity. }
  unfold py_round, round_half_even. rewrite Hf.
  replace (Z.even (2 * n)) with true
    by (symmetry; apply Z.even_spec; now exists n).
  apply even_half.
Qed.

(** At the instant of the next new moon the classifier returns the last
    identifier, [number_of_phase_ids - 1], whatever the quarter instants. *)
Theorem get_lunation_day_end_of_lunation
    (next_first_quarter_moon next_full_moon next_last_quarter_moon : Q -> Q)
    (last_new next_new : Q) (number_of_phase_ids : Z) :
  last_new < next_new ->
  (1 <= number_of_phase_ids)%Z ->
  get_lunation_day next_first_quarter_moon next_full_moon
                   next_last_quarter_moon
                   next_new last_new next_new number_of_phase_ids
  = Ok (number_of_phase_ids - 1)%Z.
Proof.
  intros Hlt Hids. unfold get_lunation_day.
  rewrite py_div_pos by lra. cbn [bind].
  set (n := (number_of_phase_ids - 1)%Z).
  assert (Hn : 0 <= inject_Z n)
    by (change 0 with (inject_Z 0); rewrite <- Zle_Qle; lia).
  assert (Hfirst : py_round ((next_new - last_new) / (next_new - last_new)
                             * inject_Z n) = n).
  { rewrite <- (py_round_integer n) at 2. apply py_round_Qeq. field. lra. }
  rewrite Hfirst.
  assert (Hcut : forall scale : Q,
             scale <= inject_Z n -> (n <? Qceiling scale)%Z = false).
  { intros scale Hs. apply Z.ltb_ge.
    apply Qceiling_resp_le in Hs. now rewrite Qceiling_Z in Hs. }
  set (num := inject_Z n) in *.
  rewrite !Hcut; [reflexivity | | |];
    (apply Qle_shift_div_r; [reflexivity | lra]).
Qed.

Lemma get_lunation_day_end_of_lunation_witness :
  get_lunation_day (fun t => t + 7) (fun t => t + 15) (fun t => t + 22)
                   (59 # 2) 0 (59 # 2) 28
  = Ok (28 - 1)%Z.
Proof.
  apply (get_lunation_day_end_of_lunation
           (fun t => t + 7) (fun t => t + 15) (fun t => t + 22) 0 (59 # 2) 28).
  - reflexivity.
  - lia.
Defined.

(** A lunation of no length, [next_new] equal to [last_new], makes the
    first division fail: [ZeroDivisionError], for every date. *)
Theorem get_lunation_day_zero_lunation
    (next_first_quarter_moon next_full_moon next_last_quarter_moon : Q -> Q)
    (today last_new next_new : Q) (number_of_phase_ids : Z) :
  next_new == last_new ->
  get_lunation_day next_first_quarter_moon next_full_moon
                   next_last_quarter_moon
                   today last_new next_new number_of_phase_ids
  = Raise ZeroDivisionError.
Proof.
  intros E. unfold get_lunation_day, py_div.
  replace (Qeq_bool (next_new - last_new) 0) with true; [reflexivity|].
  symmetry. apply Qeq_bool_iff. rewrite E. ring.
Qed.

Lemma get_lunation_day_zero_lunation_witness :
  get_lunation_day (fun t => t) (fun t => t) (fun t => t) 3 5 5 28
  = Raise ZeroDivisionError.
Proof.
  apply (get_lunation_day_zero_lunation (fun t => t) (fun t => t)
           (fun t => t) 3 5 5 28).
  reflexivity.
Defined.

(** A year in which the body never rises, or never sets, has no altitude
    series: reading the first set or the first rise raises [IndexError]. *)
Theorem heights_series_needs_rise_and_set
    (sin_alt : string -> Observer -> Q) (begin end_ step : Q)
    (observer : positive) (name : string) (r_n_s : list (Q * string))
    (h : gmap positive Observer) :
  index_where "set" r_n_s = [] \/ index_where "rise" r_n_s = [] ->
  heights_series sin_alt begin end_ step observer name r_n_s h
  = Fail IndexError.
Proof.
  intros Hempty. unfold heights_series. cbv zeta.
  destruct (index_where "set" r_n_s) as [|s0 ss]; [reflexivity|].
  destruct Hempty as [Hs | Hr]; [discriminate|].
  rewrite Hr. reflexivity.
Qed.

Lemma heights_series_needs_rise_and_set_witness :
  heights_series (fun _ _ => 1) 0 365 (1 # 144) 1%positive "Sun"
                 [(1 # 2, "noon"%string); (3 # 2, "noon"%string)]
                 ({[1%positive := new_Observer]} : gmap positive Observer)
  = Fail IndexError.
Proof.
  apply (heights_series_needs_rise_and_set (fun _ _ => 1) 0 365 (1 # 144)
           1%positive "Sun" [(1 # 2, "noon"%string); (3 # 2, "noon"%string)]).
  left. reflexivity.
Defined.

Lemma item_last_is_last (l : list Q) :
  l <> [] -> item_last l = Ok (List.last l 0).
Proof.
  intros Hl. unfold item_last.
  rewrite (List.app_removelast_last 0 Hl) at 1.
  rewrite List.rev_app_distr. reflexivity.
Qed.

(** When the first rise of the year does not come after the first set,
    no interval starts at year start: the loop pairs rise [i] with set [i].
    A last rise left without a set is densified to year end only when it
    is before [pd.Timestamp(end)], the instant that pandas makes of the day
    count [end] read as nanoseconds after 1970.  A rise paired with a set
    that is not later stops the run with [AssertionError]. *)
Theorem rise_first_regime
    (sin_alt : string -> Observer -> Q) (begin end_ step : Q)
    (observer : positive) (name : string) (r_n_s : list (Q * string))
    (h : gmap positive Observer) (o : Observer)
    (first_set first_rise : Q) (later_sets later_rises : list Q) :
  h !! observer = Some o ->
  0 < step ->
  index_where "set" r_n_s = first_set :: later_sets ->
  index_where "rise" r_n_s = first_rise :: later_rises ->
  first_rise <= first_set ->
  let allrises := first_rise :: later_rises in
  let allsets := first_set :: later_sets in
  let trailing :=
    if (List.length allsets <? List.length allrises)%nat
       && Qlt_bool (List.last allrises 0) (pd_Timestamp end_)
    then [(List.last allrises 0, end_)] else [] in
  if List.forallb ordered (List.combine allrises allsets)
  then
    exists segs h',
      heights_series sin_alt begin end_ step observer name r_n_s h
      = Done (List.map drop_negative (List.concat segs)) h'
      /\ List.Forall2 (densified sin_alt o step name)
                      (List.combine allrises allsets ++ trailing) segs
  else
    heights_series sin_alt begin end_ step observer name r_n_s h
    = Fail AssertionError.
Proof.
  intros Ho Hstep Hsets Hrises Hle allrises allsets trailing.
  assert (Hb : Qlt_bool first_set first_rise = false).
  { apply not_true_iff_false. intros Hlt. apply Qlt_bool_iff in Hlt. lra. }
  pose proof (heights_series_spec sin_alt step observer name o Hstep
                begin end_ r_n_s h Ho) as Hspec.
  cbv zeta in Hspec. rewrite Hsets, Hrises in Hspec.
  unfold intervals in Hspec. unfold rise_set_pairs in Hspec.
  rewrite !Hb in Hspec. fold allrises allsets in Hspec.
  rewrite (item_last_is_last allrises) in Hspec by discriminate.
  cbn [List.app] in Hspec. fold trailing in Hspec.
  destruct (List.forallb ordered (List.combine allrises allsets));
    [|exact Hspec].
  destruct Hspec as (segs & h' & Hrun & Hall & _). eauto.
Qed.

Lemma rise_first_regime_witness :
  let sin_alt := fun (_ : string) (_ : Observer) => 1 # 2 in
  let r_n_s := [(42371, "rise"%string); (42372, "set"%string);
                (42373, "rise"%string)] in
  let h : gmap positive Observer := {[1%positive := new_Observer]} in
  let allrises := [42371; 42373] in
  let allsets := [42372] in
  let trailing :=
    if (List.length allsets <? List.length allrises)%nat
       && Qlt_bool (List.last allrises 0) (pd_Timestamp 42735)
    then [(List.last allrises 0, 42735)] else [] in
  if List.forallb ordered (List.combine allrises allsets)
  then
    exists segs h',
      heights_series sin_alt 42370 42735 (1 # 4) 1%positive "Sun" r_n_s h
      = Done (List.map drop_negative (List.concat segs)) h'
      /\ List.Forall2 (densified sin_alt new_Observer (1 # 4) "Sun")
                      (List.combine allrises allsets ++ trailing) segs
  else
    heights_series sin_alt 42370 42735 (1 # 4) 1%positive "Sun" r_n_s h
    = Fail AssertionError.
Proof.
  intros sin_alt r_n_s h.
  apply (rise_first_regime sin_alt 42370 42735 (1 # 4) 1%positive "Sun"
           r_n_s h new_Observer 42372 42371 [] [42373]).
  - reflexivity.
  - reflexivity.
  - reflexivity.
  - reflexivity.
  - apply Qle_bool_imp_le. reflexivity.
Defined.

Lemma pd_Timestamp_1970 (x : Q) :
  0 <= x -> x <= 43200000000000 -> pd_Timestamp x <= 25568.
Proof.
  intros H0 Hx. unfold pd_Timestamp.
  destruct x as [n d]. cbn [Qnum Qden].
  assert (Hn : (0 <= n)%Z).
  { unfold Qle in H0. cbn in H0. lia. }
  assert (Hq : (Z.quot n (Z.pos d) <= 43200000000000)%Z).
  { rewrite Z.quot_div_nonneg by lia.
    unfold Qle in Hx. cbn in Hx.
    apply Z.lt_succ_r. apply Z.div_lt_upper_bound; lia. }
  assert (Hq' : inject_Z (Z.quot n (Z.pos d)) <= 43200000000000).
  { change 43200000000000 with (inject_Z 43200000000000).
    now rewrite <- Zle_Qle. }
  assert (E : inject_Z (Z.quot n (Z.pos d)) / 86400000000000
              == inject_Z (Z.quot n (Z.pos d)) * (1 # 86400000000000))
    by reflexivity.
  rewrite E.
  assert (E2 : 25568 == (51135 # 2) + 43200000000000 * (1 # 86400000000000))
    by reflexivity.
  rewrite E2. lra.
Qed.

(** After 1970 the closing test never lets a rise through: when no rise of
    the year is before noon of 1 January 1970 (day 25568 of [ephem.Date])
    and [end] is a day count that [ephem.Date] can hold, the series is made
    of year start to first set, when that set is the earlier, and of the
    rise-to-set pairs, and a last rise without a set is left out. *)
Theorem trailing_rise_after_1970
    (sin_alt : string -> Observer -> Q) (begin end_ step : Q)
    (observer : positive) (name : string) (r_n_s : list (Q * string))
    (h : gmap positive Observer) (o : Observer)
    (first_set first_rise : Q) (later_sets later_rises : list Q) :
  h !! observer = Some o ->
  0 < step ->
  index_where "set" r_n_s = first_set :: later_sets ->
  index_where "rise" r_n_s = first_rise :: later_rises ->
  25568 <= List.last (first_rise :: later_rises) 0 ->
  0 <= end_ <= 43200000000000 ->
  let allrises := first_rise :: later_rises in
  let allsets := first_set :: later_sets in
  let early := Qlt_bool first_set first_rise in
  List.forallb ordered (rise_set_pairs allrises allsets) = true ->
  exists segs h',
    heights_series sin_alt begin end_ step observer name r_n_s h
    = Done (List.map drop_negative (List.concat segs)) h'
    /\ List.Forall2 (densified sin_alt o step name)
                    ((if early then [(begin, first_set)] else [])
                     ++ rise_set_pairs allrises allsets) segs.
Proof.
  intros Ho Hstep Hsets Hrises Hlate [Hend0 Hend] allrises allsets early Hord.
  subst allrises allsets early.
  pose proof (heights_series_spec sin_alt step observer name o Hstep
                begin end_ r_n_s h Ho) as Hspec.
  cbv zeta in Hspec. rewrite Hsets, Hrises, Hord in Hspec.
  destruct Hspec as (segs & h' & Hrun & Hall & _).
  exists segs, h'. split; [exact Hrun|].
  unfold intervals in Hall. cbv beta iota zeta in Hall.
  rewrite (item_last_is_last (first_rise :: later_rises)) in Hall
    by discriminate.
  assert (Hno : Qlt_bool (List.last (first_rise :: later_rises) 0)
                         (pd_Timestamp end_) = false).
  { apply not_true_iff_false. intros Hlt. apply Qlt_bool_iff in Hlt.
    pose proof (pd_Timestamp_1970 end_ Hend0 Hend) as Hts. lra. }
  rewrite Hno, andb_false_r, List.app_nil_r in Hall. exact Hall.
Qed.

Lemma trailing_rise_after_1970_witness :
  let sin_alt := fun (_ : string) (_ : Observer) => 1 # 2 in
  let r_n_s := [(42371, "rise"%string); (42372, "set"%string);
                (42373, "rise"%string)] in
  let h : gmap positive Observer := {[1%positive := new_Observer]} in
  exists segs h',
    heights_series sin_alt 42370 42735 (1 # 4) 1%positive "Sun" r_n_s h
    = Done (List.map drop_negative (List.concat segs)) h'
    /\ List.Forall2 (densified sin_alt new_Observer (1 # 4) "Sun")
                    [(42371, 42372)] segs.
Proof.
  intros sin_alt r_n_s h.
  apply (trailing_rise_after_1970 sin_alt 42370 42735 (1 # 4) 1%positive
           "Sun" r_n_s h new_Observer 42372 42371 [] [42373]).
  - reflexivity.
  - reflexivity.
  - reflexivity.
  - reflexivity.
  - apply Qle_bool_imp_le. reflexivity.
  - split; apply Qle_bool_imp_le; reflexivity.
  - reflexivity.
Defined.

(** The altitude pass leaves the year's observer as it found it: every
    densified interval works on its own copy. *)
Theorem heights_series_keeps_observer
    (sin_alt : string -> Observer -> Q) (begin end_ step : Q)
    (observer : positive) (name : string) (r_n_s : list (Q * string))
    (h h' : gmap positive Observer) (o : Observer)
    (series : list (Q * height)) :
  h !! observer = Some o ->
  0 < step ->
  heights_series sin_alt begin end_ step observer name r_n_s h
  = Done series h' ->
  h' !! observer = Some o.
Proof.
  intros Ho Hstep Hrun.
  pose proof (heights_series_spec sin_alt step observer name o Hstep
                begin end_ r_n_s h Ho) as Hspec.
  cbv zeta in Hspec.
  destruct (index_where "set" r_n_s) as [|s0 ss]; [congruence|].
  destruct (index_where "rise" r_n_s) as [|r0 rs]; [congruence|].
  destruct (List.forallb ordered _); [|congruence].
  destruct Hspec as (segs & h'' & Hrun' & _ & Ho').
  rewrite Hrun' in Hrun. now injection Hrun as _ <-.
Qed.

Lemma heights_series_keeps_observer_witness :
  exists series h',
    heights_series (fun _ o => date o) 0 10 1 1%positive "Sun"
                   [(1, "rise"%string); (2, "set"%string)]
                   ({[1%positive := new_Observer]} : gmap positive Observer)
    = Done series h'
    /\ h' !! 1%positive = Some new_Observer.
Proof.
  eexists. eexists. split; [vm_compute; reflexivity|].
  eapply (heights_series_keeps_observer (fun _ o => date o) 0 10 1 1%positive
            "Sun" [(1, "rise"%string); (2, "set"%string)]
            {[1%positive := new_Observer]}).
  - reflexivity.
  - reflexivity.
  - vm_compute. reflexivity.
Defined.

Lemma Qfloor_pred (x : Q) : Qfloor (x - 1) = (Qfloor x - 1)%Z.
Proof.
  pose proof (Qfloor_le (x - 1)) as H1. pose proof (Qlt_floor (x - 1)) as H2.
  pose proof (Qfloor_le x) as H3. pose proof (Qlt_floor x) as H4.
  rewrite inject_Z_plus in H2, H4. change (inject_Z 1) with 1 in H2, H4.
  assert (Ha : (Qfloor (x - 1) < Qfloor x)%Z) by (rewrite Zlt_Qlt; lra).
  assert (Hb : (Qfloor x < Qfloor (x - 1) + 2)%Z).
  { rewrite Zlt_Qlt, inject_Z_plus. change (inject_Z 2) with 2. lra. }
  lia.
Qed.

(** The dates of the daily loop: the [i]-th is [i] days after the first,
    and there are [floor (end_ - d) + 1] of them (none when [d] is past
    [end_]). *)
Lemma days_from_length (end_ : Q) (fuel : nat) :
  forall (d : Q) (ds : list Q),
    days_from fuel d end_ = Some ds ->
    List.length ds = Z.to_nat (Qfloor (end_ - d) + 1)
    /\ forall (i : nat) (t : Q),
         List.nth_error ds i = Some t -> t == d + inject_Z (Z.of_nat i).
Proof.
  induction fuel as [|fuel IH]; intros d ds; cbn [days_from];
    destruct (Qle_bool d end_) eqn:E; try discriminate.
  - intros [= <-]. split; [|intros [|i] t; discriminate].
    assert (Hlt : ~ d <= end_) by (rewrite <- Qle_bool_iff, E; discriminate).
    apply Qnot_le_lt in Hlt.
    pose proof (Qfloor_le (end_ - d)) as Hfl.
    assert (Hneg : (Qfloor (end_ - d) < 0)%Z)
      by (rewrite Zlt_Qlt; change (inject_Z 0) with 0; lra).
    cbn [List.length]. lia.
  - destruct (days_from fuel (d + 1) end_) as [ds'|] eqn:Eds; [|discriminate].
    cbn [option_map]. intros [= <-].
    destruct (IH (d + 1) ds' Eds) as (Hlen & Hnth).
    apply Qle_bool_iff in E. split.
    + cbn [List.length]. rewrite Hlen.
      assert (Heq : end_ - (d + 1) == end_ - d - 1) by ring.
      rewrite (Qfloor_comp _ _ Heq), Qfloor_pred.
      assert (Hpos : (0 <= Qfloor (end_ - d))%Z).
      { change 0%Z with (Qfloor 0). apply Qfloor_resp_le. lra. }
      lia.
    + intros [|i] t; cbn [List.nth_error].
      * intros [= <-]. change (inject_Z (Z.of_nat 0)) with 0. ring.
      * intros Ht. rewrite (Hnth i t Ht), Nat2Z.inj_succ, <- Z.add_1_r,
          inject_Z_plus.
        change (inject_Z 1) with 1. ring.
  - intros [= <-]. split; [|intros [|i] t; discriminate].
    assert (Hlt : ~ d <= end_) by (rewrite <- Qle_bool_iff, E; discriminate).
    apply Qnot_le_lt in Hlt.
    pose proof (Qfloor_le (end_ - d)) as Hfl.
    assert (Hneg : (Qfloor (end_ - d) < 0)%Z)
      by (rewrite Zlt_Qlt; change (inject_Z 0) with 0; lra).
    cbn [List.length]. lia.
Qed.

(** Where the daily loop leaves the observer it was given: at the first
    date past [end_], one day after the last pass, every other attribute
    and every other observer as before. *)
Lemma events_loop_final
    (rise_time transit_time set_time : string -> Observer -> option Q)
    (observer : positive) (end_ : Q) (name : string) (o : Observer)
    (fuel : nat) :
  forall (h h' : gmap positive Observer) (times : list Q)
         (labels : list string) (d : Q) (series : list Q * list string),
    h !! observer = Some (set_date o d) ->
    events_loop rise_time transit_time set_time fuel observer end_ name
                times labels h = Done series h' ->
    exists (ds : list Q) (d' : Q),
      days_from fuel d end_ = Some ds
      /\ h' !! observer = Some (set_date o d')
      /\ d' == d + inject_Z (Z.of_nat (List.length ds))
      /\ end_ < d'
      /\ forall r, r <> observer -> h' !! r = h !! r.
Proof.
  induction fuel as [|fuel IH]; intros h h' times labels d series Hd;
    cbn [days_from events_loop]; rewrite (deref_Some _ _ _ Hd);
    cbn [date set_date];
    destruct (Qle_bool d end_) eqn:E; try discriminate.
  - intros [= _ <-]. exists [], d. cbn [List.length].
    change (inject_Z (Z.of_nat 0)) with 0.
    assert (Hlt : ~ d <= end_) by (rewrite <- Qle_bool_iff, E; discriminate).
    apply Qnot_le_lt in Hlt.
    split; [reflexivity|]. split; [exact Hd|]. split; [ring|].
    split; [exact Hlt | reflexivity].
  - destruct (day_events_spec (rise_time name (set_date o d))
                (transit_time name (set_date o d))
                (set_time name (set_date o d)) name) as (evs & Hevs & _).
    rewrite Hevs. unfold st_bind, st_lift. rewrite (deref_Some _ _ _ Hd).
    cbn [date set_date]. intros Hrun.
    destruct (IH _ _ _ _ (d + 1) _ (lookup_insert_eq _ _ _) Hrun)
      as (ds & d' & Hds & Ho & Hd' & Hend & Hframe).
    rewrite Hds. cbn [option_map]. exists (d :: ds), d'.
    split; [reflexivity|]. split; [exact Ho|]. split.
    { cbn [List.length]. rewrite Hd', Nat2Z.inj_succ, <- Z.add_1_r,
        inject_Z_plus.
      change (inject_Z 1) with 1. ring. }
    split; [exact Hend|].
    intros r Hr. rewrite Hframe by assumption. now apply lookup_insert_ne.
  - intros [= _ <-]. exists [], d. cbn [List.length].
    change (inject_Z (Z.of_nat 0)) with 0.
    assert (Hlt : ~ d <= end_) by (rewrite <- Qle_bool_iff, E; discriminate).
    apply Qnot_le_lt in Hlt.
    split; [reflexivity|]. split; [exact Hd|]. split; [ring|].
    split; [exact Hlt | reflexivity].
Qed.

Lemma daily_fuel_enough (begin end_ : Q) :
  end_ - begin < inject_Z (Z.of_nat (Z.to_nat (Qfloor (end_ - begin) + 1))).
Proof.
  pose proof (Qlt_floor (end_ - begin)) as Hfl.
  assert (Hz : inject_Z (Qfloor (end_ - begin) + 1)
               <= inject_Z (Z.of_nat (Z.to_nat (Qfloor (end_ - begin) + 1))))
    by (rewrite <- Zle_Qle; lia).
  lra.
Qed.

(** The daily pass of [Astro.__init__] always returns, and it works on the
    observer it is given, not on a copy: afterwards that observer stands
    one day after the last pass, at the first date past [end_], with its
    other attributes as before; no other observer is touched. *)
Theorem rise_noon_set_advances_observer
    (rise_time transit_time set_time : string -> Observer -> option Q)
    (begin end_ : Q) (observer : positive) (name : string)
    (h : gmap positive Observer) :
  exists (series : list (Q * string)) (h' : gmap positive Observer) (d' : Q),
    rise_noon_set rise_time transit_time set_time begin end_ observer name h
    = Done series h'
    /\ h' !! observer = Some (set_date (deref h observer) d')
    /\ d' == begin
             + inject_Z (Z.of_nat (Z.to_nat (Qfloor (end_ - begin) + 1)))
    /\ end_ < d'
    /\ forall r, r <> observer -> h' !! r = h !! r.
Proof.
  unfold rise_noon_set.
  set (o := deref h observer).
  set (fuel := Z.to_nat (Qfloor (end_ - begin) + 1)).
  destruct (days_from_enough end_ fuel begin (daily_fuel_enough begin end_))
    as (days & Hdays).
  pose proof (events_loop_spec rise_time transit_time set_time observer end_
                name o fuel (<[observer := set_date o begin]> h) [] [] begin
                (deref_insert_eq _ _ _)) as Hloop.
  rewrite Hdays in Hloop. destruct Hloop as (per_day & h' & Hrun & _).
  destruct (events_loop_final rise_time transit_time set_time observer end_
              name o fuel _ _ _ _ begin _ (lookup_insert_eq _ _ _) Hrun)
    as (ds & d' & Hds & Ho & Hd' & Hend & Hframe).
  rewrite Hdays in Hds. injection Hds as <-.
  destruct (days_from_length end_ fuel begin days Hdays) as (Hlen & _).
  exists (List.concat per_day), h', d'. unfold st_bind. rewrite Hrun.
  cbn [fst snd List.app]. rewrite !List.length_map, Nat.eqb_refl.
  cbn [assert st_lift st_ret]. rewrite combine_fst_snd.
  split; [reflexivity|]. split; [exact Ho|]. split.
  { rewrite Hd', Hlen. reflexivity. }
  split; [exact Hend|].
  intros r Hr. rewrite Hframe by assumption. now apply lookup_insert_ne.
Qed.

Lemma civil_year_span
    (pytz_timezone : string -> option (datetime -> Z))
    (time_zone : string) (zone : datetime -> Z) (year : Z) :
  pytz_timezone time_zone = Some zone ->
  (1582 < year <= MAXYEAR)%Z ->
  within_a_day (zone (jan1 year)) ->
  within_a_day (zone (dec31 year)) ->
  exists start stop : Q,
    utc_year_bounds pytz_timezone time_zone year = Ok (start, stop)
    /\ stop - start
       == year_length year - (1 # 86400)
          + (offset_days (zone (jan1 year))
             - offset_days (zone (dec31 year))).
Proof.
  intros Hz Hy Hb He.
  destruct (year_bounds_span pytz_timezone time_zone zone year Hz
              ltac:(unfold MINYEAR; lia) Hb He)
    as (start & stop & Hrun & Hspan).
  exists start, stop. split; [exact Hrun|].
  destruct (ephem_year_length_cases year)
    as [(H1582 & _) | (_ & _ & Hcivil)]; [lia|].
  rewrite <- Hcivil by lia. exact Hspan.
Qed.

Lemma offset_days_diff (a b : Z) :
  (-60 <= a - b <= 60)%Z ->
  - (1 # 24) <= offset_days a - offset_days b <= 1 # 24.
Proof.
  intros [Hlo Hhi]. unfold offset_days.
  assert (E : inject_Z a / 1440 - inject_Z b / 1440
              == inject_Z (a - b) * (1 # 1440)).
  { unfold Z.sub. rewrite inject_Z_plus, inject_Z_opp. field. }
  rewrite E.
  assert (H1 : inject_Z (-60) <= inject_Z (a - b)) by now rewrite <- Zle_Qle.
  assert (H2 : inject_Z (a - b) <= inject_Z 60) by now rewrite <- Zle_Qle.
  change (inject_Z (-60)) with (-60) in H1.
  change (inject_Z 60) with 60 in H2.
  split; lra.
Qed.

(** For a year after 1582 and a zone whose UTC offset is the same at both
    ends of the year, the daily pass over the bounds of [utc_year_bounds]
    makes one pass per calendar day of the year, 365 or 366: pass [i] reads
    the events for the observer at local midnight of 1 January plus [i]
    days. *)
Theorem daily_loop_covers_year
    (pytz_timezone : string -> option (datetime -> Z))
    (rise_time transit_time set_time : string -> Observer -> option Q)
    (time_zone : string) (zone : datetime -> Z) (year : Z)
    (observer : positive) (name : string) (h : gmap positive Observer) :
  pytz_timezone time_zone = Some zone ->
  (1582 < year <= MAXYEAR)%Z ->
  within_a_day (zone (jan1 year)) ->
  zone (jan1 year) = zone (dec31 year) ->
  exists (start stop : Q) (days : list Q)
         (per_day : list (list (Q * string))) (h' : gmap positive Observer),
    utc_year_bounds pytz_timezone time_zone year = Ok (start, stop)
    /\ rise_noon_set rise_time transit_time set_time start stop observer
                     name h
       = Done (List.concat per_day) h'
    /\ List.Forall2
         (fun d evs =>
            events_at rise_time transit_time set_time name
                      (deref h observer) d = Ok evs)
         days per_day
    /\ inject_Z (Z.of_nat (List.length days)) == year_length year
    /\ forall (i : nat) (d : Q),
         List.nth_error days i = Some d ->
         d == start + inject_Z (Z.of_nat i).
Proof.
  intros Hz Hy Hb Hsame.
  assert (He : within_a_day (zone (dec31 year))) by now rewrite <- Hsame.
  destruct (civil_year_span _ _ _ _ Hz Hy Hb He)
    as (start & stop & Hbounds & Hspan0).
  assert (Hspan : stop - start == year_length year - (1 # 86400))
    by (rewrite Hsame in Hspan0; lra).
  destruct (days_from_enough stop _ start (daily_fuel_enough start stop))
    as (days & Hdays).
  pose proof (events_loop_spec rise_time transit_time set_time observer stop
                name (deref h observer)
                (Z.to_nat (Qfloor (stop - start) + 1))
                (<[observer := set_date (deref h observer) start]> h) [] []
                start (deref_insert_eq _ _ _)) as Hloop.
  rewrite Hdays in Hloop. destruct Hloop as (per_day & h' & Hrun & Hall).
  destruct (days_from_length stop _ start days Hdays) as (Hlen & Hnth).
  exists start, stop, days, per_day, h'. unfold rise_noon_set, st_bind.
  rewrite Hrun.
  cbn [fst snd List.app]. rewrite !List.length_map, Nat.eqb_refl.
  cbn [assert st_lift st_ret]. rewrite combine_fst_snd.
  split; [exact Hbounds|]. split; [reflexivity|]. split; [exact Hall|].
  split; [|exact Hnth].
  rewrite Hlen, (Qfloor_comp _ _ Hspan). unfold year_length.
  destruct (is_leap year); reflexivity.
Qed.

Lemma daily_loop_covers_year_witness :
  let zone := fun _ : datetime => (-600)%Z in
  let pytz_timezone := fun name : string =>
        if String.eqb name "Pacific/Honolulu" then Some zone else None in
  let rise_time := fun (_ : string) (o : Observer) => Some (date o + (1 # 4)) in
  let transit_time := fun (_ : string) (o : Observer) => Some (date o + (1 # 2)) in
  let set_time := fun (_ : string) (o : Observer) => Some (date o + (3 # 4)) in
  let h : gmap positive Observer := {[1%positive := new_Observer]} in
  exists (start stop : Q) (days : list Q)
         (per_day : list (list (Q * string))) (h' : gmap positive Observer),
    utc_year_bounds pytz_timezone "Pacific/Honolulu" 2016
    = Ok (start, stop)
    /\ rise_noon_set rise_time transit_time set_time start stop 1%positive
                     "Sun" h
       = Done (List.concat per_day) h'
    /\ List.Forall2
         (fun d evs =>
            events_at rise_time transit_time set_time "Sun"
                      (deref h 1%positive) d = Ok evs)
         days per_day
    /\ inject_Z (Z.of_nat (List.length days)) == year_length 2016
    /\ forall (i : nat) (d : Q),
         List.nth_error days i = Some d ->
         d == start + inject_Z (Z.of_nat i).
Proof.
  intros zone pytz_timezone rise_time transit_time set_time h.
  apply (daily_loop_covers_year pytz_timezone rise_time transit_time set_time
           "Pacific/Honolulu" zone 2016 1%positive "Sun" h).
  - reflexivity.
  - unfold MAXYEAR. lia.
  - unfold within_a_day, zone. lia.
  - reflexivity.
Defined.

(** *** The Moon's daily series *)

Lemma Qlt_bool_false (x y : Q) : Qlt_bool x y = false -> y <= x.
Proof.
  intros E. apply Qnot_lt_le. intros H. apply Qlt_bool_iff in H. congruence.
Qed.

Lemma unit_fuel_enough (start stop : Q) :
  stop - start <= inject_Z (Z.of_nat (loop_fuel start stop 1)).
Proof.
  pose proof (loop_fuel_enough start stop 1 ltac:(reflexivity)). lra.
Qed.

Lemma inject_succ (n : nat) :
  inject_Z (Z.of_nat (S n)) == inject_Z (Z.of_nat n) + 1.
Proof.
  rewrite Nat2Z.inj_succ, <- Z.add_1_r, inject_Z_plus. reflexivity.
Qed.

(** A count of days is fixed by the interval it covers. *)
Lemma count_days (x : Q) (n : nat) (L : Z) :
  (0 < L)%Z ->
  inject_Z L - 1 < x <= inject_Z L ->
  x <= inject_Z (Z.of_nat n) ->
  (n <> 0%nat -> inject_Z (Z.of_nat n) - 1 < x) ->
  Z.of_nat n = L.
Proof.
  intros HL [Hlo Hhi] Hcover Hlast.
  assert (H1 : (L - 1 < Z.of_nat n)%Z).
  { rewrite Zlt_Qlt. unfold Z.sub. rewrite inject_Z_plus.
    change (inject_Z (- (1))) with (- (1)). lra. }
  assert (Hn : n <> 0%nat) by lia.
  specialize (Hlast Hn).
  assert (H2 : (Z.of_nat n - 1 < L)%Z).
  { rewrite Zlt_Qlt. unfold Z.sub. rewrite inject_Z_plus.
    change (inject_Z (- (1))) with (- (1)). lra. }
  lia.
Qed.

Lemma daily_times_length_year (year : Z) :
  daily_times_length year = Z.to_nat (if is_leap year then 366 else 365)
  /\ year_length year == inject_Z (if is_leap year then 366 else 365).
Proof.
  unfold daily_times_length, year_length, toordinal, days_before_month.
  cbn [Calendar.year month day dec31 jan1].
  change (Z.to_nat 12) with 12%nat. change (Z.to_nat 1) with 1%nat.
  destruct (is_leap year); cbn; split; (reflexivity || (f_equal; lia)).
Qed.

(** The illumination loop reads the Moon once a day from the observer's
    date up to [end_], and leaves the observer one day after the last
    reading. *)
Lemma illumination_loop_spec (moon_phase : Observer -> Q)
    (observer : positive) (end_ : Q) (o : Observer) (fuel : nat) :
  forall (h : gmap positive Observer) (ill : list Q) (d : Q),
    h !! observer = Some (set_date o d) ->
    end_ - d <= inject_Z (Z.of_nat fuel) ->
    exists (ds : list Q) (h' : gmap positive Observer) (d' : Q),
      illumination_loop moon_phase fuel observer end_ ill h
      = Done (ill ++ List.map (fun t => moon_phase (set_date o t)) ds) h'
      /\ (forall (i : nat) (t : Q),
            List.nth_error ds i = Some t ->
            t == d + inject_Z (Z.of_nat i) /\ t < end_)
      /\ end_ <= d + inject_Z (Z.of_nat (List.length ds))
      /\ h' !! observer = Some (set_date o d')
      /\ d' == d + inject_Z (Z.of_nat (List.length ds))
      /\ forall r, r <> observer -> h' !! r = h !! r.
Proof.
  induction fuel as [|fuel IH]; intros h ill d Hd Hfuel;
    cbn [illumination_loop]; rewrite (deref_Some _ _ _ Hd);
    cbn [date set_date]; destruct (Qlt_bool d end_) eqn:E.
  - apply Qlt_bool_iff in E. change (inject_Z (Z.of_nat 0)) with 0 in Hfuel.
    lra.
  - apply Qlt_bool_false in E. exists [], h, d.
    cbn [List.map List.length]. rewrite List.app_nil_r.
    change (inject_Z (Z.of_nat 0)) with 0.
    split; [reflexivity|]. split; [intros [|i] t; discriminate|].
    split; [lra|]. split; [exact Hd|]. split; [ring | reflexivity].
  - apply Qlt_bool_iff in E.
    destruct (IH (<[observer := set_date (set_date o d) (d + 1)]> h)
                 (ill ++ [moon_phase (set_date o d)]) (d + 1)
                 (lookup_insert_eq _ _ _))
      as (ds & h' & d' & Hrun & Hds & Hcover & Ho & Hd' & Hframe).
    { rewrite inject_succ in Hfuel. lra. }
    exists (d :: ds), h', d'. rewrite Hrun.
    cbn [List.map List.length]. rewrite <- List.app_assoc. cbn [List.app].
    rewrite inject_succ.
    split; [reflexivity|]. split.
    { intros [|i] t; cbn [List.nth_error].
      - intros [= <-]. change (inject_Z (Z.of_nat 0)) with 0.
        split; [ring | exact E].
      - intros Ht. destruct (Hds i t Ht) as (Heq & Hlt).
        rewrite inject_succ. split; [rewrite Heq; ring | exact Hlt]. }
    split; [lra|]. split; [exact Ho|]. split; [rewrite Hd'; ring|].
    intros r Hr. rewrite Hframe by assumption. now apply lookup_insert_ne.
  - apply Qlt_bool_false in E. exists [], h, d.
    cbn [List.map List.length]. rewrite List.app_nil_r.
    change (inject_Z (Z.of_nat 0)) with 0.
    split; [reflexivity|]. split; [intros [|i] t; discriminate|].
    split; [lra|]. split; [exact Hd|]. split; [ring | reflexivity].
Qed.

(** For a year that [pd.date_range] can hold (1678 to 2261) and a zone
    whose UTC offsets at the two ends of the year differ by at most one
    hour, the illumination series has one reading per calendar day of the
    year, as its length check demands: reading [i] is the Moon's for the
    observer at 22:00 local time of 1 January plus [i] days. *)
Theorem percent_illuminated_one_per_day
    (pytz_timezone : string -> option (datetime -> Z))
    (moon_phase : Observer -> Q)
    (time_zone : string) (zone : datetime -> Z) (year : Z)
    (observer : positive) (h : gmap positive Observer) :
  pytz_timezone time_zone = Some zone ->
  (1678 <= year <= 2261)%Z ->
  within_a_day (zone (jan1 year)) ->
  within_a_day (zone (dec31 year)) ->
  (-60 <= zone (jan1 year) - zone (dec31 year) <= 60)%Z ->
  exists (begin end_ : Q) (days : list Q)
         (h' : gmap positive Observer),
    utc_year_bounds pytz_timezone time_zone year = Ok (begin, end_)
    /\ percent_illuminated moon_phase year begin end_ observer h
       = Done (List.map (fun d => moon_phase (set_date (deref h observer) d))
                        days) h'
    /\ List.length days = daily_times_length year
    /\ inject_Z (Z.of_nat (List.length days)) == year_length year
    /\ forall (i : nat) (d : Q),
         List.nth_error days i = Some d ->
         d == begin + (11 # 12) + inject_Z (Z.of_nat i).
Proof.
  intros Hz Hy Hb He Hminutes.
  pose proof (offset_days_diff _ _ Hminutes) as Hdelta.
  destruct (civil_year_span pytz_timezone time_zone zone year Hz
              ltac:(unfold MAXYEAR; lia) Hb He)
    as (begin & end_ & Hbounds & Hspan).
  destruct (daily_times_length_year year) as (Hdaily & Hyear).
  set (L := if is_leap year then 366%Z else 365%Z) in *.
  assert (HL : (0 < L)%Z) by (unfold L; destruct (is_leap year); lia).
  assert (H22 : 22 * ephem_hour == 11 # 12) by reflexivity.
  set (start := begin + 22 * ephem_hour).
  destruct (illumination_loop_spec moon_phase observer end_
              (deref h observer) (loop_fuel start end_ 1)
              (<[observer := set_date (deref h observer) start]> h) []
              start (lookup_insert_eq _ _ _) (unit_fuel_enough start end_))
    as (days & h' & d' & Hrun & Hdays & Hcover & _).
  assert (Hcount : Z.of_nat (List.length days) = L).
  { apply (count_days (end_ - start)); [exact HL | | lra |].
    - unfold start. rewrite Hyear in Hspan. split; lra.
    - intros Hn.
      destruct (List.nth_error days (List.length days - 1)) as [t|] eqn:Et.
      2:{ apply List.nth_error_None in Et. lia. }
      destruct (Hdays _ _ Et) as (Heq & Hlt).
      assert (Hs : inject_Z (Z.of_nat (S (List.length days - 1)))
                   == inject_Z (Z.of_nat (List.length days - 1)) + 1)
        by apply inject_succ.
      replace (S (List.length days - 1)) with (List.length days) in Hs
        by lia.
      lra. }
  exists begin, end_, days, h'.
  split; [exact Hbounds|].
  unfold percent_illuminated. fold start.
  rewrite (st_bind_Done _ _ _ _ _ Hrun). cbn [List.app].
  rewrite List.length_map.
  assert (Hlen : List.length days = daily_times_length year)
    by (rewrite Hdaily; lia).
  rewrite Hlen, Nat.eqb_refl. cbn [assert st_lift st_bind st_ret].
  split; [reflexivity|]. split; [reflexivity|]. split.
  { rewrite <- Hlen, Hcount, Hyear. reflexivity. }
  intros i d Hd. destruct (Hdays i d Hd) as (Heq & _).
  rewrite Heq. unfold start. rewrite H22. reflexivity.
Qed.

Lemma percent_illuminated_one_per_day_witness :
  let zone := fun dt : datetime =>
                if (month dt =? 1)%Z then 540%Z else 510%Z in
  let pytz_timezone := fun name : string =>
        if String.eqb name "Asia/Pyongyang" then Some zone else None in
  let moon_phase := fun o : Observer => date o in
  let h : gmap positive Observer := {[1%positive := new_Observer]} in
  exists (begin end_ : Q) (days : list Q)
         (h' : gmap positive Observer),
    utc_year_bounds pytz_timezone "Asia/Pyongyang" 2015 = Ok (begin, end_)
    /\ percent_illuminated moon_phase 2015 begin end_ 1%positive h
       = Done (List.map (fun d => moon_phase (set_date (deref h 1%positive) d))
                        days) h'
    /\ List.length days = daily_times_length 2015
    /\ inject_Z (Z.of_nat (List.length days)) == year_length 2015
    /\ forall (i : nat) (d : Q),
         List.nth_error days i = Some d ->
         d == begin + (11 # 12) + inject_Z (Z.of_nat i).
Proof.
  intros zone pytz_timezone moon_phase h.
  apply (percent_illuminated_one_per_day pytz_timezone moon_phase
           "Asia/Pyongyang" zone 2015 1%positive h).
  - reflexivity.
  - lia.
  - unfold within_a_day. cbn. lia.
  - unfold within_a_day. cbn. lia.
  - cbn. lia.
Defined.

(** Within a lunation, [get_lunation_day] returns one of the 28 icon
    numbers. *)
Lemma lunation_day_icon
    (next_first_quarter_moon next_full_moon next_last_quarter_moon : Q -> Q)
    (today last_new next_new : Q) :
  last_new <= today -> today < next_new ->
  exists d : Z,
    get_lunation_day next_first_quarter_moon next_full_moon
                     next_last_quarter_moon today last_new next_new 28
    = Ok d
    /\ (0 <= d <= 27)%Z.
Proof.
  intros Hlo Hhi.
  enough (Hall : exists d : Z,
            get_lunation_day next_first_quarter_moon next_full_moon
                             next_last_quarter_moon today last_new next_new 28
            = Ok d
            /\ (0 <= d <= 28 - 1)%Z /\ (today == last_new -> d = 0%Z)).
  { destruct Hall as (d & Hd & Hrange & _). exists d.
    split; [exact Hd | lia]. }
  unfold get_lunation_day.
  rewrite py_div_pos by lra. cbn [bind].
  set (n := (28 - 1)%Z).
  set (num := inject_Z n).
  assert (Hnum : 0 <= num) by (unfold num, n; discriminate).
  assert (H4 : 0 <= num / 4 <= num).
  { assert (E : num / 4 == num * (1 # 4)) by reflexivity.
    rewrite E. split; lra. }
  assert (H2 : 0 <= num / 2 <= num).
  { assert (E : num / 2 == num * (1 # 2)) by reflexivity.
    rewrite E. split; lra. }
  assert (H34 : 0 <= num * 3 / 4 <= num).
  { assert (E : num * 3 / 4 == num * 3 * (1 # 4)) by reflexivity.
    rewrite E. split; lra. }
  assert (Hfirst : exists d,
    Ok (py_round ((today - last_new) / (next_new - last_new) * num)) = Ok d
    /\ (0 <= d <= n)%Z /\ (today == last_new -> d = 0%Z)).
  { pose proof (scaled_part_rounds today last_new next_new num n
                  Hlo ltac:(lra) ltac:(lra)) as H.
    rewrite py_div_pos in H by lra. apply H. split; [assumption|].
    apply Qle_refl. }
  apply quarter_branch; [assumption | exact H4 |].
  apply quarter_branch; [assumption | exact H2 |].
  apply quarter_branch; [assumption | exact H34 |].
  exact Hfirst.
Qed.

Lemma Qlt_bool_min (x a b : Q) :
  Qlt_bool x a && Qlt_bool x b
  = Qlt_bool x (if Qle_bool a b then a else b).
Proof.
  destruct (Qle_bool a b) eqn:Eab.
  - apply Qle_bool_iff in Eab.
    destruct (Qlt_bool x a) eqn:Ea; [|reflexivity]. cbn [andb].
    apply Qlt_bool_iff in Ea. apply Qlt_bool_iff. lra.
  - assert (Hba : b < a).
    { apply Qnot_le_lt. intros H. apply Qle_bool_iff in H. congruence. }
    destruct (Qlt_bool x b) eqn:Eb.
    + apply Qlt_bool_iff in Eb. rewrite andb_true_r. apply Qlt_bool_iff. lra.
    + apply andb_false_r.
Qed.

Section Cycles.

Variable next_new_moon : Q -> Q.
Variable next_first_quarter_moon : Q -> Q.
Variable next_full_moon : Q -> Q.
Variable next_last_quarter_moon : Q -> Q.
Variable h : gmap positive Observer.

(** One lunation's loop, whose condition is [moon_day < lim]: it appends
    one icon number per day from [moon_day] up to [lim], and stops on the
    first day at or past [lim]. *)
Lemma lunation_loop_spec (bound : option Q) (last_nm next_nm lim : Q) :
  (forall x,
     Qlt_bool x next_nm
     && match bound with
        | Some end_ => Qlt_bool x end_
        | None => true
        end
     = Qlt_bool x lim) ->
  lim <= next_nm ->
  forall (fuel : nat) (moon_day : Q) (cycle_days : list Z),
    last_nm <= moon_day ->
    lim - moon_day <= inject_Z (Z.of_nat fuel) ->
    exists (vs : list Z) (m' : Q),
      lunation_loop next_first_quarter_moon next_full_moon
                    next_last_quarter_moon fuel bound moon_day last_nm
                    next_nm cycle_days h
      = Done (m', cycle_days ++ vs) h
      /\ List.Forall (fun v => (0 <= v <= 27)%Z) vs
      /\ m' == moon_day + inject_Z (Z.of_nat (List.length vs))
      /\ lim <= m'
      /\ (vs <> [] -> m' - 1 < lim)
      /\ (moon_day < lim -> vs <> []).
Proof.
  intros Hlim Hle.
  induction fuel as [|fuel IH]; intros m cds Hlast Hfuel;
    cbn [lunation_loop]; rewrite Hlim; destruct (Qlt_bool m lim) eqn:E.
  - apply Qlt_bool_iff in E. change (inject_Z (Z.of_nat 0)) with 0 in Hfuel.
    lra.
  - apply Qlt_bool_false in E. exists [], m. unfold st_ret.
    rewrite List.app_nil_r. cbn [List.length].
    change (inject_Z (Z.of_nat 0)) with 0.
    split; [reflexivity|]. split; [constructor|]. split; [ring|].
    split; [exact E|]. split; [congruence | lra].
  - apply Qlt_bool_iff in E.
    destruct (lunation_day_icon next_first_quarter_moon next_full_moon
                next_last_quarter_moon m last_nm next_nm Hlast ltac:(lra))
      as (d & Hd & Hrange).
    unfold st_bind at 1, st_lift. rewrite Hd.
    destruct (IH (m + 1) (cds ++ [d])) as (vs & m' & Hrun & Hvs & Hm' & Hexit
                                           & Hlast' & _).
    { lra. }
    { rewrite inject_succ in Hfuel. lra. }
    exists (d :: vs), m'. rewrite Hrun, <- List.app_assoc.
    cbn [List.app List.length]. rewrite inject_succ.
    split; [reflexivity|]. split; [now constructor|].
    split; [rewrite Hm'; ring|]. split; [exact Hexit|].
    split; [|discriminate].
    intros _. destruct vs as [|v vs]; [|apply Hlast'; discriminate].
    cbn [List.length] in Hm'. change (inject_Z (Z.of_nat 0)) with 0 in Hm'.
    lra.
  - apply Qlt_bool_false in E. exists [], m. unfold st_ret.
    rewrite List.app_nil_r. cbn [List.length].
    change (inject_Z (Z.of_nat 0)) with 0.
    split; [reflexivity|]. split; [constructor|]. split; [ring|].
    split; [exact E|]. split; [congruence | lra].
Qed.

Hypothesis next_new_moon_later : forall d : Q, d < next_new_moon d.

(** The loop over complete lunations, entered on or after the new moon
    [next_nm]: one icon number per day up to [end_]. *)
Lemma cycles_loop_spec (end_ : Q) :
  forall (fuel : nat) (moon_day next_nm : Q) (cycle_days : list Z),
    (moon_day < end_ -> next_nm <= moon_day) ->
    end_ - moon_day <= inject_Z (Z.of_nat fuel) ->
    exists (vs : list Z) (m' : Q),
      cycles_loop next_new_moon next_first_quarter_moon next_full_moon
                  next_last_quarter_moon fuel moon_day next_nm end_
                  cycle_days h
      = Done (cycle_days ++ vs) h
      /\ List.Forall (fun v => (0 <= v <= 27)%Z) vs
      /\ m' == moon_day + inject_Z (Z.of_nat (List.length vs))
      /\ end_ <= m'
      /\ (vs <> [] -> m' - 1 < end_).
Proof.
  induction fuel as [|fuel IH]; intros m next cds Hinv Hfuel;
    cbn [cycles_loop]; destruct (Qlt_bool m end_) eqn:E.
  - apply Qlt_bool_iff in E. change (inject_Z (Z.of_nat 0)) with 0 in Hfuel.
    lra.
  - apply Qlt_bool_false in E. exists [], m. unfold st_ret.
    rewrite List.app_nil_r. cbn [List.length].
    change (inject_Z (Z.of_nat 0)) with 0.
    split; [reflexivity|]. split; [constructor|]. split; [ring|].
    split; [exact E | congruence].
  - apply Qlt_bool_iff in E. specialize (Hinv E).
    pose proof (next_new_moon_later m) as Hnew.
    set (next' := next_new_moon m) in *.
    set (lim := if Qle_bool next' end_ then next' else end_).
    assert (Hlim : lim <= next' /\ lim <= end_ /\ m < lim
                   /\ (lim < end_ -> lim = next')).
    { unfold lim. destruct (Qle_bool next' end_) eqn:En.
      - apply Qle_bool_iff in En. repeat split; auto; lra.
      - assert (end_ < next').
        { apply Qnot_le_lt. intros H. apply Qle_bool_iff in H. congruence. }
        repeat split; try lra. }
    destruct Hlim as (Hl1 & Hl2 & Hl3 & Hl4).
    destruct (lunation_loop_spec (Some end_) next next' lim
                (fun x => Qlt_bool_min x next' end_) Hl1
                (loop_fuel m end_ 1) m cds Hinv)
      as (vs1 & m1 & Hrun1 & Hvs1 & Hm1 & Hexit1 & Hlast1 & Hsome1).
    { pose proof (unit_fuel_enough m end_). lra. }
    specialize (Hsome1 Hl3). specialize (Hlast1 Hsome1).
    assert (Hstep : m + 1 <= m1).
    { destruct vs1 as [|v vs1]; [congruence|]. cbn [List.length] in Hm1.
      rewrite inject_succ in Hm1.
      assert (0 <= inject_Z (Z.of_nat (List.length vs1)))
        by (change 0 with (inject_Z 0); rewrite <- Zle_Qle; lia).
      lra. }
    rewrite (st_bind_Done _ _ _ _ _ Hrun1). cbn [fst snd].
    destruct (IH m1 next' (cds ++ vs1))
      as (vs2 & m' & Hrun2 & Hvs2 & Hm' & Hexit2 & Hlast2).
    { intros Hlt. assert (Hlim' : lim < end_) by lra.
      rewrite <- (Hl4 Hlim'). exact Hexit1. }
    { rewrite inject_succ in Hfuel. lra. }
    exists (vs1 ++ vs2), m'. rewrite Hrun2, List.app_assoc.
    split; [reflexivity|]. split; [now apply List.Forall_app|].
    split.
    { rewrite Hm', Hm1, List.length_app, Nat2Z.inj_add, inject_Z_plus.
      ring. }
    split; [exact Hexit2|].
    intros _. destruct vs2 as [|v vs2]; [|apply Hlast2; discriminate].
    cbn [List.length] in Hm'. change (inject_Z (Z.of_nat 0)) with 0 in Hm'.
    lra.
  - apply Qlt_bool_false in E. exists [], m. unfold st_ret.
    rewrite List.app_nil_r. cbn [List.length].
    change (inject_Z (Z.of_nat 0)) with 0.
    split; [reflexivity|]. split; [constructor|]. split; [ring|].
    split; [exact E | congruence].
Qed.

End Cycles.

(** For a year that [pd.date_range] can hold (1678 to 2261), with new
    moons that the oracle places before and after each instant, the next
    one within 30 days, and a zone whose offsets at the two ends of the
    year differ by at most one hour, the phase icon series has one number
    per calendar day of the year, as its length check demands, and every
    number names one of the 28 icons. *)
Theorem phase_day_num_one_per_day
    (pytz_timezone : string -> option (datetime -> Z))
    (previous_new_moon next_new_moon : Q -> Q)
    (next_first_quarter_moon next_full_moon next_last_quarter_moon : Q -> Q)
    (time_zone : string) (zone : datetime -> Z) (year : Z)
    (h : gmap positive Observer) :
  pytz_timezone time_zone = Some zone ->
  (1678 <= year <= 2261)%Z ->
  within_a_day (zone (jan1 year)) ->
  within_a_day (zone (dec31 year)) ->
  (-60 <= zone (jan1 year) - zone (dec31 year) <= 60)%Z ->
  (forall d : Q, previous_new_moon d <= d) ->
  (forall d : Q, d < next_new_moon d) ->
  (forall d : Q, next_new_moon d <= d + 30) ->
  exists (begin end_ : Q) (cycle_days : list Z),
    utc_year_bounds pytz_timezone time_zone year = Ok (begin, end_)
    /\ phase_day_num previous_new_moon next_new_moon next_first_quarter_moon
                     next_full_moon next_last_quarter_moon year begin end_ h
       = Done cycle_days h
    /\ List.length cycle_days = daily_times_length year
    /\ List.Forall (fun v => (0 <= v <= 27)%Z) cycle_days.
Proof.
  intros Hz Hy Hb He Hminutes Hprev Hnext Hwithin.
  pose proof (offset_days_diff _ _ Hminutes) as Hdelta.
  destruct (civil_year_span pytz_timezone time_zone zone year Hz
              ltac:(unfold MAXYEAR; lia) Hb He)
    as (begin & end_ & Hbounds & Hspan).
  destruct (daily_times_length_year year) as (Hdaily & Hyear).
  set (L := if is_leap year then 366%Z else 365%Z) in *.
  assert (HL : (365 <= L)%Z) by (unfold L; destruct (is_leap year); lia).
  assert (HLq : 365 <= inject_Z L)
    by (change 365 with (inject_Z 365); now rewrite <- Zle_Qle).
  assert (H22 : 22 * ephem_hour == 11 # 12) by reflexivity.
  exists begin, end_. unfold phase_day_num.
  set (m0 := begin + 22 * ephem_hour).
  pose proof (Hprev m0) as Hlast0. pose proof (Hnext m0) as Hnext0.
  pose proof (Hwithin m0) as Hwithin0.
  set (last0 := previous_new_moon m0) in *.
  set (next0 := next_new_moon m0) in *.
  destruct (lunation_day_icon next_first_quarter_moon next_full_moon
              next_last_quarter_moon m0 last0 next0 Hlast0 Hnext0)
    as (d0 & Hd0 & Hr0).
  unfold st_bind at 1, st_lift. rewrite Hd0. cbn [List.app].
  destruct (lunation_loop_spec next_first_quarter_moon next_full_moon
              next_last_quarter_moon h None last0 next0 next0
              (fun x => andb_true_r _) (Qle_refl _)
              (loop_fuel (m0 + 1) next0 1) (m0 + 1) [d0])
    as (vs1 & m1 & Hrun1 & Hvs1 & Hm1 & Hexit1 & Hlast1 & _).
  { lra. }
  { apply unit_fuel_enough. }
  rewrite (st_bind_Done _ _ _ _ _ Hrun1). cbn [fst snd].
  destruct (cycles_loop_spec next_new_moon next_first_quarter_moon
              next_full_moon next_last_quarter_moon h Hnext end_
              (loop_fuel m1 end_ 1) m1 next0 ([d0] ++ vs1))
    as (vs2 & m2 & Hrun2 & Hvs2 & Hm2 & Hexit2 & Hlast2).
  { intros _. exact Hexit1. }
  { apply unit_fuel_enough. }
  rewrite (st_bind_Done _ _ _ _ _ Hrun2).
  exists (([d0] ++ vs1) ++ vs2).
  assert (Hfar : m0 + 30 <= end_).
  { unfold m0. rewrite Hyear in Hspan. lra. }
  assert (Hcount : Z.of_nat (List.length (([d0] ++ vs1) ++ vs2)) = L).
  { rewrite !List.length_app. cbn [List.length].
    apply (count_days (end_ - m0)); [lia | | |].
    - unfold m0. rewrite Hyear in Hspan. split; lra.
    - rewrite !Nat2Z.inj_add, !inject_Z_plus.
      change (inject_Z (Z.of_nat 1)) with 1. lra.
    - intros _. rewrite !Nat2Z.inj_add, !inject_Z_plus.
      change (inject_Z (Z.of_nat 1)) with 1.
      assert (H1 : m1 - 1 < end_).
      { destruct vs1 as [|v vs1]; [|specialize (Hlast1 ltac:(discriminate));
                                     lra].
        cbn [List.length] in Hm1.
        change (inject_Z (Z.of_nat 0)) with 0 in Hm1. lra. }
      assert (H2 : m2 - 1 < end_).
      { destruct vs2 as [|v vs2]; [|apply Hlast2; discriminate].
        cbn [List.length] in Hm2.
        change (inject_Z (Z.of_nat 0)) with 0 in Hm2. lra. }
      lra. }
  assert (Hlen : List.length (([d0] ++ vs1) ++ vs2) = daily_times_length year)
    by (rewrite Hdaily; lia).
  split; [exact Hbounds|].
  rewrite Hlen, Nat.eqb_refl. cbn [assert st_lift st_bind st_ret].
  split; [reflexivity|]. split; [reflexivity|].
  apply List.Forall_app. split; [|exact Hvs2].
  apply List.Forall_app. split; [|exact Hvs1].
  now constructor.
Qed.

Lemma phase_day_num_one_per_day_witness :
  let zone := fun _ : datetime => (-480)%Z in
  let pytz_timezone := fun name : string =>
        if String.eqb name "America/Los_Angeles" then Some zone else None in
  let previous_new_moon := fun d : Q => d - (1 # 2) in
  let next_new_moon := fun d : Q => d + 29 in
  let h : gmap positive Observer := {[1%positive := new_Observer]} in
  exists (begin end_ : Q) (cycle_days : list Z),
    utc_year_bounds pytz_timezone "America/Los_Angeles" 2016
    = Ok (begin, end_)
    /\ phase_day_num previous_new_moon next_new_moon
                     (fun t => t + 7) (fun t => t + 15) (fun t => t + 22)
                     2016 begin end_ h
       = Done cycle_days h
    /\ List.length cycle_days = daily_times_length 2016
    /\ List.Forall (fun v => (0 <= v <= 27)%Z) cycle_days.
Proof.
  intros zone pytz_timezone previous_new_moon next_new_moon h.
  apply (phase_day_num_one_per_day pytz_timezone previous_new_moon
           next_new_moon (fun t => t + 7) (fun t => t + 15)
           (fun t => t + 22) "America/Los_Angeles" zone 2016 h).
  - reflexivity.
  - lia.
  - unfold within_a_day, zone. lia.
  - unfold within_a_day, zone. lia.
  - unfold zone. lia.
  - intros d. unfold previous_new_moon. lra.
  - intros d. unfold next_new_moon. lra.
  - intros d. unfold next_new_moon. lra.
Defined.

End AstroMore.

(** ** Rounding a time of day *)

Module TimelineFacts.
Import Timeline.
Local Open Scope Z_scope.

Lemma MAX_value : MAX = 315537897600000000.
Proof. reflexivity. Qed.

Lemma fields (dt : Z) :
  exists q : Z,
    dt = 60000000 * q + 1000000 * second dt + microsecond dt
    /\ 0 <= second dt < 60 /\ 0 <= microsecond dt < 1000000.
Proof.
  unfold second, microsecond. exists (dt / 1000000 / 60).
  pose proof (Z.div_mod dt 1000000 ltac:(lia)).
  pose proof (Z.div_mod (dt / 1000000) 60 ltac:(lia)).
  pose proof (Z.mod_pos_bound dt 1000000 ltac:(lia)).
  pose proof (Z.mod_pos_bound (dt / 1000000) 60 ltac:(lia)).
  lia.
Qed.

Lemma whole_minute (q : Z) :
  second (60000000 * q) = 0 /\ microsecond (60000000 * q) = 0.
Proof.
  unfold second, microsecond.
  replace (60000000 * q) with (60 * q * 1000000) by lia.
  rewrite Z.div_mul, Z.mod_mul by lia.
  replace (60 * q) with (q * 60) by lia. rewrite Z.mod_mul by lia. auto.
Qed.

(** [round_datetime] returns the nearest whole minute, the later one from
    second 30.000000 on: the result is [(dt + 30 s)] cut down to the
    minute, it is within 30 seconds of [dt], and rounding it again changes
    nothing. *)
Theorem round_datetime_nearest_minute (dt : Z) :
  0 <= dt -> dt + 30000000 < MAX ->
  exists r : Z,
    round_datetime dt = Some r
    /\ r = 60000000 * ((dt + 30000000) / 60000000)
    /\ r - 30000000 <= dt < r + 30000000
    /\ second r = 0 /\ microsecond r = 0
    /\ round_datetime r = Some r.
Proof.
  intros Hlo Hhi. rewrite MAX_value in Hhi.
  destruct (fields dt) as (q & Hdt & Hs & Hm).
  assert (Hq : 0 <= q) by lia.
  set (r := 60000000 * ((dt + 30000000) / 60000000)).
  assert (Hr : r = if second dt <? 30 then 60000000 * q
                   else 60000000 * (q + 1)).
  { unfold r. destruct (second dt <? 30) eqn:E;
      [apply Z.ltb_lt in E | apply Z.ltb_ge in E]; f_equal; symmetry.
    - apply (Z.div_unique (dt + 30000000) 60000000 q
               (dt + 30000000 - 60000000 * q)); lia.
    - apply (Z.div_unique (dt + 30000000) 60000000 (q + 1)
               (dt + 30000000 - 60000000 * (q + 1))); lia. }
  assert (Hround : forall x, 0 <= x -> x + 30000000 < MAX ->
            forall qx, x = 60000000 * qx + 1000000 * second x + microsecond x ->
            0 <= second x < 60 -> 0 <= microsecond x < 1000000 ->
            round_datetime x
            = Some (if second x <? 30 then 60000000 * qx
                    else 60000000 * (qx + 1))).
  { intros x Hx0 Hx1 qx Hx Hsx Hmx. rewrite MAX_value in Hx1.
    unfold round_datetime, add_timedelta. rewrite MAX_value.
    destruct (second x <? 30) eqn:E;
      [apply Z.ltb_lt in E | apply Z.ltb_ge in E].
    - replace (x + (0 * 86400 + - second x) * 1000000 + - microsecond x)
        with (60000000 * qx) by lia.
      assert (H1 : (0 <=? 60000000 * qx) = true) by (apply Z.leb_le; lia).
      assert (H2 : (60000000 * qx <? 315537897600000000) = true)
        by (apply Z.ltb_lt; lia).
      now rewrite H1, H2.
    - replace (x + (0 * 86400 + (60 - second x)) * 1000000 + - microsecond x)
        with (60000000 * (qx + 1)) by lia.
      assert (H1 : (0 <=? 60000000 * (qx + 1)) = true)
        by (apply Z.leb_le; lia).
      assert (H2 : (60000000 * (qx + 1) <? 315537897600000000) = true)
        by (apply Z.ltb_lt; lia).
      now rewrite H1, H2. }
  exists r. split.
  { rewrite Hr. apply Hround; auto; now rewrite MAX_value. }
  split; [reflexivity|]. split.
  { rewrite Hr. destruct (second dt <? 30) eqn:E;
      [apply Z.ltb_lt in E | apply Z.ltb_ge in E]; lia. }
  destruct (whole_minute ((dt + 30000000) / 60000000)) as (Hs0 & Hm0).
  fold r in Hs0, Hm0. split; [exact Hs0|]. split; [exact Hm0|].
  assert (Hrange : 0 <= r /\ r + 30000000 < MAX).
  { rewrite MAX_value, Hr. destruct (second dt <? 30) eqn:E;
      [apply Z.ltb_lt in E | apply Z.ltb_ge in E]; lia. }
  rewrite (Hround r (proj1 Hrange) (proj2 Hrange)
             ((dt + 30000000) / 60000000)).
  - rewrite Hs0. reflexivity.
  - rewrite Hs0, Hm0. unfold r. lia.
  - rewrite Hs0. lia.
  - rewrite Hm0. lia.
Qed.

Lemma round_datetime_nearest_minute_witness :
  exists r : Z,
    round_datetime 63587289630000000 = Some r
    /\ r = 60000000 * ((63587289630000000 + 30000000) / 60000000)
    /\ r - 30000000 <= 63587289630000000 < r + 30000000
    /\ second r = 0 /\ microsecond r = 0
    /\ round_datetime r = Some r.
Proof.
  apply (round_datetime_nearest_minute 63587289630000000).
  - lia.
  - reflexivity.
Defined.

(** A valid [datetime] makes [round_datetime] raise [OverflowError]
    exactly in the last 30 seconds of year 9999, where the nearest minute
    is midnight of year 10000. *)
Theorem round_datetime_overflow (dt : Z) :
  0 <= dt < MAX ->
  (round_datetime dt = None <-> MAX - 30000000 <= dt).
Proof.
  intros [Hlo Hhi]. rewrite MAX_value in *.
  destruct (fields dt) as (q & Hdt & Hs & Hm).
  unfold round_datetime, add_timedelta. rewrite MAX_value.
  destruct (second dt <? 30) eqn:E;
    [apply Z.ltb_lt in E | apply Z.ltb_ge in E].
  - replace (dt + (0 * 86400 + - second dt) * 1000000 + - microsecond dt)
      with (60000000 * q) by lia.
    assert (H1 : (0 <=? 60000000 * q) = true) by (apply Z.leb_le; lia).
    assert (H2 : (60000000 * q <? 315537897600000000) = true)
      by (apply Z.ltb_lt; lia).
    rewrite H1, H2. cbn [andb]. split; [discriminate | lia].
  - replace (dt + (0 * 86400 + (60 - second dt)) * 1000000 + - microsecond dt)
      with (60000000 * (q + 1)) by lia.
    assert (H1 : (0 <=? 60000000 * (q + 1)) = true) by (apply Z.leb_le; lia).
    rewrite H1. cbn [andb].
    destruct (60000000 * (q + 1) <? 315537897600000000) eqn:E2;
      [apply Z.ltb_lt in E2 | apply Z.ltb_ge in E2];
      (split; [try discriminate; intros _ | try reflexivity; intros]); lia.
Qed.

Lemma round_datetime_overflow_witness :
  round_datetime (MAX - 30000000) = None <-> MAX - 30000000 <= MAX - 30000000.
Proof.
  apply (round_datetime_overflow (MAX - 30000000)).
  rewrite MAX_value. lia.
Defined.

End TimelineFacts.

(** ** The header of a NOAA file *)

Module HeaderFacts.
Import Header.
Local Open Scope string_scope.




Lemma split_from_length (s sep : string) :
  forall (skip : nat) (piece : string),
    (1 <= List.length (split_from s sep skip piece))%nat.
Proof.
  induction s as [|c s IH]; intros skip piece; cbn [split_from].
  - cbn. lia.
  - destruct skip; [|apply IH].
    destruct (String.prefix sep (String c s)); [cbn [List.length]; lia|].
    apply IH.
Qed.




Lemma find_from_split (s : string) :
  forall (i : Z) (piece : string),
    (0 <= i)%Z -> (0 <= find_from s ": " i)%Z ->
    (2 <= List.length (split_from s ": " 0 piece))%nat.
Proof.
  induction s as [|c s IH]; intros i piece Hi; cbn [find_from split_from].
  - cbn. lia.
  - destruct (String.prefix ": " (String c s)).
    + intros _. cbn [List.length].
      pose proof (split_from_length s ": " (String.length ": " - 1) "").
      lia.
    + apply IH. lia.
Qed.



(** A line that splits into at most two pieces is stored. *)
Lemma entry_returns (line : string) :
  (List.length (split line ": ") <= 2)%nat ->
  exists kv, entry line = Returns kv.
Proof.
  intros Hlen. unfold entry.
  destruct (0 <=? find line ": ")%Z eqn:E; [|eexists; reflexivity].
  apply Z.leb_le in E.
  pose proof (find_from_split line 0 "" ltac:(lia) E) as H2.
  unfold split in *.
  destruct (split_from line ": " 0 "") as [|p1 [|p2 [|p3 ps]]];
    cbn [List.length] in *; try lia.
  eexists. reflexivity.
Qed.

(** The loop over header lines that are neither blank nor malformed: it
    reaches what follows them with one [setitem] per line. *)
Lemma header_loop_entries (header rest : list string) :
  forall metadata : dict,
    List.Forall (fun l => isspace l = false
                          /\ (List.length (split l ": ") <= 2)%nat) header ->
    exists kvs : list (string * string),
      List.Forall2 (fun l kv => entry l = Returns kv) header kvs
      /\ header_loop (header ++ rest) metadata
         = header_loop rest
             (List.fold_left (fun d kv => setitem d (fst kv) (snd kv))
                             kvs metadata).
Proof.
  induction header as [|line header IH]; intros metadata Hall.
  - exists []. split; [constructor | reflexivity].
  - inversion Hall as [|? ? [Hblank Hlen] Hrest]; subst.
    destruct (entry_returns line Hlen) as (kv & Hkv).
    destruct (IH (setitem metadata (fst kv) (snd kv)) Hrest)
      as (kvs & Hkvs & Hrun).
    exists (kv :: kvs). split; [now constructor|].
    cbn [List.app header_loop]. rewrite Hblank, Hkv. cbn [and_then].
    exact Hrun.
Qed.



(** Two files that differ only after the column line leave the loop with
    the same dict and the same next line, or with the same exception. *)
Lemma header_loop_same_head (blank column_names : string)
    (table1 table2 : list string) (header : list string) :
  isspace blank = true ->
  forall metadata : dict,
    (exists r,
       header_loop (header ++ blank :: column_names :: table1) metadata
       = Raises r
       /\ header_loop (header ++ blank :: column_names :: table2) metadata
          = Raises r)
    \/ (exists metadata' unread1 unread2,
          header_loop (header ++ blank :: column_names :: table1) metadata
          = Returns (metadata', unread1)
          /\ header_loop (header ++ blank :: column_names :: table2) metadata
             = Returns (metadata', unread2)
          /\ readline unread1 = readline unread2).
Proof.
  intros Hblank. induction header as [|line header IH]; intros metadata.
  - right. cbn [List.app header_loop]. rewrite Hblank.
    do 3 eexists. repeat split.
  - cbn [List.app header_loop]. destruct (isspace line).
    + right. do 3 eexists. split; [reflexivity|]. split; [reflexivity|].
      destruct header; reflexivity.
    + destruct (entry line) as [kv|r]; cbn [and_then]; [apply IH|].
      left. exists r. split; reflexivity.
Qed.

(** What follows the column line is never read: two files that differ
    only in their data tables give the same result, the same dict and
    column line or the same exception, whatever the header holds. *)
Theorem read_noaa_header_ignores_table
    (header : list string) (blank column_names : string)
    (table1 table2 : list string) :
  isspace blank = true ->
  read_noaa_header (header ++ blank :: column_names :: table1)
  = read_noaa_header (header ++ blank :: column_names :: table2).
Proof.
  intros Hblank. unfold read_noaa_header.
  destruct (header_loop_same_head blank column_names table1 table2 header
              Hblank [])
    as [(r & -> & ->) | (metadata & u1 & u2 & -> & -> & Hline)];
    [reflexivity|].
  cbn [and_then fst snd]. rewrite Hline. reflexivity.
Qed.

Lemma read_noaa_header_ignores_table_witness :
  read_noaa_header
    (["NOAA/NOS/CO-OPS" ++ LF; "Stationid: 9413745" ++ LF]
     ++ LF :: ("Date Day Time" ++ LF) :: ["2015/01/01 Thu 03:18 AM 2.85 87"])
  = read_noaa_header
      (["NOAA/NOS/CO-OPS" ++ LF; "Stationid: 9413745" ++ LF]
       ++ LF :: ("Date Day Time" ++ LF) :: []).
Proof.
  apply (read_noaa_header_ignores_table
           ["NOAA/NOS/CO-OPS" ++ LF; "Stationid: 9413745" ++ LF] LF
           ("Date Day Time" ++ LF) ["2015/01/01 Thu 03:18 AM 2.85 87"] []).
  reflexivity.
Defined.

(** *** The dict of the header *)

Lemma get_setitem (d : dict) (k v k' : string) :
  get (setitem d k v) k' = if String.eqb k k' then Some v else get d k'.
Proof.
  induction d as [|[k0 v0] d IH]; cbn [setitem get]; [reflexivity|].
  destruct (String.eqb k0 k) eqn:E0; cbn [get].
  - apply String.eqb_eq in E0 as ->. now destruct (String.eqb k k').
  - rewrite IH. destruct (String.eqb k0 k') eqn:E1; [|reflexivity].
    apply String.eqb_eq in E1 as ->. rewrite String.eqb_sym, E0.
    reflexivity.
Qed.


Lemma get_fold (kvs : list (string * string)) :
  forall (d : dict) (k : string),
    get d k = None -> ~ List.In k (List.map fst kvs) ->
    get (List.fold_left (fun d kv => setitem d (fst kv) (snd kv)) kvs d) k
    = None.
Proof.
  induction kvs as [|[k0 v0] kvs IH]; intros d k Hd Hin; [exact Hd|].
  cbn [List.fold_left fst snd]. apply IH.
  - rewrite get_setitem. destruct (String.eqb k0 k) eqn:E; [|exact Hd].
    apply String.eqb_eq in E as ->. exfalso. apply Hin. now left.
  - intros H. apply Hin. now right.
Qed.





Lemma entry_keys (header : list string) (kvs : list (string * string)) :
  List.Forall2 (fun l kv => entry l = Returns kv) header kvs ->
  List.map fst kvs = List.map key_of header.
Proof.
  induction 1 as [|line kv header kvs Hkv _ IH]; [reflexivity|].
  cbn [List.map]. unfold key_of at 1. now rewrite Hkv, IH.
Qed.

(** When no header line is stored under the key of the title line
    (["NOAA/NOS/CO-OPS"] and its line feed, the whole line), for instance
    because that line has a trailing blank, the first header check raises
    the [KeyError] of the lookup, not the [ValueError] with the detailed
    message of [_check_that]. *)
Theorem read_noaa_header_missing_title
    (header unread : list string) (blank : string) :
  isspace blank = true ->
  List.Forall (fun l => isspace l = false
                        /\ (List.length (split l ": ") <= 2)%nat) header ->
  ~ List.In ("NOAA/NOS/CO-OPS" ++ LF) (List.map key_of header) ->
  read_noaa_header (header ++ blank :: unread)
  = Raises (KeyError ("NOAA/NOS/CO-OPS" ++ LF)).
Proof.
  intros Hblank Hall Hnotin. unfold read_noaa_header.
  destruct (header_loop_entries header (blank :: unread) [] Hall)
    as (kvs & Hkvs & ->).
  cbn [header_loop]. rewrite Hblank. cbn [and_then fst snd].
  unfold getitem at 1. rewrite get_fold; [reflexivity | reflexivity |].
  now rewrite (entry_keys header kvs Hkvs).
Qed.

Lemma read_noaa_header_missing_title_witness :
  read_noaa_header
    (["NOAA/NOS/CO-OPS " ++ LF; "Stationid: 9413745" ++ LF]
     ++ LF :: ["Date Day Time Pred(Ft) Pred(cm) High/Low" ++ LF])
  = Raises (KeyError ("NOAA/NOS/CO-OPS" ++ LF)).
Proof.
  apply (read_noaa_header_missing_title
           ["NOAA/NOS/CO-OPS " ++ LF; "Stationid: 9413745" ++ LF]
           ["Date Day Time Pred(Ft) Pred(cm) High/Low" ++ LF] LF).
  - reflexivity.
  - repeat constructor.
  - vm_compute. intros [H | [H | []]]; discriminate H.
Defined.

End HeaderFacts.
